(** * The lead-submission server: sanitizer, identifier generator,
      per-IP rate limiter and the [POST /api/lead] handler.

    The server is a Node/Express program.  Its values are JavaScript
    values, its strings are sequences of UTF-16 code units, its shared
    state is one [Map] from client address to timestamp and one
    append-only file.  The embedding keeps those shapes:

    - a string is a [list N] of code units;
    - a request-body value is a [JsVal] (what [JSON.parse] can deliver,
      plus [undefined] for an absent property);
    - an operation that can throw returns a [completion];
    - the [Map] is a [gmap], the file is its text;
    - the clock, [Math.random] and the outcome of file-system calls are
      inputs of the step functions.

    Of the script of the page, the parts that compute are embedded
    too: the object the lead form sends, and the savings simulator
    with its doubles as primitive floats. *)

From Stdlib Require Import ZArith NArith List Ascii String Lia Bool.
From Stdlib Require Import Hexadecimal HexadecimalN HexadecimalPos DecimalString.
From stdpp Require Import base option list gmap.
From Stdlib Require PrimFloat FloatOps SpecFloat FloatAxioms Uint63 DecimalPos.
From Stdlib Require HexadecimalFacts.

Set Warnings "-register-all".
Local Open Scope N_scope.

(** ** Strings *)

Abbreviation JsString := (list N).

(** An ASCII literal of the source as a sequence of code units. *)
Definition js (s : string) : JsString :=
  List.map N_of_ascii (list_ascii_of_string s).

Module Chars.
Definition LF : N := 10.
Definition SPACE : N := 32.
Definition QUOTE : N := 34.
Definition COMMA : N := 44.
Definition BACKSLASH : N := 92.
End Chars.

(** The class [\s] of a regular expression without the [u] flag, which
    is also the set [String.prototype.trim] strips: WhiteSpace and
    LineTerminator of ECMAScript. *)
Definition is_ws (c : N) : bool :=
  (c =? 9) || (c =? 10) || (c =? 11) || (c =? 12) || (c =? 13)
  || (c =? 32) || (c =? 160) || (c =? 5760)
  || ((8192 <=? c) && (c <=? 8202))
  || (c =? 8232) || (c =? 8233) || (c =? 8239) || (c =? 8287)
  || (c =? 12288) || (c =? 65279).

(** [s.replace(/\s+/g, " ")]: every maximal run of [\s] becomes one
    space.  A whitespace unit followed by another one is dropped; the
    last unit of a run is replaced by U+0020. *)
Fixpoint replace_ws_runs (s : JsString) : JsString :=
  match s with
  | [] => []
  | c :: s' =>
      if is_ws c then
        match s' with
        | c' :: _ => if is_ws c' then replace_ws_runs s'
                     else Chars.SPACE :: replace_ws_runs s'
        | [] => [Chars.SPACE]
        end
      else c :: replace_ws_runs s'
  end.

Fixpoint trim_start (s : JsString) : JsString :=
  match s with
  | c :: s' => if is_ws c then trim_start s' else s
  | [] => []
  end.

Fixpoint trim_end (s : JsString) : JsString :=
  match s with
  | [] => []
  | c :: s' =>
      match trim_end s' with
      | [] => if is_ws c then [] else [c]
      | t => c :: t
      end
  end.

(** [s.trim()] *)
Definition trim (s : JsString) : JsString := trim_end (trim_start s).

(** [s.slice(0, max)] for a length [max]: the first [max] code units,
    the whole string when it is shorter. *)
Definition slice0 (max : nat) (s : JsString) : JsString := take max s.

(** [s.slice(k)] for a non-negative [k]. *)
Definition slice_from (k : nat) (s : JsString) : JsString := drop k s.

(** [s.startsWith(p)] *)
Fixpoint startsWith (p s : JsString) : bool :=
  match p, s with
  | [], _ => true
  | a :: p', b :: s' => (a =? b) && startsWith p' s'
  | _ :: _, [] => false
  end.

(** The normalisation part of [safe], on a string already coerced. *)
Definition normalize (max : nat) (s : JsString) : JsString :=
  slice0 max (trim (replace_ws_runs s)).

(** ** Shapes of strings used in the statements *)

Definition ends_with_ws (s : JsString) : bool :=
  match last s with
  | Some c => is_ws c
  | None => false
  end.

(** A string in which whitespace only occurs as single U+0020 units:
    every whitespace unit is a space and is not followed by another
    whitespace unit. *)
Fixpoint single_spaced (s : JsString) : bool :=
  match s with
  | [] => true
  | c :: s' =>
      (if is_ws c then
         (c =? Chars.SPACE) &&
         match s' with c' :: _ => negb (is_ws c') | [] => true end
       else true) && single_spaced s'
  end.

Definition starts_with_ws (s : JsString) : bool :=
  match s with
  | c :: _ => is_ws c
  | [] => false
  end.


(** ** Completions: a call either returns or throws *)

Inductive exn := TypeError | FsError.

Inductive completion (A : Type) : Type :=
| Normal (a : A)
| Throw (e : exn).
Arguments Normal {A} a.
Arguments Throw {A} e.

#[export] Instance completion_ret : MRet completion := fun A a => Normal a.

#[export] Instance completion_bind : MBind completion := fun A B k m =>
  match m with
  | Normal a => k a
  | Throw e => Throw e
  end.

(** ** JavaScript values of a request body *)

(** Numbers are used by the server only through truthiness and through
    conversion to a string, so they are kept behind that interface. *)
Class JsNumber (Num : Type) := {
  (** [!!x]: false for [0], [-0] and [NaN] only *)
  num_truthy : Num -> bool;
  (** [String(x)] *)
  num_to_string : Num -> JsString
}.

(** [JObj] lists the own properties of a parsed object, each key once. *)
Inductive JsVal (Num : Type) : Type :=
| JUndefined
| JNull
| JBool (b : bool)
| JNum (x : Num)
| JStr (s : JsString)
| JArr (elems : list (JsVal Num))
| JObj (props : list (JsString * JsVal Num)).
Arguments JUndefined {Num}.
Arguments JNull {Num}.
Arguments JBool {Num} b.
Arguments JNum {Num} x.
Arguments JStr {Num} s.
Arguments JArr {Num} elems.
Arguments JObj {Num} props.

(** The decimal digits of an integer, with its sign. *)
Definition decimal_units (z : Z) : JsString :=
  js (DecimalString.NilZero.string_of_int (Z.to_int z)).

Local Close Scope N_scope.
Local Open Scope Z_scope.

(** From this magnitude on an integer rounds to [Infinity]. *)
Definition INFINITY_FROM : Z := 2 ^ 1024 - 2 ^ 970.

(** The double nearest to an integer, as the integer it is: 53
    significant bits are kept, and at a tie the even neighbour is
    taken.  Every integer of magnitude up to [2^53] is a double. *)
Definition round_double (z : Z) : Z :=
  let a := Z.abs z in
  let e := Z.log2 a - 52 in
  if e <=? 0 then z
  else
    let q := Z.shiftr a e in
    let r := a - Z.shiftl q e in
    let half := Z.shiftl 1 (e - 1) in
    let q' := if (half <? r) || ((r =? half) && Z.odd q) then q + 1 else q in
    Z.sgn z * Z.shiftl q' e.

Definition digits_count (a : Z) : Z := Z.of_nat (length (decimal_units a)).

(** The pairs [(s, n)] with [s] of [k] digits for which [s * 10^(n-k)]
    is read as the double [x]. *)
Definition digit_candidates (x k : Z) : list (Z * Z) :=
  flat_map
    (fun n =>
       if n <? k then []
       else
         let p := 10 ^ (n - k) in
         let s0 := x / p in
         List.filter
           (fun sn => (10 ^ (k - 1) <=? fst sn) && (fst sn <? 10 ^ k)
                      && (round_double (fst sn * p) =? x))
           [(s0, n); (s0 + 1, n)])
    [digits_count x; digits_count x + 1].

(** Of two candidates the one nearer to [x], the even one at a tie. *)
Definition nearer (x k : Z) (a b : Z * Z) : Z * Z :=
  let da := Z.abs (fst a * 10 ^ (snd a - k) - x) in
  let db := Z.abs (fst b * 10 ^ (snd b - k) - x) in
  if da <? db then a
  else if db <? da then b
  else if Z.even (fst a) then a else b.

(** The fewest digits [s], with their count [k] and the exponent [n],
    that are read back as the double [x]. *)
Fixpoint shortest_digits (fuel : nat) (k x : Z) : Z * Z * Z :=
  match fuel with
  | O => (x, digits_count x, digits_count x)
  | S fuel' =>
      match digit_candidates x k with
      | [] => shortest_digits fuel' (k + 1) x
      | c :: cs => (fold_left (nearer x k) cs c, k)
      end
  end.

(** [String(x)] for the double nearest to the integer [z]: the digits
    of [x] itself up to [2^53]; beyond, the fewest digits that are read
    back as [x], filled with zeros up to 21 digits and in exponent
    notation from there; [Infinity] when [z] is out of range. *)
Definition Number_toString (z : Z) : JsString :=
  if INFINITY_FROM <=? Z.abs z then
    (if z <? 0 then js "-Infinity" else js "Infinity")
  else
    let x := round_double z in
    if Z.abs x <=? 2 ^ 53 then decimal_units x
    else
      let '(s, n, k) := shortest_digits 17 1 (Z.abs x) in
      let text :=
        if n <=? 21 then decimal_units s ++ List.repeat 48%N (Z.to_nat (n - k))
        else
          match decimal_units s with
          | d :: ds =>
              d :: (match ds with [] => [] | _ :: _ => 46%N :: ds end)
                ++ js "e+" ++ decimal_units (n - 1)
          | [] => []
          end in
      if x <? 0 then 45%N :: text else text.

Local Close Scope Z_scope.
Local Open Scope N_scope.

(** The integers among the numbers of a body: [JNum z] is the number
    the numeral [z] denotes, the double nearest to it. *)
#[export] Instance Z_JsNumber : JsNumber Z := {|
  num_truthy z := negb (Z.eqb z 0);
  num_to_string := Number_toString
|}.

Definition own_property {V} (key : JsString) (props : list (JsString * V)) : option V :=
  snd <$> find (fun kv => bool_decide (fst kv = key)) props.

Section Values.
Context {Num : Type} `{JsNumber Num}.

(** [!!v] *)
Definition truthy (v : JsVal Num) : bool :=
  match v with
  | JUndefined | JNull => false
  | JBool b => b
  | JNum x => num_truthy x
  | JStr s => match s with [] => false | _ :: _ => true end
  | JArr _ | JObj _ => true
  end.

(** [String(v)].  An array is joined with commas, [null] and
    [undefined] elements giving the empty string.  An object goes
    through OrdinaryToPrimitive, which calls [toString] and then
    [valueOf] when they are callable and takes the first primitive
    result.  No member of an object parsed from JSON is callable: with
    an own [toString] the first step is skipped, [valueOf] gives no
    primitive, and the conversion throws a TypeError; without one,
    [Object.prototype.toString] answers ["[object Object]"]. *)
Fixpoint ToString (v : JsVal Num) : completion JsString :=
  match v with
  | JUndefined => Normal (js "undefined")
  | JNull => Normal (js "null")
  | JBool true => Normal (js "true")
  | JBool false => Normal (js "false")
  | JNum x => Normal (num_to_string x)
  | JStr s => Normal s
  | JArr elems =>
      (fix join (l : list (JsVal Num)) : completion JsString :=
         match l with
         | [] => Normal []
         | e :: l' =>
             let piece :=
               match e with
               | JUndefined | JNull => Normal []
               | _ => ToString e
               end in
             match l' with
             | [] => piece
             | _ :: _ =>
                 p ← piece; r ← join l'; Normal (p ++ Chars.COMMA :: r)
             end
         end) elems
  | JObj props =>
      match own_property (js "toString") props with
      | Some _ => Throw TypeError
      | None => Normal (js "[object Object]")
      end
  end.

(** Whether [String(v)] meets no object with an own [toString], in [v]
    itself or in the arrays it joins. *)
Fixpoint coercible (v : JsVal Num) : bool :=
  match v with
  | JArr elems => forallb coercible elems
  | JObj props =>
      match own_property (js "toString") props with
      | Some _ => false
      | None => true
      end
  | _ => true
  end.

(** What one element contributes to the join of an array. *)
Definition array_piece (e : JsVal Num) : completion JsString :=
  match e with
  | JUndefined | JNull => Normal []
  | _ => ToString e
  end.

(** [v ?? d] *)
Definition nullish (v d : JsVal Num) : JsVal Num :=
  match v with
  | JUndefined | JNull => d
  | _ => v
  end.

(** [const safe = (v, max = 2000) =>
      String(v ?? "").replace(/\s+/g, " ").trim().slice(0, max)] *)
Definition safe (v : JsVal Num) (max : nat) : completion JsString :=
  s ← ToString (nullish v (JStr [])); Normal (normalize max s).

(** [safe(safe(v, max), max)] *)
Definition safe_twice (v : JsVal Num) (max : nat) : completion JsString :=
  r ← safe v max; safe (JStr r) max.

(** [o.key] on a body value: an own property of an object; nothing
    else a body can be carries one of the keys the handler reads. *)
Definition get (o : JsVal Num) (key : string) : JsVal Num :=
  match o with
  | JObj props => default JUndefined (own_property (js key) props)
  | _ => JUndefined
  end.
End Values.

(** ** Identifier generator *)

Fixpoint hex_units (d : Hexadecimal.uint) : JsString :=
  match d with
  | Hexadecimal.Nil => []
  | Hexadecimal.D0 d => 48 :: hex_units d
  | Hexadecimal.D1 d => 49 :: hex_units d
  | Hexadecimal.D2 d => 50 :: hex_units d
  | Hexadecimal.D3 d => 51 :: hex_units d
  | Hexadecimal.D4 d => 52 :: hex_units d
  | Hexadecimal.D5 d => 53 :: hex_units d
  | Hexadecimal.D6 d => 54 :: hex_units d
  | Hexadecimal.D7 d => 55 :: hex_units d
  | Hexadecimal.D8 d => 56 :: hex_units d
  | Hexadecimal.D9 d => 57 :: hex_units d
  | Hexadecimal.Da d => 97 :: hex_units d
  | Hexadecimal.Db d => 98 :: hex_units d
  | Hexadecimal.Dc d => 99 :: hex_units d
  | Hexadecimal.Dd d => 100 :: hex_units d
  | Hexadecimal.De d => 101 :: hex_units d
  | Hexadecimal.Df d => 102 :: hex_units d
  end.

(** [z.toString(16)] for an integer [z]. *)
Definition toString16 (z : Z) : JsString :=
  match z with
  | Z0 => js "0"
  | Zpos p => hex_units (Pos.to_hex_uint p)
  | Zneg p => 45 :: hex_units (Pos.to_hex_uint p)
  end.

(** [0-9a-f] *)
Definition is_hex_digit (c : N) : bool :=
  ((48 <=? c) && (c <=? 57)) || ((97 <=? c) && (c <=? 102)).

Definition hex_value (c : N) : N :=
  if c <=? 57 then c - 48 else c - 87.

Definition hex_step (acc c : N) : N := 16 * acc + hex_value c.

(** Reading a hexadecimal numeral, most significant digit first. *)
Definition of_hex (s : JsString) : N := fold_left hex_step s 0.

(** What [Math.random().toString(16)] can be: the number is in [0, 1),
    so its radix-16 rendering is ["0"] or ["0."] and fraction digits. *)
Definition random_rendering (r : JsString) : Prop :=
  r = js "0" \/ exists ds, r = js "0." ++ ds /\ forallb is_hex_digit ds = true.

(** [generateId()], given the rendering of the random number and the
    clock reading:
    ["lead_" + Math.random().toString(16).slice(2) + Date.now().toString(16)] *)
Definition generateId (random16 : JsString) (now : Z) : JsString :=
  js "lead_" ++ slice_from 2 random16 ++ toString16 now.

(** ** The lead record and its line in the file *)

Record Lead := {
  id : JsString;
  createdAt : JsString;
  industry : JsString;
  problem : JsString;
  tools : JsString;
  message : JsString;
  contact : JsString;
  website : JsString;
  wantsMvp : bool;
  wantsAutomation : bool
}.

(** A member value of the object the handler serialises. *)
Inductive Scalar := SStr (s : JsString) | SBool (b : bool).

(** The object literal of the handler, in property order. *)
Definition lead_object (l : Lead) : list (JsString * Scalar) :=
  [ (js "id", SStr (id l));
    (js "createdAt", SStr (createdAt l));
    (js "industry", SStr (industry l));
    (js "problem", SStr (problem l));
    (js "tools", SStr (tools l));
    (js "message", SStr (message l));
    (js "contact", SStr (contact l));
    (js "website", SStr (website l));
    (js "wantsMvp", SBool (wantsMvp l));
    (js "wantsAutomation", SBool (wantsAutomation l)) ].

Definition hex_digit (d : N) : N :=
  if d <? 10 then 48 + d else 87 + d.

(** [\uXXXX], lower-case digits. *)
Definition unicode_escape (c : N) : JsString :=
  [Chars.BACKSLASH; 117;
   hex_digit (c / 4096 mod 16); hex_digit (c / 256 mod 16);
   hex_digit (c / 16 mod 16); hex_digit (c mod 16)].

Definition is_high_surrogate (c : N) : bool := (55296 <=? c) && (c <=? 56319).
Definition is_low_surrogate (c : N) : bool := (56320 <=? c) && (c <=? 57343).

(** One code unit that is not the first half of a surrogate pair. *)
Definition escape_unit (c : N) : JsString :=
  if c =? 8 then [Chars.BACKSLASH; 98]
  else if c =? 9 then [Chars.BACKSLASH; 116]
  else if c =? 10 then [Chars.BACKSLASH; 110]
  else if c =? 12 then [Chars.BACKSLASH; 102]
  else if c =? 13 then [Chars.BACKSLASH; 114]
  else if c =? 34 then [Chars.BACKSLASH; Chars.QUOTE]
  else if c =? 92 then [Chars.BACKSLASH; Chars.BACKSLASH]
  else if (c <? 32) || is_high_surrogate c || is_low_surrogate c
       then unicode_escape c
  else [c].

(** The characters between the quotes of [JSON.stringify(s)]
    (well-formed since Node 12): a surrogate pair is copied, a lone
    surrogate is escaped. *)
Fixpoint quote_units (s : JsString) : JsString :=
  match s with
  | [] => []
  | c :: s' =>
      if is_high_surrogate c then
        match s' with
        | d :: s'' =>
            if is_low_surrogate d then c :: d :: quote_units s''
            else unicode_escape c ++ quote_units s'
        | [] => unicode_escape c
        end
      else escape_unit c ++ quote_units s'
  end.

Definition quote (s : JsString) : JsString :=
  Chars.QUOTE :: quote_units s ++ [Chars.QUOTE].

Definition stringify_scalar (v : Scalar) : JsString :=
  match v with
  | SStr s => quote s
  | SBool true => js "true"
  | SBool false => js "false"
  end.

Definition stringify_member (kv : JsString * Scalar) : JsString :=
  quote (fst kv) ++ 58 :: stringify_scalar (snd kv).

Fixpoint stringify_members (ms : list (JsString * Scalar)) : JsString :=
  match ms with
  | [] => []
  | [m] => stringify_member m
  | m :: ms' => stringify_member m ++ Chars.COMMA :: stringify_members ms'
  end.

(** [JSON.stringify(o)] for an object whose members are strings and
    booleans. *)
Definition JSON_stringify (o : list (JsString * Scalar)) : JsString :=
  123 :: stringify_members o ++ [125].

(** ** Reading a line back *)

(** [JSON.parse] is the reader's side of the file and no part of the
    server.  It is modelled for the texts the server writes: an object
    whose members are strings and booleans, without insignificant
    whitespace. *)

Definition unhex (c : N) : option N :=
  if (48 <=? c) && (c <=? 57) then Some (c - 48)
  else if (97 <=? c) && (c <=? 102) then Some (c - 87)
  else if (65 <=? c) && (c <=? 70) then Some (c - 55)
  else None.

Definition simple_escape (e : N) : option N :=
  if e =? 34 then Some 34
  else if e =? 92 then Some 92
  else if e =? 47 then Some 47
  else if e =? 98 then Some 8
  else if e =? 102 then Some 12
  else if e =? 110 then Some 10
  else if e =? 114 then Some 13
  else if e =? 116 then Some 9
  else None.

(** The characters of a string literal after its opening quote: the
    string, and what follows the closing quote. *)
Fixpoint parse_string_body (s : JsString) : option (JsString * JsString) :=
  match s with
  | [] => None
  | c :: s' =>
      if c =? 34 then Some ([], s')
      else if c =? 92 then
        match s' with
        | [] => None
        | e :: s'' =>
            if e =? 117 then
              match s'' with
              | h3 :: h2 :: h1 :: h0 :: s4 =>
                  d3 ← unhex h3; d2 ← unhex h2; d1 ← unhex h1; d0 ← unhex h0;
                  '(r, rest) ← parse_string_body s4;
                  Some ((4096 * d3 + 256 * d2 + 16 * d1 + d0) :: r, rest)
              | _ => None
              end
            else
              u ← simple_escape e;
              '(r, rest) ← parse_string_body s'';
              Some (u :: r, rest)
        end
      else if c <? 32 then None
      else '(r, rest) ← parse_string_body s'; Some (c :: r, rest)
  end.

(** [strip_prefix p s]: what follows [p] in [s]. *)
Fixpoint strip_prefix (p s : JsString) : option JsString :=
  match p, s with
  | [], _ => Some s
  | a :: p', b :: s' => if a =? b then strip_prefix p' s' else None
  | _ :: _, [] => None
  end.

Definition parse_scalar (s : JsString) : option (Scalar * JsString) :=
  match s with
  | [] => None
  | c :: s' =>
      if c =? 34 then
        '(v, rest) ← parse_string_body s'; Some (SStr v, rest)
      else
        match strip_prefix (js "true") s with
        | Some rest => Some (SBool true, rest)
        | None =>
            rest ← strip_prefix (js "false") s; Some (SBool false, rest)
        end
  end.

(** Members up to and including the closing brace. *)
Fixpoint parse_members (fuel : nat) (s : JsString)
  : option (list (JsString * Scalar) * JsString) :=
  match fuel with
  | O => None
  | S fuel' =>
      s1 ← strip_prefix [Chars.QUOTE] s;
      '(k, s2) ← parse_string_body s1;
      s3 ← strip_prefix [58] s2;
      '(v, s4) ← parse_scalar s3;
      match s4 with
      | [] => None
      | c :: s5 =>
          if c =? 125 then Some ([(k, v)], s5)
          else if c =? Chars.COMMA then
            '(ms, rest) ← parse_members fuel' s5; Some ((k, v) :: ms, rest)
          else None
      end
  end.

Definition JSON_parse (s : JsString) : option (list (JsString * Scalar)) :=
  s1 ← strip_prefix [123] s;
  match s1 with
  | [c] => if c =? 125 then Some [] else None
  | _ =>
      match parse_members (length s1) s1 with
      | Some (ms, []) => Some ms
      | _ => None
      end
  end.

(** A text without a line feed: appended with one, it is one line. *)
Definition no_line_feed (s : JsString) : bool :=
  forallb (fun c => negb (c =? Chars.LF)) s.

(** ** The field constraints of a stored object *)

Definition string_member (o : list (JsString * Scalar)) (key : string)
    (p : JsString -> bool) : bool :=
  match own_property (js key) o with
  | Some (SStr s) => p s
  | _ => false
  end.

Definition bool_member (o : list (JsString * Scalar)) (key : string) : bool :=
  match own_property (js key) o with
  | Some (SBool _) => true
  | _ => false
  end.

Definition within (max : nat) (s : JsString) : bool :=
  bool_decide (length s ≤ max)%nat.

Definition nonempty (s : JsString) : bool :=
  match s with [] => false | _ :: _ => true end.

(** The constraints on a stored object that concern the type, the
    prefix and the maximum length of its fields. *)
Definition field_constraints (o : list (JsString * Scalar)) : bool :=
  string_member o "id" (startsWith (js "lead_"))
  && string_member o "createdAt" (fun _ => true)
  && string_member o "industry" (within 80)
  && string_member o "problem" (within 120)
  && string_member o "tools" (within 200)
  && string_member o "message" (within 2000)
  && string_member o "contact" (within 120)
  && string_member o "website" (within 200)
  && bool_member o "wantsMvp"
  && bool_member o "wantsAutomation".

(** The four required fields of a stored object are not empty. *)
Definition required_constraints (o : list (JsString * Scalar)) : bool :=
  string_member o "industry" nonempty
  && string_member o "problem" nonempty
  && string_member o "message" nonempty
  && string_member o "contact" nonempty.

Local Close Scope N_scope.
Local Open Scope Z_scope.

(** ** Requests, responses and the state of the server *)

Inductive Method := GET | POST | OtherMethod.

Record Request (Num : Type) := {
  req_method : Method;
  req_path : JsString;
  (** [req.headers["x-forwarded-for"]] *)
  x_forwarded_for : option JsString;
  (** [req.socket.remoteAddress] *)
  remoteAddress : option JsString;
  (** [req.body], [undefined] when no parser filled it *)
  req_body : JsVal Num
}.
Arguments req_method {Num} _.
Arguments req_path {Num} _.
Arguments x_forwarded_for {Num} _.
Arguments remoteAddress {Num} _.
Arguments req_body {Num} _.

Inductive ResponseBody :=
| BodyOk                       (** [{ ok: true }] *)
| BodyError (error : string).  (** [{ ok: false, error }] *)

Inductive Outcome :=
| Responded (status : nat) (b : ResponseBody)
| Uncaught (e : exn)   (** an exception left to the framework *)
| Elsewhere.           (** served by a route outside the lead pipeline *)

Definition MSG_TOO_FAST : string := "Za szybko. Spróbuj za chwilę.".
Definition MSG_REQUIRED : string := "Uzupełnij: branża, problem, opis, kontakt.".
Definition MSG_SERVER : string := "Błąd serwera. Spróbuj później.".

(** The [data] directory and the text of [data/leads.jsonl] (empty when
    the file does not exist yet). *)
Record FileSystem := {
  data_dir_exists : bool;
  leads_jsonl : JsString
}.

Record Server := {
  lastHitByIp : gmap JsString Z;
  files : FileSystem
}.

(** What one request reads from its environment. *)
Record Env := {
  (** [Date.now()] in the rate limiter *)
  limiter_now : Z;
  (** [Math.random().toString(16)] *)
  random16 : JsString;
  (** [Date.now()] in [generateId] *)
  id_now : Z;
  (** [new Date().toISOString()] *)
  iso_now : JsString;
  (** whether [fs.mkdirSync] returns (it throws otherwise) *)
  mkdir_ok : bool;
  (** whether [fs.appendFile] calls back without an error *)
  append_ok : bool
}.

(** ** Rate limiter *)

(** [h.split(",")[0]] *)
Fixpoint before_comma (h : JsString) : JsString :=
  match h with
  | [] => []
  | c :: h' => if N.eqb c Chars.COMMA then [] else c :: before_comma h'
  end.

(** [a || b] on strings that may be [undefined] *)
Definition or_string (a : option JsString) (b : option JsString) : option JsString :=
  match a with
  | Some (c :: s) => Some (c :: s)
  | _ => b
  end.

(** [req.headers["x-forwarded-for"]?.split(",")[0]?.trim()
      || req.socket.remoteAddress || "unknown"] *)
Definition client_ip {Num} (req : Request Num) : JsString :=
  let forwarded := (fun h => trim (before_comma h)) <$> x_forwarded_for req in
  default (js "unknown")
    (or_string (or_string forwarded (remoteAddress req)) (Some (js "unknown"))).

(** [lastHitByIp.get(ip) || 0] *)
Definition last_hit (m : gmap JsString Z) (ip : JsString) : Z :=
  match m !! ip with
  | Some t => if t =? 0 then 0 else t
  | None => 0
  end.

(** The middleware; [next] is the rest of the application. *)
Definition rate_limiter {Num} (next : Server -> Server * Outcome)
    (req : Request Num) (now : Z) (st : Server) : Server * Outcome :=
  if negb (startsWith (js "/api/") (req_path req)) then next st
  else
    let ip := client_ip req in
    let last := last_hit (lastHitByIp st) ip in
    if now - last <? 3000 then
      (st, Responded 429 (BodyError MSG_TOO_FAST))
    else
      next {| lastHitByIp := <[ip := now]> (lastHitByIp st);
              files := files st |}.

(** Whether the limiter answers the request itself. *)
Definition limiter_rejects {Num} (req : Request Num) (now : Z) (st : Server) : bool :=
  startsWith (js "/api/") (req_path req)
  && (now - last_hit (lastHitByIp st) (client_ip req) <? 3000).

(** The state the limiter hands on when it lets a request through. *)
Definition passed_state (ip : JsString) (now : Z) (st : Server) : Server :=
  {| lastHitByIp := <[ip := now]> (lastHitByIp st); files := files st |}.

(** The map the limiter hands on, or leaves, for a request. *)
Definition map_after_limiter {Num} (req : Request Num) (now : Z) (st : Server)
  : gmap JsString Z :=
  lastHitByIp (fst (rate_limiter (fun s => (s, Elsewhere)) req now st)).

(** ** The handler of [POST /api/lead] *)

Section Handler.
Context {Num : Type} `{JsNumber Num}.

Definition build_lead (b : JsVal Num) (env : Env) : completion Lead :=
  let new_id := generateId (random16 env) (id_now env) in
  let created := iso_now env in
  i ← safe (get b "industry") 80;
  p ← safe (get b "problem") 120;
  t ← safe (get b "tools") 200;
  m ← safe (get b "message") 2000;
  c ← safe (get b "contact") 120;
  w ← safe (get b "website") 200;
  Normal {| id := new_id; createdAt := created;
            industry := i; problem := p; tools := t; message := m;
            contact := c; website := w;
            wantsMvp := truthy (get b "wantsMvp");
            wantsAutomation := truthy (get b "wantsAutomation") |}.

(** [if (!fs.existsSync(dir)) fs.mkdirSync(dir, { recursive: true })] *)
Definition ensure_dir (env : Env) (fsys : FileSystem) : completion FileSystem :=
  if data_dir_exists fsys then Normal fsys
  else if mkdir_ok env then
    Normal {| data_dir_exists := true; leads_jsonl := leads_jsonl fsys |}
  else Throw FsError.

Definition lead_line (l : Lead) : JsString :=
  JSON_stringify (lead_object l) ++ [Chars.LF].

Definition missing_required (b : JsVal Num) : bool :=
  negb (truthy (get b "industry")) || negb (truthy (get b "problem"))
  || negb (truthy (get b "message")) || negb (truthy (get b "contact")).

(** [req.body || {}] *)
Definition body_or_empty (body : JsVal Num) : JsVal Num :=
  if truthy body then body else JObj [].

Definition lead_handler (body : JsVal Num) (env : Env) (fsys : FileSystem)
  : FileSystem * Outcome :=
  let b := body_or_empty body in
  if missing_required b then
    (fsys, Responded 400 (BodyError MSG_REQUIRED))
  else
    match build_lead b env with
    | Throw e => (fsys, Uncaught e)
    | Normal lead =>
        match ensure_dir env fsys with
        | Throw e => (fsys, Uncaught e)
        | Normal fs1 =>
            if append_ok env then
              ({| data_dir_exists := data_dir_exists fs1;
                  leads_jsonl := leads_jsonl fs1 ++ lead_line lead |},
               Responded 200 BodyOk)
            else (fs1, Responded 500 (BodyError MSG_SERVER))
        end
    end.

Definition required_fields : list string :=
  ["industry"; "problem"; "message"; "contact"]%string.

Definition text_fields : list string :=
  ["industry"; "problem"; "tools"; "message"; "contact"; "website"]%string.

(** A submission the handler builds a record from: the four required
    fields are truthy and every text field converts to a string. *)
Definition valid_submission (body : JsVal Num) : bool :=
  forallb (fun k => truthy (get body k)) required_fields
  && forallb (fun k => coercible (get body k)) text_fields.

(** A value that holds text: its conversion to a string returns and
    has a code unit that is not white space. *)
Definition has_text (v : JsVal Num) : bool :=
  match ToString v with
  | Normal s => negb (forallb is_ws s)
  | Throw _ => false
  end.

(** The four required fields hold text. *)
Definition required_filled (body : JsVal Num) : bool :=
  forallb (fun k => has_text (get body k)) required_fields.

(** The directory is there or can be made, and the append succeeds. *)
Definition store_accepts (env : Env) (fsys : FileSystem) : bool :=
  (data_dir_exists fsys || mkdir_ok env) && append_ok env.

(** ** The application *)

(** The routes after the limiter.  [lead_route] is the framework's
    match of a request against [app.post("/api/lead", ...)]; the
    other routes (health check, static files, fallback page) do not
    touch the state. *)
Definition routes (lead_route : Request Num -> bool) (req : Request Num)
    (env : Env) (st : Server) : Server * Outcome :=
  if lead_route req then
    let '(fs', o) := lead_handler (req_body req) env (files st) in
    ({| lastHitByIp := lastHitByIp st; files := fs' |}, o)
  else (st, Elsewhere).

Definition app (lead_route : Request Num -> bool) (req : Request Num)
    (env : Env) (st : Server) : Server * Outcome :=
  rate_limiter (routes lead_route req env) req (limiter_now env) st.

(** Requests served one after the other. *)
Fixpoint serve (lead_route : Request Num -> bool)
    (reqs : list (Request Num * Env)) (st : Server) : Server * list Outcome :=
  match reqs with
  | [] => (st, [])
  | (req, env) :: reqs' =>
      let '(st1, o) := app lead_route req env st in
      let '(st2, os) := serve lead_route reqs' st1 in
      (st2, o :: os)
  end.
End Handler.

Definition initial_server : Server :=
  {| lastHitByIp := ∅;
     files := {| data_dir_exists := false; leads_jsonl := [] |} |}.

Definition no_routes (st : Server) : Server * Outcome := (st, Elsewhere).

(** [A-Z] to [a-z] *)
Definition to_lower (c : N) : N :=
  if ((65 <=? c) && (c <=? 90))%N then (c + 32)%N else c.

(** A request matches [app.post("/api/lead", ...)] when it is a POST
    and its path is [/api/lead], in any case of the letters and with
    or without a slash at the end: the routing of the framework as the
    application leaves it, neither case sensitive nor strict. *)
Definition post_api_lead {Num} (req : Request Num) : bool :=
  match req_method req with
  | POST =>
      let p := map to_lower (req_path req) in
      bool_decide (p = js "/api/lead") || bool_decide (p = js "/api/lead/")
  | _ => false
  end.

(** ** Sample data for the examples *)

Definition sample_env : Env :=
  {| limiter_now := 1700000000000;
     random16 := js "0.8f3a2c";
     id_now := 1700000000001;
     iso_now := js "2023-11-14T22:13:20.001Z";
     mkdir_ok := true;
     append_ok := true |}.

Definition sample_body (industry_value tools_value : JsVal Z) : JsVal Z :=
  JObj [ (js "industry", industry_value);
         (js "problem", JStr (js "Brak czasu"));
         (js "tools", tools_value);
         (js "message", JStr (js "Potrzebuje pomocy"));
         (js "contact", JStr (js "jan@x.pl")) ].

Definition sample_lead (industry_value : JsString) : Lead :=
  {| id := js "lead_8f3a2c18bcfe56801";
     createdAt := js "2023-11-14T22:13:20.001Z";
     industry := industry_value;
     problem := js "Brak czasu";
     tools := [];
     message := js "Potrzebuje pomocy";
     contact := js "jan@x.pl";
     website := [];
     wantsMvp := false;
     wantsAutomation := false |}.

Definition empty_disk : FileSystem :=
  {| data_dir_exists := false; leads_jsonl := [] |}.

Definition sample_flags_body : JsVal Z :=
  JObj [ (js "industry", JStr (js "Handel"));
         (js "problem", JStr (js "Brak czasu"));
         (js "message", JStr (js "Potrzebuje pomocy"));
         (js "contact", JStr (js "jan@x.pl"));
         (js "wantsMvp", JStr (js "false")) ].

Definition sample_flags_lead : Lead :=
  {| id := js "lead_8f3a2c18bcfe56801";
     createdAt := js "2023-11-14T22:13:20.001Z";
     industry := js "Handel";
     problem := js "Brak czasu";
     tools := [];
     message := js "Potrzebuje pomocy";
     contact := js "jan@x.pl";
     website := [];
     wantsMvp := true;
     wantsAutomation := false |}.

(** A ticked box and a zero. *)
Definition sample_ticked_body : JsVal Z :=
  JObj [ (js "industry", JStr (js "Handel"));
         (js "problem", JStr (js "Brak czasu"));
         (js "message", JStr (js "Potrzebuje pomocy"));
         (js "contact", JStr (js "jan@x.pl"));
         (js "wantsMvp", JBool true);
         (js "wantsAutomation", JNum 0%Z) ].

Definition sample_request (path : string) (body : JsVal Z) : Request Z :=
  {| req_method := POST;
     req_path := js path;
     x_forwarded_for := Some (js "1.2.3.4");
     remoteAddress := Some (js "::1");
     req_body := body |}.
(** ** Words of a text *)

Local Close Scope Z_scope.
Local Open Scope N_scope.

(** The maximal runs of non-whitespace code units of a string, in
    order. *)
Fixpoint words (s : JsString) : list JsString :=
  match s with
  | [] => []
  | c :: s' =>
      if is_ws c then words s'
      else if starts_with_ws s' then [c] :: words s'
      else match words s' with
           | w :: ws => (c :: w) :: ws
           | [] => [[c]]
           end
  end.

(** Words joined by single spaces. *)
Fixpoint unwords (ws : list JsString) : JsString :=
  match ws with
  | [] => []
  | [w] => w
  | w :: ws' => w ++ Chars.SPACE :: unwords ws'
  end.

(** The lines of a text: what stands before each line feed. *)
Fixpoint lines_from (cur : JsString) (s : JsString) : list JsString :=
  match s with
  | [] => match cur with [] => [] | _ :: _ => [rev cur] end
  | c :: s' =>
      if c =? Chars.LF then rev cur :: lines_from [] s'
      else lines_from (c :: cur) s'
  end.

Definition file_lines (s : JsString) : list JsString := lines_from [] s.

Local Close Scope N_scope.
Local Open Scope Z_scope.

(** Whether an answer is the one of a stored lead. *)
Definition is_stored (o : Outcome) : bool :=
  match o with
  | Responded status BodyOk => Nat.eqb status 200
  | _ => false
  end.

Definition count_stored (os : list Outcome) : nat :=
  length (List.filter is_stored os).


(** ** The lead form of the page *)

(** What the submit listener reads from the form: the value of a
    control is a string; [website] and the two check boxes are read
    with [?.], so the form may lack them. *)
Record LeadForm := {
  form_industry : JsString;
  form_problem : JsString;
  form_tools : JsString;
  form_message : JsString;
  form_contact : JsString;
  form_website : option JsString;
  form_wantsMvp : option bool;
  form_wantsAutomation : option bool
}.

(** [v || e] with [e] the empty string *)
Definition string_or_empty (v : option JsString) : JsString :=
  default [] (or_string v (Some [])).

(** [c || false] *)
Definition bool_or_false (c : option bool) : bool := default false c.

(** The object literal [data] of the listener, in property order. *)
Definition form_data (f : LeadForm) : list (JsString * Scalar) :=
  [ (js "industry", SStr (form_industry f));
    (js "problem", SStr (form_problem f));
    (js "tools", SStr (string_or_empty (Some (form_tools f))));
    (js "message", SStr (form_message f));
    (js "contact", SStr (form_contact f));
    (js "website", SStr (string_or_empty (form_website f)));
    (js "wantsMvp", SBool (bool_or_false (form_wantsMvp f)));
    (js "wantsAutomation", SBool (bool_or_false (form_wantsAutomation f))) ].

Local Close Scope Z_scope.
Local Open Scope N_scope.

(** The number of bytes of a string sent as UTF-8: a surrogate pair
    takes four, any other code unit one, two or three. *)
Fixpoint utf8_length (s : JsString) : N :=
  match s with
  | [] => 0
  | c :: s' =>
      if c <? 128 then 1 + utf8_length s'
      else if c <? 2048 then 2 + utf8_length s'
      else if is_high_surrogate c then
        match s' with
        | d :: s'' =>
            if is_low_surrogate d then 4 + utf8_length s''
            else 3 + utf8_length s'
        | [] => 3
        end
      else 3 + utf8_length s'
  end.

(** [express.json({ limit: "200kb" })]: the largest body, in bytes,
    that the parser reads. *)
Definition JSON_LIMIT : N := 200 * 1024.

Local Close Scope N_scope.
Local Open Scope Z_scope.

(** What becomes of a request on its way to the handler. *)
Inductive Delivery :=
| TooLarge            (** refused by the body parser with 413: no
                          middleware after it runs *)
| Unparsed            (** refused by the body parser: not the text of
                          an object *)
| Served (o : Outcome).

Section Wire.
Context {Num : Type} `{JsNumber Num}.

Definition scalar_value (v : Scalar) : JsVal Num :=
  match v with
  | SStr s => JStr s
  | SBool b => JBool b
  end.

(** The value the body parser hands to the handler for the text of an
    object whose members are strings and booleans. *)
Definition parsed_body (wire : JsString) : option (JsVal Num) :=
  o ← JSON_parse wire;
  Some (JObj (map (fun kv => (fst kv, scalar_value (snd kv))) o)).

(** The object the handler receives for a form. *)
Definition form_body (f : LeadForm) : JsVal Num :=
  JObj (map (fun kv => (fst kv, scalar_value (snd kv))) (form_data f)).

(** The request of [fetch("/api/lead", { method: "POST", ... })] as
    it reaches the application from a connection with the given
    forwarded-for header and socket address. *)
Definition form_request (xff remote : option JsString) (body : JsVal Num)
  : Request Num :=
  {| req_method := POST;
     req_path := js "/api/lead";
     x_forwarded_for := xff;
     remoteAddress := remote;
     req_body := body |}.

(** The form sent and served: [JSON.stringify(data)] on the page; on
    the server the body parser with its limit, then the limiter and
    the routes. *)
Definition submit_form (f : LeadForm) (xff remote : option JsString)
    (env : Env) (st : Server) : Server * Delivery :=
  let wire := JSON_stringify (form_data f) in
  if (JSON_LIMIT <? utf8_length wire)%N then (st, TooLarge)
  else
    match parsed_body wire with
    | None => (st, Unparsed)
    | Some body =>
        let '(st', o) := app post_api_lead (form_request xff remote body) env st in
        (st', Served o)
    end.

(** The record of a form: each text field as its words joined by
    single spaces and cut at its maximum, the flags as the states of
    the check boxes. *)
Definition form_lead (f : LeadForm) (env : Env) : Lead :=
  {| id := generateId (random16 env) (id_now env);
     createdAt := iso_now env;
     industry := take 80 (unwords (words (form_industry f)));
     problem := take 120 (unwords (words (form_problem f)));
     tools := take 200 (unwords (words (form_tools f)));
     message := take 2000 (unwords (words (form_message f)));
     contact := take 120 (unwords (words (form_contact f)));
     website := take 200 (unwords (words (default [] (form_website f))));
     wantsMvp := default false (form_wantsMvp f);
     wantsAutomation := default false (form_wantsAutomation f) |}.
End Wire.

(** Whether one of the four required controls is empty. *)
Definition form_incomplete (f : LeadForm) : bool :=
  negb (nonempty (form_industry f)) || negb (nonempty (form_problem f))
  || negb (nonempty (form_message f)) || negb (nonempty (form_contact f)).


(** ** The savings simulator of the page *)

(** Numbers of the simulator.  What [sanitize] returns is an integer
    between its bounds, held as a [Z]; [calculate] works on doubles,
    which are primitive floats here.  [number z] is the double of an
    integer of magnitude below [2^53], where every integer is a
    double. *)
Definition number (z : Z) : PrimFloat.float :=
  match z with
  | Zneg p => PrimFloat.opp (PrimFloat.of_uint63 (Uint63.of_Z (Zpos p)))
  | _ => PrimFloat.of_uint63 (Uint63.of_Z z)
  end.

(** The integer a double is, when it is one of magnitude [2^52] or
    more. *)
Definition float_integer (x : PrimFloat.float) : Z :=
  match FloatOps.Prim2SF x with
  | SpecFloat.S754_finite s m e =>
      if s then - (Z.pos m * 2 ^ e) else Z.pos m * 2 ^ e
  | _ => 0
  end.

(** [Math.round(x)]: [x] itself when it is not finite or is an
    integer, and otherwise the integer nearest to it, the upper one
    at a tie, with the sign of [x] when that is zero. *)
Definition Math_round (x : PrimFloat.float) : PrimFloat.float :=
  match FloatOps.Prim2SF x with
  | SpecFloat.S754_finite s m e =>
      if 0 <=? e then x
      else
        let d := Z.shiftl 1 (- e) in
        let sm := if s then Zneg m else Zpos m in
        let r := (2 * sm + d) / (2 * d) in
        if r =? 0 then (if s then PrimFloat.neg_zero else PrimFloat.zero)
        else number r
  | _ => x
  end.

Local Close Scope Z_scope.
Local Open Scope N_scope.

(** [0-9] *)
Definition is_digit (c : N) : bool := (48 <=? c) && (c <=? 57).

(** The value of the decimal digits a string starts with, continuing
    from [acc]. *)
Fixpoint digits_value (acc : N) (s : JsString) : N :=
  match s with
  | [] => acc
  | c :: s' => if is_digit c then digits_value (10 * acc + (c - 48)) s' else acc
  end.

Definition starts_with_digit (s : JsString) : bool :=
  match s with
  | c :: _ => is_digit c
  | [] => false
  end.

(** The code units of a decimal numeral. *)
Fixpoint dec_units (d : Decimal.uint) : JsString :=
  match d with
  | Decimal.Nil => []
  | Decimal.D0 d => 48 :: dec_units d
  | Decimal.D1 d => 49 :: dec_units d
  | Decimal.D2 d => 50 :: dec_units d
  | Decimal.D3 d => 51 :: dec_units d
  | Decimal.D4 d => 52 :: dec_units d
  | Decimal.D5 d => 53 :: dec_units d
  | Decimal.D6 d => 54 :: dec_units d
  | Decimal.D7 d => 55 :: dec_units d
  | Decimal.D8 d => 56 :: dec_units d
  | Decimal.D9 d => 57 :: dec_units d
  end.

Local Close Scope N_scope.
Local Open Scope Z_scope.

(** [parseInt(s, 10)] on a string, [None] for [NaN]: white space at
    the start is skipped, a sign is read, then the decimal digits up
    to the first other code unit; without a digit there the result is
    [NaN].  The integer is the mathematical one that the digits
    denote; [round_double] gives the double it becomes. *)
Definition parseInt10 (s : JsString) : option Z :=
  let t := trim_start s in
  let '(negative, u) :=
    match t with
    | c :: u' =>
        if (c =? 45)%N then (true, u')
        else if (c =? 43)%N then (false, u')
        else (false, t)
    | [] => (false, t)
    end in
  match u with
  | c :: _ =>
      if is_digit c then
        let n := Z.of_N (digits_value 0 u) in
        Some (if negative then - n else n)
      else None
  | [] => None
  end.

(** [Number.isFinite] of the double of an integer *)
Definition Number_isFinite (z : Z) : bool := Z.abs z <? INFINITY_FROM.

(** An integer that is a double. *)
Definition is_double (z : Z) : bool :=
  (round_double z =? z) && Number_isFinite z.

Module SimulatorModule.
Import PrimFloat.

Record Inputs := {
  teamSize : Z;
  decisions : Z;
  manualHours : Z;
  hourlyRate : Z
}.

Record Results := {
  monthlyHours : float;
  monthlyCost : float;
  optimizedCost : float;
  savings : float
}.

(** [CONFIG.simulator.weeksPerMonth] *)
Definition weeksPerMonth : float := 4.

(** [CONFIG.simulator.optimizationPercentage], [0.4]: the double
    nearest to it, written in full. *)
Definition optimizationPercentage : float := 0x1.999999999999ap-2.

Section Simulator.
Context {Num : Type} `{JsNumber Num}.

(** [(value, min = 0, max = 10000, defaultVal = 5) => {
       const num = parseInt(value, 10);
       if (!Number.isFinite(num)) return defaultVal;
       return Math.max(min, Math.min(max, num)); }]
    [num] is the double nearest to the integer that is read; the
    bounds and the default are integers that are doubles, and the
    result is given as the integer it is (the sign of a zero is not
    kept). *)
Definition sanitize (value : JsVal Num) (min max defaultVal : Z) : completion Z :=
  s ← ToString value;
  match parseInt10 s with
  | None => Normal defaultVal
  | Some num =>
      if Number_isFinite num then Normal (Z.max min (Z.min max (round_double num)))
      else Normal defaultVal
  end.

(** [newInputs.key]: reading a property of [undefined] or [null]
    throws. *)
Definition property (o : JsVal Num) (key : string) : completion (JsVal Num) :=
  match o with
  | JUndefined | JNull => Throw TypeError
  | _ => Normal (get o key)
  end.

Definition validateInputs (newInputs : JsVal Num) : completion Inputs :=
  v1 ← property newInputs "teamSize";
  t ← sanitize v1 1 1000 5;
  v2 ← property newInputs "decisions";
  d ← sanitize v2 1 500 20;
  v3 ← property newInputs "manualHours";
  m ← sanitize v3 1 200 40;
  v4 ← property newInputs "hourlyRate";
  h ← sanitize v4 10 300 50;
  Normal {| teamSize := t; decisions := d; manualHours := m; hourlyRate := h |}.

(** [calculate(newInputs)].  The assignment [inputs = validated] is
    to a variable of the module that nothing reads. *)
Definition calculate (newInputs : JsVal Num) : completion Results :=
  validated ← validateInputs newInputs;
  let monthlyHours := (number (manualHours validated) * weeksPerMonth)%float in
  let monthlyCost := (monthlyHours * number (hourlyRate validated))%float in
  let optimizedCost :=
    Math_round (monthlyCost * (1 - optimizationPercentage))%float in
  let savings := (monthlyCost - optimizedCost)%float in
  Normal {| monthlyHours := monthlyHours; monthlyCost := monthlyCost;
            optimizedCost := optimizedCost; savings := savings |}.
End Simulator.

End SimulatorModule.

(** An input that holds no number: absent, [null], a boolean or a
    string of white space. *)
Definition blank_input {Num} (v : JsVal Num) : bool :=
  match v with
  | JUndefined | JNull | JBool _ => true
  | JStr s => forallb is_ws s
  | _ => false
  end.

(** The results of [calculate] for validated hours and rate, as
    integers: the cost, and three fifths of it rounded, the upper
    integer at a tie. *)
Definition cost_of (h r : Z) : Z := 4 * h * r.
Definition optimized_of (h r : Z) : Z := (3 * cost_of h r + 2) / 5.

Definition cost_check (h r : Z) : bool :=
  let monthlyHours := PrimFloat.mul (number h) SimulatorModule.weeksPerMonth in
  let monthlyCost := PrimFloat.mul monthlyHours (number r) in
  let optimizedCost :=
    Math_round (PrimFloat.mul monthlyCost
                  (PrimFloat.sub PrimFloat.one
                     SimulatorModule.optimizationPercentage)) in
  let savings := PrimFloat.sub monthlyCost optimizedCost in
  PrimFloat.Leibniz.eqb monthlyHours (number (4 * h))
  && PrimFloat.Leibniz.eqb monthlyCost (number (cost_of h r))
  && PrimFloat.Leibniz.eqb optimizedCost (number (optimized_of h r))
  && PrimFloat.Leibniz.eqb savings (number (cost_of h r - optimized_of h r)).

(** [P] on the [n] integers from [z]. *)
Fixpoint all_from (n : nat) (z : Z) (P : Z -> bool) : bool :=
  match n with
  | O => true
  | S n' => P z && all_from n' (z + 1) P
  end.
(** * Properties *)

(** ** Strings *)

Local Close Scope Z_scope.
Local Open Scope N_scope.

Lemma is_ws_space : is_ws Chars.SPACE = true.
Proof. reflexivity. Qed.

Lemma single_spaced_cons c s :
  single_spaced (c :: s) =
  (if is_ws c then (c =? Chars.SPACE) && negb (starts_with_ws s) else true) && single_spaced s.
Proof. destruct s; simpl; destruct (is_ws c); rewrite ?andb_true_r; reflexivity. Qed.

Lemma replace_ws_runs_head s :
  starts_with_ws (replace_ws_runs s) = starts_with_ws s.
Proof.
  induction s as [|c s IH]; [done|].
  simpl. destruct (is_ws c) eqn:Hc.
  - destruct s as [|c' s']; [done|].
    destruct (is_ws c') eqn:Hc'; [|done].
    rewrite IH. simpl. done.
  - simpl. done.
Qed.

Lemma replace_ws_runs_single_spaced s : single_spaced (replace_ws_runs s) = true.
Proof.
  induction s as [|c s IH]; [done|].
  cbn [replace_ws_runs]. destruct (is_ws c) eqn:Hc.
  - destruct s as [|c' s']; [done|].
    destruct (is_ws c') eqn:Hc'; [done|].
    rewrite single_spaced_cons, IH, replace_ws_runs_head. simpl. rewrite Hc'. done.
  - rewrite single_spaced_cons, Hc, IH. done.
Qed.

Lemma trim_start_head s : starts_with_ws (trim_start s) = false.
Proof.
  induction s as [|c s IH]; [done|].
  simpl. destruct (is_ws c) eqn:Hc; [done|]. simpl. done.
Qed.

Lemma trim_start_id s : starts_with_ws s = false -> trim_start s = s.
Proof. destruct s as [|c s]; [done|]. simpl. by intros ->. Qed.

Lemma trim_start_suffix s : exists k, trim_start s = drop k s.
Proof.
  induction s as [|c s [k IH]]; [by exists 0%nat|].
  simpl. destruct (is_ws c); [by exists (S k) | by exists 0%nat].
Qed.

Lemma trim_end_prefix s : exists k, trim_end s = take k s.
Proof.
  induction s as [|c s [k IH]]; [by exists 0%nat|].
  simpl. destruct (trim_end s) as [|d t] eqn:Ht.
  - destruct (is_ws c); [by exists 0%nat | by exists 1%nat].
  - exists (S k). simpl. by rewrite IH.
Qed.

Lemma ends_with_ws_cons c d s : ends_with_ws (c :: d :: s) = ends_with_ws (d :: s).
Proof. reflexivity. Qed.

Lemma trim_end_tail s : ends_with_ws (trim_end s) = false.
Proof.
  induction s as [|c s IH]; [done|].
  simpl. destruct (trim_end s) as [|d t] eqn:Ht.
  - destruct (is_ws c) eqn:Hc; [done|]. unfold ends_with_ws. simpl. done.
  - by rewrite ends_with_ws_cons.
Qed.

Lemma trim_end_id s : ends_with_ws s = false -> trim_end s = s.
Proof.
  induction s as [|c s IH]; [done|].
  destruct s as [|d s'].
  - unfold ends_with_ws. simpl. by intros ->.
  - rewrite ends_with_ws_cons. intros Hs.
    change (trim_end (c :: d :: s')) with
      (match trim_end (d :: s') with
       | [] => if is_ws c then [] else [c]
       | t => c :: t
       end).
    by rewrite (IH Hs).
Qed.

Lemma trim_end_fixed s : trim_end s = s <-> ends_with_ws s = false.
Proof.
  split; [|apply trim_end_id].
  intros Hs. rewrite <- Hs. apply trim_end_tail.
Qed.

Lemma starts_with_ws_take n s :
  starts_with_ws s = false -> starts_with_ws (take n s) = false.
Proof. destruct s, n; done. Qed.

Lemma single_spaced_tail c s : single_spaced (c :: s) = true -> single_spaced s = true.
Proof. rewrite single_spaced_cons. intros [_ ?]%andb_prop. done. Qed.

Lemma single_spaced_drop k s : single_spaced s = true -> single_spaced (drop k s) = true.
Proof.
  revert s. induction k as [|k IH]; intros [|c s] Hs; try done.
  simpl. apply IH. by eapply single_spaced_tail.
Qed.

Lemma single_spaced_take n s : single_spaced s = true -> single_spaced (take n s) = true.
Proof.
  revert s. induction n as [|n IH]; intros [|c s] Hs; try done.
  cbn [take]. rewrite single_spaced_cons in *.
  apply andb_prop in Hs as [Hc Hs]. rewrite (IH _ Hs), andb_true_r.
  destruct (is_ws c); [|done].
  apply andb_prop in Hc as [-> Hn]. simpl.
  apply negb_true_iff in Hn. by rewrite starts_with_ws_take.
Qed.

Lemma replace_ws_runs_id s : single_spaced s = true -> replace_ws_runs s = s.
Proof.
  induction s as [|c s IH]; [done|].
  intros Hs. pose proof (single_spaced_tail _ _ Hs) as Hs'.
  rewrite single_spaced_cons in Hs. apply andb_prop in Hs as [Hc _].
  cbn [replace_ws_runs]. destruct (is_ws c) eqn:Hws.
  - apply andb_prop in Hc as [Heq Hn]. apply N.eqb_eq in Heq. subst c.
    apply negb_true_iff in Hn.
    destruct s as [|d s']; [done|]. simpl in Hn. rewrite Hn, (IH Hs'). done.
  - by rewrite (IH Hs').
Qed.

(** The collapsed and trimmed text: single-spaced, no whitespace at
    either end. *)
Lemma trim_replace_shape s :
  let t := trim (replace_ws_runs s) in
  single_spaced t = true /\ starts_with_ws t = false /\ ends_with_ws t = false.
Proof.
  cbn zeta. unfold trim.
  destruct (trim_start_suffix (replace_ws_runs s)) as [k Hk].
  destruct (trim_end_prefix (trim_start (replace_ws_runs s))) as [n Hn].
  split; [|split].
  - rewrite Hn, Hk. apply single_spaced_take, single_spaced_drop,
      replace_ws_runs_single_spaced.
  - rewrite Hn. apply starts_with_ws_take, trim_start_head.
  - apply trim_end_tail.
Qed.

Lemma normalize_shape max s :
  single_spaced (normalize max s) = true /\ starts_with_ws (normalize max s) = false.
Proof.
  destruct (trim_replace_shape s) as (H1 & H2 & _).
  unfold normalize, slice0. split.
  - by apply single_spaced_take.
  - by apply starts_with_ws_take.
Qed.

Lemma normalize_length max s : (length (normalize max s) <= max)%nat.
Proof. unfold normalize, slice0. rewrite length_take. lia. Qed.

Lemma trim_end_length s : (length (trim_end s) <= length s)%nat.
Proof.
  destruct (trim_end_prefix s) as [k ->]. rewrite length_take. lia.
Qed.

(** A second pass of the normalisation only strips what the cut of the
    first pass left at the end. *)
Lemma normalize_twice max s :
  normalize max (normalize max s) = trim_end (normalize max s).
Proof.
  destruct (normalize_shape max s) as [Hsp Hst].
  unfold normalize at 1. rewrite (replace_ws_runs_id _ Hsp).
  unfold trim. rewrite (trim_start_id _ Hst).
  unfold slice0. apply take_ge.
  etrans; [apply trim_end_length | apply normalize_length].
Qed.

Lemma normalize_no_cut max s :
  (length (trim (replace_ws_runs s)) <= max)%nat ->
  normalize max s = trim (replace_ws_runs s).
Proof. intros Hl. unfold normalize, slice0. by apply take_ge. Qed.

Lemma replace_ws_runs_cons c s :
  replace_ws_runs (c :: s) =
  if is_ws c then
    if starts_with_ws s then replace_ws_runs s
    else Chars.SPACE :: replace_ws_runs s
  else c :: replace_ws_runs s.
Proof. destruct s; reflexivity. Qed.

Lemma starts_with_ws_app u v :
  starts_with_ws (u ++ v) = match u with [] => starts_with_ws v | c :: _ => is_ws c end.
Proof. destruct u; reflexivity. Qed.

(** A string without whitespace is left as it is. *)
Lemma replace_ws_runs_no_ws s :
  forallb (fun c => negb (is_ws c)) s = true -> replace_ws_runs s = s.
Proof.
  induction s as [|c s IH]; [done|].
  simpl forallb. intros [Hc Hs]%andb_prop. apply negb_true_iff in Hc.
  rewrite replace_ws_runs_cons, Hc, (IH Hs). done.
Qed.

(** A run of whitespace before a non-whitespace unit or the end becomes
    one space. *)
Lemma replace_ws_runs_leading w v :
  w <> [] -> forallb is_ws w = true -> starts_with_ws v = false ->
  replace_ws_runs (w ++ v) = Chars.SPACE :: replace_ws_runs v.
Proof.
  induction w as [|c w IH]; [done|].
  intros _ [Hc Hw]%andb_prop Hv.
  change ((c :: w) ++ v) with (c :: (w ++ v)).
  rewrite replace_ws_runs_cons, Hc, starts_with_ws_app.
  destruct w as [|d w'].
  - simpl. by rewrite Hv.
  - pose proof Hw as Hw2.
    change (forallb is_ws (d :: w')) with (is_ws d && forallb is_ws w') in Hw2.
    apply andb_prop in Hw2 as [Hd _]. rewrite Hd.
    by apply IH.
Qed.

(** Every maximal run of whitespace, wherever it stands, becomes one
    space, and the text around it is treated on its own. *)
Lemma replace_ws_runs_run u w v :
  ends_with_ws u = false -> w <> [] -> forallb is_ws w = true ->
  starts_with_ws v = false ->
  replace_ws_runs (u ++ w ++ v) =
  replace_ws_runs u ++ Chars.SPACE :: replace_ws_runs v.
Proof.
  intros Hu Hw Hall Hv. induction u as [|c u IH].
  - change (replace_ws_runs (w ++ v) = Chars.SPACE :: replace_ws_runs v).
    by apply replace_ws_runs_leading.
  - change ((c :: u) ++ w ++ v) with (c :: (u ++ w ++ v)).
    rewrite !replace_ws_runs_cons, starts_with_ws_app.
    destruct u as [|d u'].
    + unfold ends_with_ws in Hu. simpl in Hu. rewrite Hu.
      change (c :: replace_ws_runs (w ++ v) =
              c :: Chars.SPACE :: replace_ws_runs v).
      f_equal. by apply replace_ws_runs_leading.
    + rewrite ends_with_ws_cons in Hu. specialize (IH Hu).
      cbn [starts_with_ws]. rewrite IH.
      destruct (is_ws c), (is_ws d); reflexivity.
Qed.




(** ** Values *)

Lemma JsVal_nested_ind {Num} (P : JsVal Num -> Prop) :
  P JUndefined -> P JNull -> (forall b, P (JBool b)) -> (forall x, P (JNum x)) ->
  (forall s, P (JStr s)) ->
  (forall elems, Forall P elems -> P (JArr elems)) ->
  (forall props, P (JObj props)) ->
  forall v, P v.
Proof.
  intros Hu Hn Hb Hx Hs Ha Ho. fix IH 1.
  intros [| |b|x|s|elems|props].
  - exact Hu.
  - exact Hn.
  - apply Hb.
  - apply Hx.
  - apply Hs.
  - apply Ha. induction elems as [|e elems IHl]; constructor;
      [apply IH | exact IHl].
  - apply Ho.
Qed.

Lemma bind_Normal {A B} (a : A) (k : A -> completion B) :
  (Normal a ≫= k) = k a.
Proof. reflexivity. Qed.

Lemma bind_Throw {A B} (e : exn) (k : A -> completion B) :
  (Throw e ≫= k) = Throw e.
Proof. reflexivity. Qed.

Section ValueFacts.
Context {Num : Type} `{JsNumber Num}.

Lemma ToString_array_cons e l :
  ToString (JArr (e :: l)) =
  match l with
  | [] => array_piece e
  | _ :: _ =>
      p ← array_piece e; r ← ToString (JArr l); Normal (p ++ Chars.COMMA :: r)
  end.
Proof. destruct l; reflexivity. Qed.

Lemma array_piece_returns e :
  (exists s, array_piece e = Normal s) <-> (exists s, ToString e = Normal s).
Proof. destruct e; simpl; split; eauto. Qed.

(** [String(v)] returns exactly on the values that hold no object with
    an own [toString] where the conversion looks. *)
Lemma ToString_returns (v : JsVal Num) :
  coercible v = true <-> exists s, ToString v = Normal s.
Proof.
  pattern v. apply JsVal_nested_ind; clear v;
    try solve [intros; split; [intros _; simpl; eauto | done]].
  - intros b. destruct b; (split; [intros _; simpl; eauto | done]).
  - intros elems IH. induction IH as [|e l He _ IHl].
    + split; [intros _; by exists [] | done].
    + rewrite ToString_array_cons.
      change (coercible (JArr (e :: l))) with (coercible e && coercible (JArr l)).
      rewrite andb_true_iff, He, IHl, <- (array_piece_returns e).
      destruct l as [|e' l'].
      * split; [intros [Hp _]; exact Hp | intros Hp; split; [exact Hp | by exists []]].
      * split.
        -- intros [[p ->] [r ->]]. simpl. eauto.
        -- intros [s Hs].
           destruct (array_piece e) as [p|]; [|done].
           destruct (ToString (JArr (e' :: l'))) as [r|]; [|done]. eauto.
  - intros props. simpl. destruct (own_property (js "toString") props).
    + split; [done | by intros [? ?]].
    + split; eauto.
Qed.

Lemma safe_string (x : JsString) max : safe (JStr x) max = Normal (normalize max x).
Proof. reflexivity. Qed.

Lemma safe_returns (v : JsVal Num) max s :
  ToString (nullish v (JStr [])) = Normal s -> safe v max = Normal (normalize max s).
Proof. unfold safe. by intros ->. Qed.

Lemma safe_inv (v : JsVal Num) max r :
  safe v max = Normal r ->
  exists s, ToString (nullish v (JStr [])) = Normal s /\ r = normalize max s.
Proof.
  unfold safe. destruct (ToString (nullish v (JStr []))) as [s|]; [|done].
  intros [= <-]. eauto.
Qed.

Lemma safe_length (v : JsVal Num) max r : safe v max = Normal r -> (length r <= max)%nat.
Proof. intros (s & _ & ->)%safe_inv. apply normalize_length. Qed.

Lemma nullish_coercible (v : JsVal Num) : coercible (nullish v (JStr [])) = coercible v.
Proof. by destruct v. Qed.

End ValueFacts.




(** A string that is already in the shape the sanitizer produces before
    the cut, and is short enough, is left as it is. *)
Lemma normalize_fixed max t :
  single_spaced t = true -> starts_with_ws t = false -> ends_with_ws t = false ->
  (length t <= max)%nat -> normalize max t = t.
Proof.
  intros Hsp Hst Hen Hl. unfold normalize, trim, slice0.
  rewrite (replace_ws_runs_id _ Hsp), (trim_start_id _ Hst), (trim_end_id _ Hen).
  by apply take_ge.
Qed.

Lemma trim_end_normalize_fixed max s :
  normalize max (trim_end (normalize max s)) = trim_end (normalize max s).
Proof.
  destruct (normalize_shape max s) as [Hsp Hst].
  destruct (trim_end_prefix (normalize max s)) as [k Hk].
  apply normalize_fixed.
  - rewrite Hk. by apply single_spaced_take.
  - rewrite Hk. by apply starts_with_ws_take.
  - apply trim_end_tail.
  - etrans; [apply trim_end_length | apply normalize_length].
Qed.

Section Sanitizer.
Context {Num : Type} `{JsNumber Num}.


(** C5, as amended: a second pass of the sanitizer strips the
    whitespace the cut of the first pass left at the end, and nothing
    else; so the two passes agree exactly when the first result does
    not end in whitespace, which is the case whenever nothing was cut;
    from the second pass on the result is stable. *)
Theorem safe_twice_spec (x : JsString) (max : nat) :
  exists r,
    safe (Num:=Num) (JStr x) max = Normal r
    /\ safe_twice (Num:=Num) (JStr x) max = Normal (trim_end r)
    /\ (safe_twice (Num:=Num) (JStr x) max = safe (JStr x) max
        <-> ends_with_ws r = false)
    /\ ((length (trim (replace_ws_runs x)) <= max)%nat -> ends_with_ws r = false)
    /\ safe (Num:=Num) (JStr (trim_end r)) max = Normal (trim_end r).
Proof.
  exists (normalize max x).
  assert (Htw : safe_twice (Num:=Num) (JStr x) max
                = Normal (trim_end (normalize max x))).
  { unfold safe_twice. rewrite safe_string, bind_Normal, safe_string.
    by rewrite normalize_twice. }
  split; [reflexivity|]. split; [exact Htw|]. split; [|split].
  - rewrite Htw, safe_string. rewrite <- trim_end_fixed.
    split; [by intros [= ->] | by intros ->].
  - intros Hl. rewrite (normalize_no_cut _ _ Hl).
    apply (trim_replace_shape x).
  - rewrite safe_string. by rewrite trim_end_normalize_fixed.
Qed.

End Sanitizer.



(** C5 as stated fails: cutting ["a b"] at two code units leaves ["a "],
    which a second pass trims to ["a"]. *)
Lemma safe_not_idempotent :
  safe_twice (JStr (js "a b") : JsVal Z) 2 <> safe (JStr (js "a b")) 2.
Proof. vm_compute. discriminate. Qed.

(** ** Rate limiter *)

Local Close Scope N_scope.
Local Open Scope Z_scope.

Lemma last_hit_lookup (m : gmap JsString Z) ip :
  last_hit m ip = default 0 (m !! ip).
Proof.
  unfold last_hit. destruct (m !! ip) as [t|]; [|done].
  simpl. destruct (Z.eqb_spec t 0); congruence.
Qed.

Lemma rate_limiter_bypass {Num} next (req : Request Num) now st :
  startsWith (js "/api/") (req_path req) = false ->
  rate_limiter next req now st = next st.
Proof. unfold rate_limiter. by intros ->. Qed.

Lemma rate_limiter_api {Num} next (req : Request Num) now st :
  startsWith (js "/api/") (req_path req) = true ->
  rate_limiter next req now st =
  if now - default 0 (lastHitByIp st !! client_ip req) <? 3000
  then (st, Responded 429 (BodyError MSG_TOO_FAST))
  else next (passed_state (client_ip req) now st).
Proof.
  unfold rate_limiter. intros ->. cbn [negb]. by rewrite last_hit_lookup.
Qed.

Lemma limiter_rejects_agree {Num} (req : Request Num) now st1 st2 :
  lastHitByIp st1 !! client_ip req = lastHitByIp st2 !! client_ip req ->
  limiter_rejects req now st1 = limiter_rejects req now st2.
Proof. unfold limiter_rejects. rewrite !last_hit_lookup. by intros ->. Qed.

Lemma map_after_limiter_cases {Num} (req : Request Num) now st :
  map_after_limiter req now st =
  if limiter_rejects req now st then lastHitByIp st
  else if startsWith (js "/api/") (req_path req)
       then <[client_ip req := now]> (lastHitByIp st)
       else lastHitByIp st.
Proof.
  unfold map_after_limiter, limiter_rejects, rate_limiter.
  destruct (startsWith _ _); [|done]. cbn [negb andb].
  by destruct (_ <? 3000).
Qed.

Section Limiter.
Context {Num : Type} `{JsNumber Num}.

(** C3: on a path under [/api/] the limiter lets a request through
    exactly when its client has no recorded timestamp or at least 3000
    ms have passed since the recorded one; for a client without a
    timestamp this takes a clock that reads at least 3000 ms, the
    absent entry counting as time 0.  Then the rest of the application
    runs on the map in which the client's timestamp is the current
    time.  On reject the answer is 429 with the fixed body, the rest of
    the application does not run, and the state (map and file) is the
    one before. *)
Theorem rate_limiter_spec (next : Server -> Server * Outcome)
    (req : Request Num) (now : Z) (st : Server) :
  startsWith (js "/api/") (req_path req) = true ->
  (lastHitByIp st !! client_ip req = None -> 3000 <= now) ->
  let ip := client_ip req in
  let through :=
    match lastHitByIp st !! ip with
    | None => true
    | Some last => 3000 <=? now - last
    end in
  limiter_rejects req now st = negb through
  /\ (through = true ->
      rate_limiter next req now st = next (passed_state ip now st)
      /\ lastHitByIp (passed_state ip now st) !! ip = Some now
      /\ files (passed_state ip now st) = files st)
  /\ (through = false ->
      rate_limiter next req now st =
        (st, Responded 429 (BodyError "Za szybko. Spróbuj za chwilę."))).
Proof.
  intros Hapi Hnow ip through.
  assert (Hlt : (now - default 0 (lastHitByIp st !! ip) <? 3000) = negb through).
  { subst through ip. destruct (lastHitByIp st !! client_ip req) as [last|]; simpl.
    - destruct (Z.ltb_spec (now - last) 3000), (Z.leb_spec 3000 (now - last));
        simpl; (done || lia).
    - specialize (Hnow eq_refl).
      destruct (Z.ltb_spec (now - 0) 3000); simpl; (done || lia). }
  split; [|split].
  - unfold limiter_rejects. by rewrite Hapi, last_hit_lookup.
  - intros Ha. rewrite (rate_limiter_api _ _ _ _ Hapi). fold ip.
    rewrite Hlt, Ha. cbn [negb]. split; [done|]. split; [|done].
    apply lookup_insert_eq.
  - intros Ha. rewrite (rate_limiter_api _ _ _ _ Hapi). fold ip.
    by rewrite Hlt, Ha.
Qed.

(** C8: a request whose path does not start with [/api/] goes straight
    to the rest of the application, on the state as it was: the limiter
    does not answer it and does not touch the map. *)
Theorem rate_limiter_scope (next : Server -> Server * Outcome)
    (req : Request Num) (now : Z) (st : Server) :
  startsWith (js "/api/") (req_path req) = false ->
  rate_limiter next req now st = next st
  /\ limiter_rejects req now st = false
  /\ map_after_limiter req now st = lastHitByIp st.
Proof.
  intros Hp. split; [by apply rate_limiter_bypass|].
  split.
  - unfold limiter_rejects. by rewrite Hp.
  - rewrite map_after_limiter_cases. unfold limiter_rejects. by rewrite Hp.
Qed.

End Limiter.

Section Isolation.
Context {Num : Type} `{JsNumber Num}.
Variable lead_route : Request Num -> bool.

Lemma routes_map req env st :
  lastHitByIp (fst (routes lead_route req env st)) = lastHitByIp st.
Proof.
  unfold routes. destruct (lead_route req); [|done].
  by destruct (lead_handler _ _ _).
Qed.

Lemma routes_files req env st1 st2 :
  files st1 = files st2 ->
  snd (routes lead_route req env st1) = snd (routes lead_route req env st2)
  /\ files (fst (routes lead_route req env st1))
     = files (fst (routes lead_route req env st2)).
Proof.
  unfold routes. intros Hf. destruct (lead_route req); [|done].
  rewrite Hf. by destruct (lead_handler _ _ _).
Qed.

Lemma app_map req env st :
  lastHitByIp (fst (app lead_route req env st))
  = map_after_limiter req (limiter_now env) st.
Proof.
  unfold app, map_after_limiter, rate_limiter.
  destruct (startsWith _ _); cbn [negb]; [|apply routes_map].
  destruct (_ <? 3000); [done|]. apply routes_map.
Qed.

Lemma app_agree req env st1 st2 :
  files st1 = files st2 ->
  lastHitByIp st1 !! client_ip req = lastHitByIp st2 !! client_ip req ->
  snd (app lead_route req env st1) = snd (app lead_route req env st2)
  /\ files (fst (app lead_route req env st1))
     = files (fst (app lead_route req env st2)).
Proof.
  intros Hf Hm. unfold app.
  destruct (startsWith (js "/api/") (req_path req)) eqn:Hp.
  - rewrite !(rate_limiter_api _ _ _ _ Hp), Hm.
    destruct (_ <? 3000); [done|]. by apply routes_files.
  - rewrite !(rate_limiter_bypass _ _ _ _ Hp). by apply routes_files.
Qed.

(** C10: two runs whose files agree and whose maps agree on the
    requester's identifier give the same answer to the request, the
    same decision of the limiter, the same file and the same entry for
    that identifier afterwards; the entries of all other identifiers
    are left as they were, so the decision on a later request of any
    other identifier is the one it would have been without this
    request. *)
Theorem rate_limiter_isolation (req : Request Num) (env : Env) (st1 st2 : Server) :
  files st1 = files st2 ->
  lastHitByIp st1 !! client_ip req = lastHitByIp st2 !! client_ip req ->
  let ip := client_ip req in
  let now := limiter_now env in
  limiter_rejects req now st1 = limiter_rejects req now st2
  /\ snd (app lead_route req env st1) = snd (app lead_route req env st2)
  /\ files (fst (app lead_route req env st1))
     = files (fst (app lead_route req env st2))
  /\ lastHitByIp (fst (app lead_route req env st1)) !! ip
     = lastHitByIp (fst (app lead_route req env st2)) !! ip
  /\ (forall ip', ip' <> ip ->
        lastHitByIp (fst (app lead_route req env st1)) !! ip'
        = lastHitByIp st1 !! ip')
  /\ (forall (req' : Request Num) now',
        client_ip req' <> ip ->
        limiter_rejects req' now' (fst (app lead_route req env st1))
        = limiter_rejects req' now' st1).
Proof.
  intros Hf Hm ip now.
  pose proof (limiter_rejects_agree req now st1 st2 Hm) as Hrej.
  assert (Hother : forall ip', ip' <> ip ->
            lastHitByIp (fst (app lead_route req env st1)) !! ip'
            = lastHitByIp st1 !! ip').
  { intros ip' Hne. rewrite app_map, map_after_limiter_cases.
    destruct (limiter_rejects _ _ _); [done|].
    destruct (startsWith _ _); [|done]. by apply lookup_insert_ne. }
  split; [exact Hrej|].
  destruct (app_agree req env st1 st2 Hf Hm) as [Ho Hfs].
  split; [exact Ho|]. split; [exact Hfs|]. split; [|split].
  - rewrite !app_map, !map_after_limiter_cases. fold now. rewrite Hrej.
    destruct (limiter_rejects req now st2); [exact Hm|].
    destruct (startsWith _ _); [|exact Hm].
    fold ip. by rewrite !lookup_insert_eq.
  - exact Hother.
  - intros req' now' Hne. apply limiter_rejects_agree. by apply Hother.
Qed.

(** Two requests of one client in a row: within 3000 ms of a request
    that was let through, the next one is answered 429 and the state
    stays as the first one left it; from 3000 ms on it is let through. *)
Lemma second_request_of_client req1 env1 req2 env2 st :
  startsWith (js "/api/") (req_path req1) = true ->
  startsWith (js "/api/") (req_path req2) = true ->
  client_ip req2 = client_ip req1 ->
  limiter_rejects req1 (limiter_now env1) st = false ->
  let st1 := fst (app lead_route req1 env1 st) in
  (limiter_now env2 - limiter_now env1 < 3000 ->
   app lead_route req2 env2 st1 = (st1, Responded 429 (BodyError MSG_TOO_FAST)))
  /\ (3000 <= limiter_now env2 - limiter_now env1 ->
      limiter_rejects req2 (limiter_now env2) st1 = false).
Proof.
  intros Hp1 Hp2 Hip Hrej st1.
  assert (Hlast : lastHitByIp st1 !! client_ip req2 = Some (limiter_now env1)).
  { subst st1. rewrite app_map, map_after_limiter_cases, Hrej, Hp1, Hip.
    apply lookup_insert_eq. }
  split; intros Hlt.
  - unfold app. rewrite (rate_limiter_api _ _ _ _ Hp2), Hlast.
    change (default 0 (Some (limiter_now env1))) with (limiter_now env1).
    destruct (Z.ltb_spec (limiter_now env2 - limiter_now env1) 3000);
      [reflexivity | lia].
  - unfold limiter_rejects. rewrite Hp2, last_hit_lookup, Hlast.
    change (default 0 (Some (limiter_now env1))) with (limiter_now env1).
    destruct (Z.ltb_spec (limiter_now env2 - limiter_now env1) 3000);
      [lia | reflexivity].
Qed.

End Isolation.

(** ** Identifier generator *)

Local Close Scope Z_scope.
Local Open Scope N_scope.

Lemma of_hex_acc d acc :
  fold_left hex_step (hex_units d) (N.pos acc) = N.pos (Pos.of_hex_uint_acc d acc).
Proof.
  revert acc. induction d; intros acc; cbn [hex_units fold_left Pos.of_hex_uint_acc];
    [done|..]; rewrite <- IHd; f_equal; unfold hex_step, hex_value; cbn; lia.
Qed.

Lemma of_hex_hex_units d : of_hex (hex_units d) = N.of_hex_uint d.
Proof.
  unfold of_hex, N.of_hex_uint.
  induction d; cbn [hex_units fold_left Pos.of_hex_uint]; [done|..];
    try (rewrite <- of_hex_acc; f_equal; unfold hex_step, hex_value; cbn; lia).
  rewrite <- IHd. f_equal.
Qed.

Lemma hex_units_digits d : forallb is_hex_digit (hex_units d) = true.
Proof. induction d; cbn [hex_units forallb]; [done|..]; by rewrite IHd. Qed.

Lemma hex_units_nonempty d : d <> Hexadecimal.Nil -> hex_units d <> [].
Proof. by destruct d. Qed.

Lemma toString16_digits z : (0 <= z)%Z -> forallb is_hex_digit (toString16 z) = true.
Proof.
  destruct z as [|p|p]; [done | intros _; apply hex_units_digits | lia].
Qed.

Lemma toString16_nonempty z : toString16 z <> [].
Proof.
  destruct z as [|p|p]; [done | | done].
  apply hex_units_nonempty, HexadecimalPos.Unsigned.to_uint_nonnil.
Qed.

Lemma of_hex_toString16 z : (0 <= z)%Z -> Z.of_N (of_hex (toString16 z)) = z.
Proof.
  destruct z as [|p|p]; [done | intros _ | lia].
  cbn [toString16]. rewrite of_hex_hex_units.
  unfold N.of_hex_uint. by rewrite HexadecimalPos.Unsigned.of_to.
Qed.

Lemma random_fraction r :
  random_rendering r -> forallb is_hex_digit (slice_from 2 r) = true.
Proof. intros [-> | (ds & -> & Hds)]; [done | exact Hds]. Qed.

(** The hexadecimal numeral of a positive integer does not start with
    a zero. *)
Lemma toString16_leading p :
  exists c s, toString16 (Z.pos p) = c :: s /\ c <> 48.
Proof.
  cbn [toString16].
  pose proof (HexadecimalPos.Unsigned.to_of (Pos.to_hex_uint p)) as Hn.
  rewrite HexadecimalPos.Unsigned.of_to in Hn. cbn [N.to_hex_uint] in Hn.
  pose proof (HexadecimalPos.Unsigned.to_uint_nonzero p) as Hz.
  assert (Hh : Hexadecimal.nzhead (Pos.to_hex_uint p) <> Hexadecimal.Nil).
  { intros Hx. apply HexadecimalFacts.unorm_0 in Hx. congruence. }
  rewrite (HexadecimalFacts.unorm_nzhead _ Hh) in Hn.
  pose proof (HexadecimalFacts.nzhead_nonzero (Pos.to_hex_uint p)) as Hd.
  rewrite <- Hn in Hd.
  destruct (Pos.to_hex_uint p) as [|d|d|d|d|d|d|d|d|d|d|d|d|d|d|d|d];
    [done | by destruct (Hd d) |..]; cbn [hex_units]; eexists _, _;
    (split; [reflexivity | done]).
Qed.

(** C7: when the random number renders as ["0"] or ["0."] followed by
    hexadecimal digits and the clock is not before the epoch, the
    identifier is ["lead_"], then the random component, then the clock
    reading in hexadecimal.  The random component is exactly the
    fraction digits of the random number (none for ["0"]); the clock
    part is the numeral of the clock value, without a leading zero,
    and reads back as it; both consist of the digits [0-9a-f]. *)
Theorem generateId_form (r : JsString) (now : Z) :
  random_rendering r -> (0 <= now)%Z ->
  exists rnd stamp,
    generateId r now = js "lead_" ++ rnd ++ stamp
    /\ startsWith (js "lead_") (generateId r now) = true
    /\ rnd = slice_from 2 r
    /\ forallb is_hex_digit rnd = true
    /\ stamp = toString16 now
    /\ stamp <> []
    /\ forallb is_hex_digit stamp = true
    /\ Z.of_N (of_hex stamp) = now
    /\ (r = js "0" -> rnd = [])
    /\ (forall ds, r = js "0." ++ ds -> rnd = ds)
    /\ (now = 0%Z -> stamp = js "0")
    /\ ((0 < now)%Z -> exists c s, stamp = c :: s /\ c <> 48).
Proof.
  intros Hr Hnow. exists (slice_from 2 r), (toString16 now).
  split; [reflexivity|]. split; [reflexivity|]. split; [reflexivity|].
  split; [by apply random_fraction|]. split; [reflexivity|].
  split; [apply toString16_nonempty|].
  split; [by apply toString16_digits|].
  split; [by apply of_hex_toString16|].
  split; [by intros ->|]. split; [by intros ds ->|].
  split; [by intros ->|].
  intros Hpos. destruct now as [|p|p]; [lia | apply toString16_leading | lia].
Qed.

(** ** The line of a lead and its reading *)

Lemma unhex_hex_digit d : d < 16 -> unhex (hex_digit d) = Some d.
Proof.
  intros Hd.
  assert (Hcases : d = 0 \/ d = 1 \/ d = 2 \/ d = 3 \/ d = 4 \/ d = 5 \/ d = 6
                   \/ d = 7 \/ d = 8 \/ d = 9 \/ d = 10 \/ d = 11 \/ d = 12
                   \/ d = 13 \/ d = 14 \/ d = 15) by lia.
  repeat (destruct Hcases as [-> | Hcases]; [reflexivity|]). by subst.
Qed.

Lemma hex_digit_range d : d < 16 -> 48 <= hex_digit d <= 102.
Proof. unfold hex_digit. intros Hd. destruct (N.ltb_spec d 10); lia. Qed.

Lemma hex4_value c :
  c < 65536 ->
  4096 * (c / 4096 mod 16) + 256 * (c / 256 mod 16) + 16 * (c / 16 mod 16) + c mod 16 = c.
Proof.
  intros Hc.
  replace (c / 256) with (c / 16 / 16) by (rewrite N.Div0.div_div; reflexivity).
  replace (c / 4096) with (c / 16 / 16 / 16) by (rewrite !N.Div0.div_div; reflexivity).
  pose proof (N.Div0.div_mod c 16) as H0. set (a := c / 16) in *.
  pose proof (N.Div0.div_mod a 16) as H1. set (b := a / 16) in *.
  pose proof (N.Div0.div_mod b 16) as H2. set (d := b / 16) in *.
  assert (Hd : d < 16).
  { subst d b a. rewrite !N.Div0.div_div.
    apply N.Div0.div_lt_upper_bound. exact Hc. }
  rewrite (N.mod_small d 16 Hd).
  generalize dependent (c mod 16). generalize dependent (a mod 16).
  generalize dependent (b mod 16). intros. lia.
Qed.

Lemma parse_string_body_literal c s :
  (c =? 34) = false -> (c =? 92) = false -> (c <? 32) = false ->
  parse_string_body (c :: s) =
  '(r, rest) ← parse_string_body s; Some (c :: r, rest).
Proof. intros H1 H2 H3. cbn [parse_string_body]. by rewrite H1, H2, H3. Qed.

Lemma parse_string_body_simple e u s :
  (e =? 117) = false -> simple_escape e = Some u ->
  parse_string_body (Chars.BACKSLASH :: e :: s) =
  '(r, rest) ← parse_string_body s; Some (u :: r, rest).
Proof.
  intros H1 H2. cbn [parse_string_body].
  change (Chars.BACKSLASH =? 34) with false.
  change (Chars.BACKSLASH =? 92) with true. cbv iota.
  by rewrite H1, H2.
Qed.

Lemma parse_string_body_u h3 h2 h1 h0 s :
  parse_string_body (Chars.BACKSLASH :: 117 :: h3 :: h2 :: h1 :: h0 :: s) =
  d3 ← unhex h3; d2 ← unhex h2; d1 ← unhex h1; d0 ← unhex h0;
  '(r, rest) ← parse_string_body s;
  Some ((4096 * d3 + 256 * d2 + 16 * d1 + d0) :: r, rest).
Proof. reflexivity. Qed.

Lemma parse_string_body_unicode c s :
  c < 65536 ->
  parse_string_body (unicode_escape c ++ s) =
  '(r, rest) ← parse_string_body s; Some (c :: r, rest).
Proof.
  intros Hc. unfold unicode_escape.
  change ([?a; ?b; ?h3; ?h2; ?h1; ?h0] ++ s) with (a :: b :: h3 :: h2 :: h1 :: h0 :: s).
  rewrite parse_string_body_u.
  rewrite !unhex_hex_digit by (apply N.mod_lt; lia).
  cbn [mbind option_bind]. by rewrite (hex4_value c Hc).
Qed.

Lemma is_high_surrogate_range c :
  is_high_surrogate c = true -> 55296 <= c <= 56319.
Proof. unfold is_high_surrogate. intros [?%N.leb_le ?%N.leb_le]%andb_prop. lia. Qed.

Lemma is_low_surrogate_range c :
  is_low_surrogate c = true -> 56320 <= c <= 57343.
Proof. unfold is_low_surrogate. intros [?%N.leb_le ?%N.leb_le]%andb_prop. lia. Qed.

Lemma parse_string_body_high c s :
  55296 <= c ->
  parse_string_body (c :: s) =
  '(r, rest) ← parse_string_body s; Some (c :: r, rest).
Proof.
  intros Hc. apply parse_string_body_literal.
  - apply N.eqb_neq. lia.
  - apply N.eqb_neq. lia.
  - apply N.ltb_ge. lia.
Qed.

Lemma parse_escape_unit c s :
  is_high_surrogate c = false ->
  parse_string_body (escape_unit c ++ s) =
  '(r, rest) ← parse_string_body s; Some (c :: r, rest).
Proof.
  intros Hh. unfold escape_unit.
  destruct (N.eqb_spec c 8) as [->|H8]; [by apply parse_string_body_simple|].
  destruct (N.eqb_spec c 9) as [->|H9]; [by apply parse_string_body_simple|].
  destruct (N.eqb_spec c 10) as [->|H10]; [by apply parse_string_body_simple|].
  destruct (N.eqb_spec c 12) as [->|H12]; [by apply parse_string_body_simple|].
  destruct (N.eqb_spec c 13) as [->|H13]; [by apply parse_string_body_simple|].
  destruct (N.eqb_spec c 34) as [->|H34]; [by apply parse_string_body_simple|].
  destruct (N.eqb_spec c 92) as [->|H92]; [by apply parse_string_body_simple|].
  rewrite Hh, orb_false_r.
  destruct (N.ltb_spec c 32) as [Hlt|Hge]; cbn [orb].
  - apply parse_string_body_unicode. lia.
  - destruct (is_low_surrogate c) eqn:Hl.
    + apply parse_string_body_unicode. apply is_low_surrogate_range in Hl. lia.
    + apply parse_string_body_literal.
      * by apply N.eqb_neq.
      * by apply N.eqb_neq.
      * by apply N.ltb_ge.
Qed.

Lemma parse_quote_units_bounded n s rest :
  (length s <= n)%nat ->
  parse_string_body (quote_units s ++ Chars.QUOTE :: rest) = Some (s, rest).
Proof.
  revert s. induction n as [|n IH]; intros [|c s'] Hl;
    try reflexivity; cbn [length] in Hl; [lia|].
  cbn [quote_units]. destruct (is_high_surrogate c) eqn:Hh.
  - pose proof (is_high_surrogate_range c Hh) as Hc.
    destruct s' as [|d s''].
    + rewrite parse_string_body_unicode by lia. reflexivity.
    + destruct (is_low_surrogate d) eqn:Hd.
      * pose proof (is_low_surrogate_range d Hd) as Hd'.
        change ((c :: d :: quote_units s'') ++ Chars.QUOTE :: rest)
          with (c :: d :: (quote_units s'' ++ Chars.QUOTE :: rest)).
        rewrite parse_string_body_high by lia.
        rewrite parse_string_body_high by lia.
        rewrite IH by (cbn [length] in Hl; lia). reflexivity.
      * rewrite <- app_assoc, parse_string_body_unicode by lia.
        rewrite IH by lia. reflexivity.
  - rewrite <- app_assoc, parse_escape_unit by done.
    rewrite IH by lia. reflexivity.
Qed.

(** Reading what [quote] wrote gives the string back. *)
Lemma parse_quote_units s rest :
  parse_string_body (quote_units s ++ Chars.QUOTE :: rest) = Some (s, rest).
Proof. by apply (parse_quote_units_bounded (length s)). Qed.

Lemma strip_prefix_cons a p b s :
  strip_prefix (a :: p) (b :: s) = if a =? b then strip_prefix p s else None.
Proof. reflexivity. Qed.

Lemma strip_prefix_app p s : strip_prefix p (p ++ s) = Some s.
Proof.
  induction p as [|a p IH]; [by destruct s|].
  change ((a :: p) ++ s) with (a :: (p ++ s)).
  by rewrite strip_prefix_cons, N.eqb_refl.
Qed.

Lemma parse_scalar_stringify v rest :
  parse_scalar (stringify_scalar v ++ rest) = Some (v, rest).
Proof.
  destruct v as [s|[|]].
  - unfold stringify_scalar, quote.
    change ((Chars.QUOTE :: quote_units s ++ [Chars.QUOTE]) ++ rest)
      with (Chars.QUOTE :: ((quote_units s ++ [Chars.QUOTE]) ++ rest)).
    rewrite <- app_assoc. cbn [parse_scalar].
    change (Chars.QUOTE =? 34) with true. cbv iota.
    change ([Chars.QUOTE] ++ rest) with (Chars.QUOTE :: rest).
    by rewrite parse_quote_units.
  - reflexivity.
  - reflexivity.
Qed.

Lemma stringify_member_shape k v tail :
  stringify_member (k, v) ++ tail =
  Chars.QUOTE :: (quote_units k ++ Chars.QUOTE :: 58 :: (stringify_scalar v ++ tail)).
Proof.
  unfold stringify_member, quote. cbn [fst snd].
  rewrite <- !app_comm_cons, <- !app_assoc. reflexivity.
Qed.

Lemma strip_prefix_one a s : strip_prefix [a] (a :: s) = Some s.
Proof. apply (strip_prefix_app [a] s). Qed.

Lemma parse_members_S fuel s :
  parse_members (S fuel) s =
  s1 ← strip_prefix [Chars.QUOTE] s;
  '(k, s2) ← parse_string_body s1;
  s3 ← strip_prefix [58] s2;
  '(v, s4) ← parse_scalar s3;
  match s4 with
  | [] => None
  | c :: s5 =>
      if c =? 125 then Some ([(k, v)], s5)
      else if c =? Chars.COMMA then
        '(ms, rest) ← parse_members fuel s5; Some ((k, v) :: ms, rest)
      else None
  end.
Proof. reflexivity. Qed.

Lemma bind_Some {A B} (a : A) (k : A -> option B) : (Some a ≫= k) = k a.
Proof. reflexivity. Qed.

Lemma parse_members_step fuel k v c tail :
  parse_members (S fuel) (stringify_member (k, v) ++ c :: tail) =
  if c =? 125 then Some ([(k, v)], tail)
  else if c =? Chars.COMMA then
    '(ms, rest) ← parse_members fuel tail; Some ((k, v) :: ms, rest)
  else None.
Proof.
  rewrite stringify_member_shape, parse_members_S.
  rewrite strip_prefix_one, bind_Some, parse_quote_units, bind_Some.
  rewrite strip_prefix_one, bind_Some, parse_scalar_stringify, bind_Some.
  reflexivity.
Qed.

Lemma parse_members_stringify ms : forall fuel rest,
  ms <> [] -> (length ms <= fuel)%nat ->
  parse_members fuel (stringify_members ms ++ 125 :: rest) = Some (ms, rest).
Proof.
  induction ms as [|[k v] ms IH]; [done|].
  intros [|fuel] rest _ Hl; cbn [length] in Hl; [lia|].
  destruct ms as [|m' ms'].
  - cbn [stringify_members]. by rewrite parse_members_step.
  - change (stringify_members ((k, v) :: m' :: ms'))
      with (stringify_member (k, v) ++ Chars.COMMA :: stringify_members (m' :: ms')).
    rewrite <- app_assoc.
    change ((Chars.COMMA :: stringify_members (m' :: ms')) ++ 125 :: rest)
      with (Chars.COMMA :: (stringify_members (m' :: ms') ++ 125 :: rest)).
    rewrite parse_members_step.
    change (Chars.COMMA =? 125) with false.
    change (Chars.COMMA =? Chars.COMMA) with true. cbv iota.
    rewrite IH by (done || (cbn [length] in *; lia)). reflexivity.
Qed.

Lemma stringify_members_length ms :
  (length ms <= length (stringify_members ms))%nat.
Proof.
  induction ms as [|[k v] ms IH]; [done|].
  destruct ms as [|m' ms'].
  - cbn [stringify_members]. unfold stringify_member, quote.
    rewrite length_app. cbn [fst length]. lia.
  - change (stringify_members ((k, v) :: m' :: ms'))
      with (stringify_member (k, v) ++ Chars.COMMA :: stringify_members (m' :: ms')).
    rewrite length_app. cbn [length] in *. lia.
Qed.

(** Reading back what [JSON.stringify] wrote gives the object. *)
Lemma JSON_parse_stringify o : JSON_parse (JSON_stringify o) = Some o.
Proof.
  unfold JSON_stringify, JSON_parse.
  change (123 :: stringify_members o ++ [125])
    with ([123] ++ (stringify_members o ++ [125])).
  rewrite strip_prefix_app, bind_Some.
  destruct o as [|[k v] o']; [reflexivity|].
  pose proof (parse_members_stringify ((k, v) :: o')
                (length (stringify_members ((k, v) :: o') ++ [125])) []) as Hp.
  rewrite Hp; [|done|].
  - assert (Hshape : exists a b t,
              stringify_members ((k, v) :: o') ++ [125] = a :: b :: t).
    { destruct o' as [|m' o''].
      - cbn [stringify_members]. rewrite stringify_member_shape.
        destruct (quote_units k); cbn [app]; eauto.
      - change (stringify_members ((k, v) :: m' :: o''))
          with (stringify_member (k, v) ++ Chars.COMMA :: stringify_members (m' :: o'')).
        rewrite <- app_assoc, stringify_member_shape.
        destruct (quote_units k); cbn [app]; eauto. }
    destruct Hshape as (a & b & t & ->). reflexivity.
  - rewrite length_app. pose proof (stringify_members_length ((k, v) :: o')). lia.
Qed.

(** *** The text of a serialised object holds no line feed *)

Lemma no_line_feed_app a b :
  no_line_feed (a ++ b) = no_line_feed a && no_line_feed b.
Proof. apply forallb_app. Qed.

Lemma no_line_feed_cons c s :
  no_line_feed (c :: s) = negb (c =? Chars.LF) && no_line_feed s.
Proof. reflexivity. Qed.

Lemma hex_digit_no_line_feed d : d < 16 -> negb (hex_digit d =? Chars.LF) = true.
Proof.
  intros Hd. pose proof (hex_digit_range d Hd).
  apply negb_true_iff, N.eqb_neq. unfold Chars.LF. lia.
Qed.

Lemma unicode_escape_no_line_feed c : no_line_feed (unicode_escape c) = true.
Proof.
  unfold unicode_escape. rewrite !no_line_feed_cons.
  rewrite !hex_digit_no_line_feed by (apply N.mod_lt; lia). reflexivity.
Qed.

Lemma escape_unit_no_line_feed c : no_line_feed (escape_unit c) = true.
Proof.
  unfold escape_unit.
  repeat match goal with
         | |- context [if ?x =? ?k then _ else _] =>
             destruct (N.eqb_spec x k); [reflexivity|]
         end.
  destruct (_ || _); [apply unicode_escape_no_line_feed|].
  rewrite no_line_feed_cons. cbn [no_line_feed forallb].
  rewrite andb_true_r. apply negb_true_iff, N.eqb_neq. unfold Chars.LF. lia.
Qed.

Lemma quote_units_no_line_feed_bounded n s :
  (length s <= n)%nat -> no_line_feed (quote_units s) = true.
Proof.
  revert s. induction n as [|n IH]; intros [|c s'] Hl;
    try reflexivity; cbn [length] in Hl; [lia|].
  cbn [quote_units]. destruct (is_high_surrogate c) eqn:Hh.
  - pose proof (is_high_surrogate_range c Hh) as Hc.
    destruct s' as [|d s'']; [apply unicode_escape_no_line_feed|].
    destruct (is_low_surrogate d) eqn:Hd.
    + pose proof (is_low_surrogate_range d Hd) as Hd'.
      rewrite !no_line_feed_cons, IH by (cbn [length] in Hl; lia).
      rewrite andb_true_r. apply andb_true_intro.
      split; apply negb_true_iff, N.eqb_neq; unfold Chars.LF; lia.
    + rewrite no_line_feed_app, unicode_escape_no_line_feed, IH by lia. done.
  - rewrite no_line_feed_app, escape_unit_no_line_feed, IH by lia. done.
Qed.

Lemma quote_no_line_feed s : no_line_feed (quote s) = true.
Proof.
  unfold quote. rewrite no_line_feed_cons, no_line_feed_app.
  by rewrite (quote_units_no_line_feed_bounded (length s) s).
Qed.

Lemma stringify_member_no_line_feed m : no_line_feed (stringify_member m) = true.
Proof.
  destruct m as [k v]. unfold stringify_member. cbn [fst snd].
  rewrite no_line_feed_app, no_line_feed_cons, quote_no_line_feed.
  destruct v as [s|[|]]; cbn [stringify_scalar];
    [by rewrite quote_no_line_feed | reflexivity | reflexivity].
Qed.

Lemma JSON_stringify_no_line_feed o : no_line_feed (JSON_stringify o) = true.
Proof.
  unfold JSON_stringify. rewrite no_line_feed_cons, no_line_feed_app.
  cbn [negb andb]. rewrite andb_true_r.
  change (negb (123 =? Chars.LF)) with true. cbn [andb].
  induction o as [|m o IH]; [done|].
  destruct o as [|m' o'].
  - apply stringify_member_no_line_feed.
  - change (stringify_members (m :: m' :: o'))
      with (stringify_member m ++ Chars.COMMA :: stringify_members (m' :: o')).
    rewrite no_line_feed_app, no_line_feed_cons, stringify_member_no_line_feed, IH.
    reflexivity.
Qed.

(** ** The handler *)

Section HandlerFacts.
Context {Num : Type} `{JsNumber Num}.

Lemma get_body_or_empty (body : JsVal Num) key :
  get (body_or_empty body) key = get body key.
Proof.
  unfold body_or_empty. destruct (truthy body) eqn:Ht; [done|].
  by destruct body.
Qed.

Lemma missing_required_forallb (b : JsVal Num) :
  missing_required b = negb (forallb (fun k => truthy (get b k)) required_fields).
Proof.
  unfold missing_required, required_fields. cbn [forallb].
  by destruct (truthy (get b "industry")), (truthy (get b "problem")),
    (truthy (get b "message")), (truthy (get b "contact")).
Qed.

Lemma missing_required_body (body : JsVal Num) :
  missing_required (body_or_empty body) = missing_required body.
Proof. unfold missing_required. by rewrite !get_body_or_empty. Qed.

Lemma falsy_cases (v : JsVal Num) :
  truthy v = false <->
  v = JUndefined \/ v = JNull \/ v = JBool false \/ v = JStr []
  \/ exists x, v = JNum x /\ num_truthy x = false.
Proof.
  split.
  - destruct v as [| |[|]|x|[|c s]|l|ps]; simpl; intros Hv; try done; eauto 8.
  - intros [-> | [-> | [-> | [-> | (x & -> & Hx)]]]]; done.
Qed.

Lemma safe_total (v : JsVal Num) max :
  coercible v = true -> exists r, safe v max = Normal r.
Proof.
  intros Hv. rewrite <- nullish_coercible in Hv.
  apply ToString_returns in Hv as [s Hs].
  exists (normalize max s). by apply safe_returns.
Qed.

Lemma build_lead_inv (b : JsVal Num) env lead :
  build_lead b env = Normal lead ->
  id lead = generateId (random16 env) (id_now env)
  /\ createdAt lead = iso_now env
  /\ safe (get b "industry") 80 = Normal (industry lead)
  /\ safe (get b "problem") 120 = Normal (problem lead)
  /\ safe (get b "tools") 200 = Normal (tools lead)
  /\ safe (get b "message") 2000 = Normal (message lead)
  /\ safe (get b "contact") 120 = Normal (contact lead)
  /\ safe (get b "website") 200 = Normal (website lead)
  /\ wantsMvp lead = truthy (get b "wantsMvp")
  /\ wantsAutomation lead = truthy (get b "wantsAutomation").
Proof.
  unfold build_lead.
  destruct (safe (get b "industry") 80) as [i|]; [|done].
  destruct (safe (get b "problem") 120) as [p|]; [|done].
  destruct (safe (get b "tools") 200) as [t|]; [|done].
  destruct (safe (get b "message") 2000) as [m|]; [|done].
  destruct (safe (get b "contact") 120) as [c|]; [|done].
  destruct (safe (get b "website") 200) as [w|]; [|done].
  rewrite !bind_Normal. intros [= <-]. cbn. done.
Qed.

Lemma build_lead_returns (b : JsVal Num) env :
  forallb (fun k => coercible (get b k)) text_fields = true ->
  exists lead, build_lead b env = Normal lead.
Proof.
  unfold text_fields. cbn [forallb]. rewrite !andb_true_iff.
  intros (Hi & Hp & Ht & Hm & Hc & Hw & _).
  destruct (safe_total _ 80 Hi) as [i Ei].
  destruct (safe_total _ 120 Hp) as [p Ep].
  destruct (safe_total _ 200 Ht) as [t Et].
  destruct (safe_total _ 2000 Hm) as [m Em].
  destruct (safe_total _ 120 Hc) as [c Ec].
  destruct (safe_total _ 200 Hw) as [w Ew].
  unfold build_lead. rewrite Ei, Ep, Et, Em, Ec, Ew, !bind_Normal. eauto.
Qed.

(** The handler answers 200 exactly on the path that appends. *)
Lemma lead_handler_200 (body : JsVal Num) env fsys fs' :
  lead_handler body env fsys = (fs', Responded 200 BodyOk) ->
  exists lead,
    build_lead (body_or_empty body) env = Normal lead
    /\ leads_jsonl fs' = leads_jsonl fsys ++ lead_line lead.
Proof.
  unfold lead_handler. destruct (missing_required _); [done|].
  destruct (build_lead _ _) as [lead|]; [|done].
  unfold ensure_dir.
  destruct (data_dir_exists fsys) eqn:Hd.
  - destruct (append_ok env); [|done]. intros [= <-]. eauto.
  - destruct (mkdir_ok env); [|done].
    destruct (append_ok env); [|done]. intros [= <-]. eauto.
Qed.

Lemma lead_handler_stores (body : JsVal Num) env fsys lead :
  missing_required (body_or_empty body) = false ->
  build_lead (body_or_empty body) env = Normal lead ->
  store_accepts env fsys = true ->
  lead_handler body env fsys =
  ({| data_dir_exists := true;
      leads_jsonl := leads_jsonl fsys ++ lead_line lead |},
   Responded 200 BodyOk).
Proof.
  intros Hm Hb [Hd Ha]%andb_prop. unfold lead_handler, ensure_dir.
  rewrite Hm, Hb, Ha.
  destruct (data_dir_exists fsys) eqn:Hx; cbn [orb] in Hd.
  - cbv beta iota. by rewrite Hx.
  - by rewrite Hd.
Qed.

Lemma lead_handler_400 (body : JsVal Num) env fsys :
  missing_required body = true ->
  lead_handler body env fsys = (fsys, Responded 400 (BodyError MSG_REQUIRED)).
Proof.
  intros Hm. unfold lead_handler. by rewrite missing_required_body, Hm.
Qed.

Lemma lead_object_lookup lead :
  own_property (js "id") (lead_object lead) = Some (SStr (id lead))
  /\ own_property (js "createdAt") (lead_object lead) = Some (SStr (createdAt lead))
  /\ own_property (js "industry") (lead_object lead) = Some (SStr (industry lead))
  /\ own_property (js "problem") (lead_object lead) = Some (SStr (problem lead))
  /\ own_property (js "tools") (lead_object lead) = Some (SStr (tools lead))
  /\ own_property (js "message") (lead_object lead) = Some (SStr (message lead))
  /\ own_property (js "contact") (lead_object lead) = Some (SStr (contact lead))
  /\ own_property (js "website") (lead_object lead) = Some (SStr (website lead))
  /\ own_property (js "wantsMvp") (lead_object lead) = Some (SBool (wantsMvp lead))
  /\ own_property (js "wantsAutomation") (lead_object lead)
     = Some (SBool (wantsAutomation lead)).
Proof. repeat split; vm_compute; reflexivity. Qed.

Lemma lead_object_constraints lead :
  startsWith (js "lead_") (id lead) = true ->
  (length (industry lead) <= 80)%nat -> (length (problem lead) <= 120)%nat ->
  (length (tools lead) <= 200)%nat -> (length (message lead) <= 2000)%nat ->
  (length (contact lead) <= 120)%nat -> (length (website lead) <= 200)%nat ->
  field_constraints (lead_object lead) = true.
Proof.
  intros Hid Hi Hp Ht Hm Hc Hw.
  destruct (lead_object_lookup lead)
    as (E1 & E2 & E3 & E4 & E5 & E6 & E7 & E8 & E9 & E10).
  unfold field_constraints, string_member, bool_member, within.
  rewrite E1, E2, E3, E4, E5, E6, E7, E8, E9, E10, Hid.
  rewrite !bool_decide_eq_true_2 by done. reflexivity.
Qed.

(** Whatever the handler stores is within the limits of the data
    model: the check of the fields comes before the append, and the
    text fields are cut on the way. *)
Lemma stored_record_within_limits (body : JsVal Num) env fsys fs' :
  lead_handler body env fsys = (fs', Responded 200 BodyOk) ->
  exists lead,
    leads_jsonl fs' = leads_jsonl fsys ++ lead_line lead
    /\ missing_required body = false
    /\ field_constraints (lead_object lead) = true.
Proof.
  intros Hrun. pose proof Hrun as (lead & Hlead & Hfile)%lead_handler_200.
  exists lead. split; [exact Hfile|]. split.
  - unfold lead_handler in Hrun. rewrite missing_required_body in Hrun.
    by destruct (missing_required body).
  - destruct (build_lead_inv _ _ _ Hlead)
      as (Hid & _ & Hi & Hp & Ht & Hmsg & Hc & Hw & _).
    apply lead_object_constraints; try (eapply safe_length; eassumption).
    by rewrite Hid.
Qed.

(** A body whose required fields are non-empty strings and whose other
    text fields are strings or absent is a valid submission. *)
Lemma string_submission_valid (body : JsVal Num) :
  (forall k, In k required_fields -> exists c s, get body k = JStr (c :: s)) ->
  (forall k, In k text_fields ->
     get body k = JUndefined \/ exists s, get body k = JStr s) ->
  valid_submission body = true.
Proof.
  intros Hreq Htext. unfold valid_submission.
  apply andb_true_intro. split; apply forallb_forall; intros k Hk.
  - destruct (Hreq k Hk) as (c & s & ->). reflexivity.
  - destruct (Htext k Hk) as [-> | [s ->]]; reflexivity.
Qed.

End HandlerFacts.

Section HandlerTheorems.
Context {Num : Type} `{JsNumber Num}.

(** C4, as amended: when one of the four required fields is absent or
    falsy ([undefined], [null], [false], the empty string, a falsy
    number), the handler answers 400 with the fixed message and leaves
    the file system as it was. *)
Theorem missing_required_rejected (body : JsVal Num) (env : Env)
    (fsys : FileSystem) (key : string) :
  In key required_fields ->
  truthy (get body key) = false ->
  lead_handler body env fsys =
    (fsys, Responded 400 (BodyError "Uzupełnij: branża, problem, opis, kontakt.")).
Proof.
  intros Hin Hf. apply lead_handler_400.
  rewrite missing_required_forallb. apply negb_true_iff.
  apply not_true_is_false. intros Hall.
  rewrite forallb_forall in Hall. specialize (Hall key Hin). congruence.
Qed.

(** C9: in the line of a stored record, [wantsMvp] and
    [wantsAutomation] are the truthiness of the submitted values: a
    non-empty string, whatever it spells, gives [true], and so do
    [true], every array and every object; an absent field, [null],
    [false] and the empty string give [false]; a number gives what
    its own truthiness is, for an integer [false] exactly at 0. *)
Theorem flags_are_truthiness (body : JsVal Num) (env : Env)
    (fsys fs' : FileSystem) :
  lead_handler body env fsys = (fs', Responded 200 BodyOk) ->
  (exists line o,
     leads_jsonl fs' = leads_jsonl fsys ++ line ++ [Chars.LF]
     /\ JSON_parse line = Some o
     /\ own_property (js "wantsMvp") o
        = Some (SBool (truthy (get body "wantsMvp")))
     /\ own_property (js "wantsAutomation") o
        = Some (SBool (truthy (get body "wantsAutomation"))))
  /\ truthy (JStr (js "false") : JsVal Num) = true
  /\ (forall c s, truthy (JStr (c :: s) : JsVal Num) = true)
  /\ truthy (JUndefined : JsVal Num) = false
  /\ truthy (JNull : JsVal Num) = false
  /\ truthy (JBool false : JsVal Num) = false
  /\ truthy (JStr [] : JsVal Num) = false
  /\ truthy (JBool true : JsVal Num) = true
  /\ (forall l, truthy (JArr l : JsVal Num) = true)
  /\ (forall props, truthy (JObj props : JsVal Num) = true)
  /\ (forall x : Num, truthy (JNum x) = num_truthy x)
  /\ truthy (JNum 0%Z) = false
  /\ (forall z : Z, z <> 0%Z -> truthy (JNum z) = true).
Proof.
  intros (lead & Hlead & Hfile)%lead_handler_200.
  split; [|repeat split; try done;
           intros z Hz; cbn; by destruct (Z.eqb_spec z 0)].
  exists (JSON_stringify (lead_object lead)), (lead_object lead).
  split; [exact Hfile|]. split; [apply JSON_parse_stringify|].
  destruct (build_lead_inv _ _ _ Hlead) as (_ & _ & _ & _ & _ & _ & _ & _ & Hm & Ha).
  rewrite !get_body_or_empty in *.
  destruct (lead_object_lookup lead) as (_ & _ & _ & _ & _ & _ & _ & _ & E9 & E10).
  by rewrite E9, E10, Hm, Ha.
Qed.

End HandlerTheorems.

(** C4 as stated fails: an empty array is empty after conversion to a
    string, and it is truthy; the request is accepted and a record with
    an empty industry is appended. *)
Lemma empty_array_is_accepted :
  let body := sample_body (JArr []) JUndefined in
  ToString (get body "industry") = Normal []
  /\ lead_handler body sample_env empty_disk =
     ({| data_dir_exists := true;
         leads_jsonl := lead_line (sample_lead []) |},
      Responded 200 BodyOk).
Proof. split; reflexivity. Qed.

(** C2 at the failing input: an industry of one space passes the check
    of the required fields, is sanitized to the empty string, and the
    record is stored with an empty [industry]. *)
Theorem blank_required_field_is_stored :
  let body := sample_body (JStr (js " ")) JUndefined in
  lead_handler body sample_env empty_disk =
    ({| data_dir_exists := true;
        leads_jsonl := lead_line (sample_lead []) |},
     Responded 200 BodyOk)
  /\ JSON_parse (JSON_stringify (lead_object (sample_lead [])))
     = Some (lead_object (sample_lead []))
  /\ required_constraints (lead_object (sample_lead [])) = false.
Proof. repeat split; vm_compute; reflexivity. Qed.

(** ** The theorems at sample inputs *)

Local Close Scope N_scope.
Local Open Scope Z_scope.

Lemma rate_limiter_spec_witness :
  let req := sample_request "/api/lead" (sample_body (JStr (js "Handel")) JUndefined) in
  let st := passed_state (js "1.2.3.4") 1700000000000 initial_server in
  startsWith (js "/api/") (req_path req) = true
  /\ (lastHitByIp initial_server !! client_ip req = None -> 3000 <= 1700000000000)
  /\ rate_limiter no_routes req 1700000000000 initial_server = no_routes st
  /\ rate_limiter no_routes req 1700000003000 st
     = no_routes (passed_state (js "1.2.3.4") 1700000003000 st)
  /\ rate_limiter no_routes req 1700000002999 st
     = (st, Responded 429 (BodyError MSG_TOO_FAST)).
Proof.
  cbn zeta. split; [reflexivity|]. split; [intros _; lia|].
  pose (req := sample_request "/api/lead" (sample_body (JStr (js "Handel")) JUndefined)).
  pose (st := passed_state (js "1.2.3.4") 1700000000000 initial_server).
  assert (Hnone : lastHitByIp initial_server !! client_ip req = None)
    by apply lookup_empty.
  assert (Hlook : lastHitByIp st !! client_ip req = Some 1700000000000)
    by apply lookup_insert_eq.
  split; [|split].
  - destruct (rate_limiter_spec no_routes req 1700000000000 initial_server
                eq_refl ltac:(intros _; lia)) as (_ & Hthrough & _).
    cbn zeta in Hthrough. rewrite Hnone in Hthrough.
    destruct (Hthrough eq_refl) as [Hrun _]. exact Hrun.
  - destruct (rate_limiter_spec no_routes req 1700000003000 st eq_refl
                ltac:(intros _; lia)) as (_ & Hthrough & _).
    cbn zeta in Hthrough. rewrite Hlook in Hthrough.
    destruct (Hthrough eq_refl) as [Hrun _]. exact Hrun.
  - destruct (rate_limiter_spec no_routes req 1700000002999 st eq_refl
                ltac:(intros _; lia)) as (_ & _ & Hreject).
    cbn zeta in Hreject. rewrite Hlook in Hreject.
    exact (Hreject eq_refl).
Defined.

Lemma missing_required_rejected_witness :
  In "industry"%string required_fields
  /\ truthy (get (JObj [] : JsVal Z) "industry") = false
  /\ lead_handler (JObj [] : JsVal Z) sample_env empty_disk
     = (empty_disk, Responded 400 (BodyError MSG_REQUIRED)).
Proof.
  split; [by left|]. split; [reflexivity|].
  apply (missing_required_rejected (JObj [] : JsVal Z) sample_env empty_disk
           "industry"); [by left | reflexivity].
Defined.

Lemma generateId_form_witness :
  random_rendering (js "0.8f3a2c")
  /\ 0 <= 1700000000001
  /\ exists rnd stamp,
       generateId (js "0.8f3a2c") 1700000000001 = js "lead_" ++ rnd ++ stamp
       /\ startsWith (js "lead_") (generateId (js "0.8f3a2c") 1700000000001) = true
       /\ rnd = slice_from 2 (js "0.8f3a2c")
       /\ forallb is_hex_digit rnd = true
       /\ stamp = toString16 1700000000001
       /\ stamp <> []
       /\ forallb is_hex_digit stamp = true
       /\ Z.of_N (of_hex stamp) = 1700000000001
       /\ rnd = js "8f3a2c".
Proof.
  assert (Hr : random_rendering (js "0.8f3a2c")).
  { right. exists (js "8f3a2c"). split; reflexivity. }
  split; [exact Hr|]. split; [lia|].
  destruct (generateId_form (js "0.8f3a2c") 1700000000001 Hr ltac:(lia))
    as (rnd & stamp & H1 & H2 & H3 & H4 & H5 & H6 & H7 & H8 & _ & Hds & _).
  exists rnd, stamp.
  split; [exact H1|]. split; [exact H2|]. split; [exact H3|].
  split; [exact H4|]. split; [exact H5|]. split; [exact H6|].
  split; [exact H7|]. split; [exact H8|].
  exact (Hds (js "8f3a2c") eq_refl).
Defined.

Lemma rate_limiter_scope_witness :
  let req := sample_request "/health" (JUndefined : JsVal Z) in
  startsWith (js "/api/") (req_path req) = false
  /\ rate_limiter no_routes req 1700000000000 initial_server
     = no_routes initial_server
  /\ limiter_rejects req 1700000000000 initial_server = false
  /\ map_after_limiter req 1700000000000 initial_server
     = lastHitByIp initial_server.
Proof.
  cbn zeta. split; [reflexivity|].
  apply (rate_limiter_scope no_routes
           (sample_request "/health" (JUndefined : JsVal Z))
           1700000000000 initial_server eq_refl).
Defined.

Lemma flags_are_truthiness_witness :
  lead_handler sample_flags_body sample_env empty_disk
  = ({| data_dir_exists := true; leads_jsonl := lead_line sample_flags_lead |},
     Responded 200 BodyOk)
  /\ (exists line o,
        lead_line sample_flags_lead = leads_jsonl empty_disk ++ line ++ [Chars.LF]
        /\ JSON_parse line = Some o
        /\ own_property (js "wantsMvp") o = Some (SBool true)
        /\ own_property (js "wantsAutomation") o = Some (SBool false))
  /\ lead_handler sample_ticked_body sample_env empty_disk
     = ({| data_dir_exists := true; leads_jsonl := lead_line sample_flags_lead |},
        Responded 200 BodyOk)
  /\ (exists line o,
        lead_line sample_flags_lead = leads_jsonl empty_disk ++ line ++ [Chars.LF]
        /\ JSON_parse line = Some o
        /\ own_property (js "wantsMvp") o = Some (SBool true)
        /\ own_property (js "wantsAutomation") o = Some (SBool false)).
Proof.
  assert (Hrun : lead_handler sample_flags_body sample_env empty_disk
                 = ({| data_dir_exists := true;
                       leads_jsonl := lead_line sample_flags_lead |},
                    Responded 200 BodyOk)) by reflexivity.
  assert (Hrun2 : lead_handler sample_ticked_body sample_env empty_disk
                  = ({| data_dir_exists := true;
                        leads_jsonl := lead_line sample_flags_lead |},
                     Responded 200 BodyOk)) by reflexivity.
  split; [exact Hrun|]. split.
  - destruct (flags_are_truthiness sample_flags_body sample_env empty_disk _ Hrun)
      as [(line & o & Hfile & Hparse & Hmvp & Hauto) _].
    exists line, o. repeat split; assumption.
  - split; [exact Hrun2|].
    destruct (flags_are_truthiness sample_ticked_body sample_env empty_disk _ Hrun2)
      as [(line & o & Hfile & Hparse & Hmvp & Hauto) _].
    exists line, o. repeat split; assumption.
Defined.

Lemma rate_limiter_isolation_witness :
  let req := sample_request "/api/lead" (sample_body (JStr (js "Handel")) JUndefined) in
  let other := passed_state (js "5.6.7.8") 1699999999000 initial_server in
  files initial_server = files other
  /\ lastHitByIp initial_server !! client_ip req = lastHitByIp other !! client_ip req
  /\ snd (app post_api_lead req sample_env initial_server)
     = snd (app post_api_lead req sample_env other).
Proof.
  cbn zeta.
  pose (req := sample_request "/api/lead" (sample_body (JStr (js "Handel")) JUndefined)).
  pose (other := passed_state (js "5.6.7.8") 1699999999000 initial_server).
  assert (Hm : lastHitByIp initial_server !! client_ip req
               = lastHitByIp other !! client_ip req).
  { symmetry. etrans; [apply lookup_insert_ne; discriminate|]. reflexivity. }
  split; [reflexivity|]. split; [exact Hm|].
  destruct (rate_limiter_isolation post_api_lead req sample_env
              initial_server other eq_refl Hm) as (_ & Hout & _).
  exact Hout.
Defined.

(** ** The examples of the specification *)

Example stored_industry_is_normalized :
  lead_handler (sample_body (JStr (js "  Handel   detaliczny ")) JUndefined)
    sample_env empty_disk
  = ({| data_dir_exists := true;
        leads_jsonl := lead_line (sample_lead (js "Handel detaliczny")) |},
     Responded 200 BodyOk).
Proof. reflexivity. Qed.

Example two_rapid_posts :
  let req := sample_request "/api/lead" (sample_body (JStr (js "Handel")) JUndefined) in
  let later :=
    {| limiter_now := 1700000001000; random16 := js "0.1b";
       id_now := 1700000001001; iso_now := js "2023-11-14T22:13:21.001Z";
       mkdir_ok := true; append_ok := true |} in
  snd (serve post_api_lead [(req, sample_env); (req, later)] initial_server)
  = [Responded 200 BodyOk;
     Responded 429 (BodyError "Za szybko. Spróbuj za chwilę.")].
Proof. vm_compute. reflexivity. Qed.

Example empty_body_is_rejected :
  app post_api_lead (sample_request "/api/lead" (JObj [])) sample_env initial_server
  = ({| lastHitByIp := {[ js "1.2.3.4" := 1700000000000 ]};
        files := files initial_server |},
     Responded 400 (BodyError "Uzupełnij: branża, problem, opis, kontakt.")).
Proof. reflexivity. Qed.

(** * Further properties *)

(** ** The sanitizer in terms of words *)

Local Close Scope Z_scope.
Local Open Scope N_scope.

Lemma trim_start_replace_ws_runs s :
  trim_start (replace_ws_runs s) = replace_ws_runs (trim_start s).
Proof.
  induction s as [|c s IH]; [done|].
  rewrite replace_ws_runs_cons. cbn [trim_start].
  destruct (is_ws c) eqn:Hc.
  - destruct (starts_with_ws s) eqn:Hs; [exact IH|].
    cbn [trim_start]. rewrite is_ws_space, IH. done.
  - cbn [trim_start]. rewrite Hc. by rewrite replace_ws_runs_cons, Hc.
Qed.

Lemma words_trim_start s : words (trim_start s) = words s.
Proof.
  induction s as [|c s IH]; [done|].
  cbn [trim_start words]. destruct (is_ws c) eqn:Hc; [exact IH|].
  cbn [words]. by rewrite Hc.
Qed.

Lemma words_cons c s :
  words (c :: s) =
  if is_ws c then words s
  else if starts_with_ws s then [c] :: words s
  else match words s with
       | w :: ws => (c :: w) :: ws
       | [] => [[c]]
       end.
Proof. reflexivity. Qed.

Lemma words_nonempty_head c s : is_ws c = false -> words (c :: s) <> [].
Proof.
  intros Hc. rewrite words_cons, Hc.
  destruct (starts_with_ws s); [done|]. by destruct (words s).
Qed.

Lemma words_no_empty_word s : Forall (fun w => w <> []) (words s).
Proof.
  induction s as [|c s IH]; [constructor|].
  rewrite words_cons. destruct (is_ws c); [exact IH|].
  destruct (starts_with_ws s); [by constructor|].
  destruct (words s) as [|w ws]; [by repeat constructor|].
  inversion IH; subst. by constructor.
Qed.

Lemma unwords_cons w ws :
  unwords (w :: ws) =
  match ws with [] => w | _ :: _ => w ++ Chars.SPACE :: unwords ws end.
Proof. destruct ws; reflexivity. Qed.

Lemma unwords_nonempty ws :
  ws <> [] -> Forall (fun w => w <> []) ws -> unwords ws <> [].
Proof.
  destruct ws as [|w ws]; [done|]. intros _ Hall.
  inversion Hall as [|? ? Hw _]; subst. rewrite unwords_cons.
  destruct ws; [exact Hw|]. by destruct w.
Qed.

Lemma trim_end_cons c s :
  trim_end (c :: s) =
  match trim_end s with
  | [] => if is_ws c then [] else [c]
  | t => c :: t
  end.
Proof. reflexivity. Qed.

Lemma trim_end_replace_ws_runs s :
  trim_end (replace_ws_runs s) =
  match words s with
  | [] => []
  | _ :: _ =>
      (if starts_with_ws s then [Chars.SPACE] else []) ++ unwords (words s)
  end.
Proof.
  induction s as [|c s IH]; [done|].
  pose proof (words_no_empty_word s) as Hne.
  rewrite replace_ws_runs_cons, words_cons. cbn [starts_with_ws].
  destruct (is_ws c) eqn:Hc.
  - destruct (starts_with_ws s) eqn:Hs; [exact IH|].
    rewrite trim_end_cons, IH, is_ws_space.
    destruct (words s) as [|w ws] eqn:Hw; [done|].
    cbn [app].
    destruct (unwords (w :: ws)) eqn:Hu; [|done].
    by apply unwords_nonempty in Hu.
  - rewrite trim_end_cons, IH, Hc.
    destruct (starts_with_ws s) eqn:Hs.
    + destruct (words s) as [|w ws] eqn:Hw; [done|]. reflexivity.
    + destruct (words s) as [|w ws] eqn:Hw; [done|].
      cbn [app].
      assert (Hu : unwords (w :: ws) <> []) by (by apply unwords_nonempty).
      destruct (unwords (w :: ws)) as [|u us] eqn:E; [done|].
      rewrite <- E, !unwords_cons.
      inversion Hne as [|? ? Hw0 _]; subst.
      destruct w as [|d w']; [done|]. by destruct ws.
Qed.

(** The text the sanitizer cuts is the words of the input joined by
    single spaces. *)
Lemma trim_replace_ws_runs_words s :
  trim (replace_ws_runs s) = unwords (words s).
Proof.
  unfold trim. rewrite trim_start_replace_ws_runs, trim_end_replace_ws_runs.
  rewrite trim_start_head, words_trim_start.
  by destruct (words s).
Qed.

Lemma words_nil_iff s : words s = [] <-> forallb is_ws s = true.
Proof.
  induction s as [|c s IH]; [done|].
  rewrite words_cons. cbn [forallb]. destruct (is_ws c) eqn:Hc; [exact IH|].
  split; [|done]. destruct (starts_with_ws s); [done|]. by destruct (words s).
Qed.

Lemma unwords_nil_iff ws :
  Forall (fun w => w <> []) ws -> unwords ws = [] <-> ws = [].
Proof.
  intros Hall. split; [|by intros ->].
  intros Hu. destruct ws as [|w ws']; [done|].
  by apply unwords_nonempty in Hu.
Qed.

Lemma single_spaced_snoc r c :
  single_spaced r = true -> is_ws c = false -> single_spaced (r ++ [c]) = true.
Proof.
  intros Hr Hc. induction r as [|d r IH].
  - change ([] ++ [c]) with [c]. by rewrite single_spaced_cons, Hc.
  - change ((d :: r) ++ [c]) with (d :: (r ++ [c])).
    rewrite single_spaced_cons in *. apply andb_prop in Hr as [Hd Hr].
    rewrite (IH Hr), andb_true_r, starts_with_ws_app.
    destruct (is_ws d); [|done].
    apply andb_prop in Hd as [-> Hn]. cbn [andb].
    destruct r as [|e r']; [cbn [starts_with_ws]; by rewrite Hc | exact Hn].
Qed.

Lemma ends_with_ws_snoc r c : ends_with_ws (r ++ [c]) = is_ws c.
Proof. unfold ends_with_ws. by rewrite last_snoc. Qed.

Section SanitizerWords.
Context {Num : Type} `{JsNumber Num}.

(** X1: The sanitized text is the words of the input joined by single
    spaces and cut at [max]; so two inputs with the same words, however
    they are spaced, are stored alike. *)
Theorem safe_joins_words (x : JsString) (max : nat) :
  safe (Num:=Num) (JStr x) max = Normal (take max (unwords (words x)))
  /\ forall y, words y = words x ->
       safe (Num:=Num) (JStr y) max = safe (Num:=Num) (JStr x) max.
Proof.
  assert (Hx : forall z, safe (Num:=Num) (JStr z) max
                         = Normal (take max (unwords (words z)))).
  { intros z. rewrite safe_string. unfold normalize, slice0.
    by rewrite trim_replace_ws_runs_words. }
  split; [apply Hx|]. intros y Hy. by rewrite !Hx, Hy.
Qed.

(** X2: The sanitizer gives the empty string exactly when the limit is 0
    or the input holds nothing but whitespace. *)
Theorem safe_empty_iff (x : JsString) (max : nat) :
  safe (Num:=Num) (JStr x) max = Normal []
  <-> max = 0%nat \/ forallb is_ws x = true.
Proof.
  rewrite safe_string. unfold normalize, slice0.
  rewrite trim_replace_ws_runs_words, <- words_nil_iff.
  rewrite <- (unwords_nil_iff (words x) (words_no_empty_word x)).
  split.
  - intros [= Ht]. destruct max; [by left|].
    destruct (unwords (words x)); [by right | done].
  - intros [-> | ->]; [by rewrite take_0 | by rewrite take_nil].
Qed.

(** X3: The strings the sanitizer can return for a limit [max] are exactly
    the single-spaced strings without leading whitespace, of length at
    most [max], that end in whitespace only when their length is
    [max]. *)
Theorem safe_image (r : JsString) (max : nat) :
  (exists x, safe (Num:=Num) (JStr x) max = Normal r)
  <-> single_spaced r = true
      /\ starts_with_ws r = false
      /\ (length r <= max)%nat
      /\ (ends_with_ws r = true -> length r = max).
Proof.
  split.
  - intros [x Hx]. rewrite safe_string in Hx. injection Hx as <-.
    destruct (normalize_shape max x) as [Hsp Hst].
    split; [exact Hsp|]. split; [exact Hst|].
    split; [apply normalize_length|].
    intros Hend. unfold normalize, slice0 in *.
    destruct (trim_replace_shape x) as (_ & _ & Hno).
    destruct (decide (length (trim (replace_ws_runs x)) <= max)%nat) as [Hle|Hgt].
    + rewrite take_ge in Hend by done. congruence.
    + rewrite length_take. lia.
  - intros (Hsp & Hst & Hlen & Hend).
    destruct (ends_with_ws r) eqn:He.
    + specialize (Hend eq_refl). exists (r ++ [120]).
      rewrite safe_string. f_equal. unfold normalize, slice0, trim.
      assert (Hsp' : single_spaced (r ++ [120]) = true)
        by (by apply single_spaced_snoc).
      rewrite (replace_ws_runs_id _ Hsp').
      rewrite trim_start_id by (rewrite starts_with_ws_app; by destruct r).
      rewrite trim_end_id by (by rewrite ends_with_ws_snoc).
      rewrite <- Hend. apply take_app_length.
    + exists r. rewrite safe_string. f_equal. by apply normalize_fixed.
Qed.

End SanitizerWords.

(** ** The stored record *)

Lemma normalize_words max s : normalize max s = take max (unwords (words s)).
Proof. unfold normalize, slice0. by rewrite trim_replace_ws_runs_words. Qed.

Section StoredRecord.
Context {Num : Type} `{JsNumber Num}.

Lemma text_field_sanitized (v : JsVal Num) max :
  coercible v = true ->
  exists s, ToString (nullish v (JStr [])) = Normal s
            /\ safe v max = Normal (take max (unwords (words s))).
Proof.
  intros Hv. rewrite <- nullish_coercible in Hv.
  apply ToString_returns in Hv as [s Hs]. exists s. split; [done|].
  by rewrite (safe_returns _ _ _ Hs), normalize_words.
Qed.

Lemma filled_field_nonempty (v : JsVal Num) max s :
  truthy v = true -> has_text v = true -> (0 < max)%nat ->
  ToString (nullish v (JStr [])) = Normal s ->
  nonempty (take max (unwords (words s))) = true.
Proof.
  intros Ht Hx Hmax Hs.
  assert (Hn : nullish v (JStr []) = v) by (by destruct v).
  rewrite Hn in Hs. unfold has_text in Hx. rewrite Hs in Hx.
  apply negb_true_iff in Hx.
  assert (Hw : words s <> []) by (intros Hw%words_nil_iff; congruence).
  assert (Hu : unwords (words s) <> []).
  { intros Hu. apply unwords_nil_iff in Hu; [done | apply words_no_empty_word]. }
  destruct max; [lia|]. by destruct (unwords (words s)).
Qed.

(** C1, as amended: for a submission whose four required fields are
    truthy and hold text other than white space and whose six text
    fields convert to strings, when the store accepts the write, the
    handler answers 200 with [{ok: true}] and the file grows by exactly
    one line.  The object read from that line is the record of the
    body, member by member: the generated [id], the time stamp, each
    text field as the words of the submitted text joined by single
    spaces and cut at its maximum, the flags as the truthiness of the
    submitted values.  It meets every constraint of the data model:
    the [id] starts with [lead_], every text field is within its
    maximum, the four required fields are not empty, the flags are
    booleans. *)
Theorem valid_submission_stored (body : JsVal Num) (env : Env) (fsys : FileSystem) :
  valid_submission body = true ->
  required_filled body = true ->
  store_accepts env fsys = true ->
  exists i p t m c w line o,
    ToString (nullish (get body "industry") (JStr [])) = Normal i
    /\ ToString (nullish (get body "problem") (JStr [])) = Normal p
    /\ ToString (nullish (get body "tools") (JStr [])) = Normal t
    /\ ToString (nullish (get body "message") (JStr [])) = Normal m
    /\ ToString (nullish (get body "contact") (JStr [])) = Normal c
    /\ ToString (nullish (get body "website") (JStr [])) = Normal w
    /\ o = [ (js "id", SStr (generateId (random16 env) (id_now env)));
             (js "createdAt", SStr (iso_now env));
             (js "industry", SStr (take 80 (unwords (words i))));
             (js "problem", SStr (take 120 (unwords (words p))));
             (js "tools", SStr (take 200 (unwords (words t))));
             (js "message", SStr (take 2000 (unwords (words m))));
             (js "contact", SStr (take 120 (unwords (words c))));
             (js "website", SStr (take 200 (unwords (words w))));
             (js "wantsMvp", SBool (truthy (get body "wantsMvp")));
             (js "wantsAutomation", SBool (truthy (get body "wantsAutomation"))) ]
    /\ lead_handler body env fsys =
         ({| data_dir_exists := true;
             leads_jsonl := leads_jsonl fsys ++ line ++ [Chars.LF] |},
          Responded 200 BodyOk)
    /\ no_line_feed line = true
    /\ JSON_parse line = Some o
    /\ field_constraints o = true
    /\ required_constraints o = true.
Proof.
  intros Hvalid Hfilled Hstore.
  pose proof Hvalid as [Hreq Htext]%andb_prop.
  unfold text_fields in Htext. cbn [forallb] in Htext.
  rewrite !andb_true_iff in Htext.
  destruct Htext as (Ci & Cp & Ct & Cm & Cc & Cw & _).
  unfold required_fields in Hreq. cbn [forallb] in Hreq.
  rewrite !andb_true_iff in Hreq. destruct Hreq as (Ti & Tp & Tm & Tc & _).
  unfold required_filled, required_fields in Hfilled. cbn [forallb] in Hfilled.
  rewrite !andb_true_iff in Hfilled. destruct Hfilled as (Fi & Fp & Fm & Fc & _).
  destruct (text_field_sanitized _ 80 Ci) as (i & Ei & Si).
  destruct (text_field_sanitized _ 120 Cp) as (p & Ep & Sp).
  destruct (text_field_sanitized _ 200 Ct) as (t & Et & St).
  destruct (text_field_sanitized _ 2000 Cm) as (m & Em & Sm).
  destruct (text_field_sanitized _ 120 Cc) as (c & Ec & Sc).
  destruct (text_field_sanitized _ 200 Cw) as (w & Ew & Sw).
  set (lead := {| id := generateId (random16 env) (id_now env);
                  createdAt := iso_now env;
                  industry := take 80 (unwords (words i));
                  problem := take 120 (unwords (words p));
                  tools := take 200 (unwords (words t));
                  message := take 2000 (unwords (words m));
                  contact := take 120 (unwords (words c));
                  website := take 200 (unwords (words w));
                  wantsMvp := truthy (get body "wantsMvp");
                  wantsAutomation := truthy (get body "wantsAutomation") |}).
  assert (Hlead : build_lead (body_or_empty body) env = Normal lead).
  { unfold build_lead. rewrite !get_body_or_empty.
    rewrite Si, bind_Normal, Sp, bind_Normal, St, bind_Normal.
    rewrite Sm, bind_Normal, Sc, bind_Normal, Sw, bind_Normal. reflexivity. }
  assert (Hm : missing_required (body_or_empty body) = false).
  { rewrite missing_required_body. unfold missing_required.
    by rewrite Ti, Tp, Tm, Tc. }
  exists i, p, t, m, c, w, (JSON_stringify (lead_object lead)), (lead_object lead).
  split; [exact Ei|]. split; [exact Ep|]. split; [exact Et|].
  split; [exact Em|]. split; [exact Ec|]. split; [exact Ew|].
  split; [reflexivity|].
  split; [by apply lead_handler_stores|].
  split; [apply JSON_stringify_no_line_feed|].
  split; [apply JSON_parse_stringify|].
  split.
  - apply lead_object_constraints; [reflexivity|..]; cbn [industry problem tools
      message contact website lead]; rewrite length_take; lia.
  - destruct (lead_object_lookup lead)
      as (_ & _ & L3 & L4 & _ & L6 & L7 & _).
    unfold required_constraints, string_member. rewrite L3, L4, L6, L7.
    cbn [industry problem message contact lead].
    rewrite (filled_field_nonempty _ 80 i Ti Fi ltac:(lia) Ei).
    rewrite (filled_field_nonempty _ 120 p Tp Fp ltac:(lia) Ep).
    rewrite (filled_field_nonempty _ 2000 m Tm Fm ltac:(lia) Em).
    rewrite (filled_field_nonempty _ 120 c Tc Fc ltac:(lia) Ec).
    reflexivity.
Qed.

End StoredRecord.

(** C1 as stated fails: a body can provide the four fields and still
    not be stored as the data model asks.  A message of spaces passes
    the check and is stored empty; a tool list that cannot be converted
    to a string makes the handler throw, and nothing is answered 200. *)
Lemma provided_fields_not_enough :
  let blank : JsVal Z :=
    JObj [ (js "industry", JStr (js "Handel"));
           (js "problem", JStr (js "Brak czasu"));
           (js "message", JStr (js "   "));
           (js "contact", JStr (js "jan@x.pl")) ] in
  let odd : JsVal Z :=
    sample_body (JStr (js "Handel")) (JObj [(js "toString", JNull)]) in
  (missing_required blank = false
   /\ exists lead,
        lead_handler blank sample_env empty_disk =
          ({| data_dir_exists := true; leads_jsonl := lead_line lead |},
           Responded 200 BodyOk)
        /\ JSON_parse (JSON_stringify (lead_object lead)) = Some (lead_object lead)
        /\ message lead = []
        /\ required_constraints (lead_object lead) = false)
  /\ (missing_required odd = false
      /\ lead_handler odd sample_env empty_disk = (empty_disk, Uncaught TypeError)).
Proof.
  cbn zeta. split; [|split; reflexivity].
  split; [reflexivity|].
  exists {| id := js "lead_8f3a2c18bcfe56801";
            createdAt := js "2023-11-14T22:13:20.001Z";
            industry := js "Handel";
            problem := js "Brak czasu";
            tools := [];
            message := [];
            contact := js "jan@x.pl";
            website := [];
            wantsMvp := false;
            wantsAutomation := false |}.
  repeat split; vm_compute; reflexivity.
Qed.

Lemma valid_submission_stored_witness :
  let body := sample_body (JStr (js "  Handel   detaliczny ")) JUndefined in
  valid_submission body = true
  /\ required_filled body = true
  /\ store_accepts sample_env empty_disk = true
  /\ exists line o,
       lead_handler body sample_env empty_disk =
         ({| data_dir_exists := true;
             leads_jsonl := leads_jsonl empty_disk ++ line ++ [Chars.LF] |},
          Responded 200 BodyOk)
       /\ no_line_feed line = true
       /\ JSON_parse line = Some o
       /\ field_constraints o = true
       /\ required_constraints o = true
       /\ own_property (js "industry") o = Some (SStr (js "Handel detaliczny")).
Proof.
  cbn zeta. split; [reflexivity|]. split; [reflexivity|]. split; [reflexivity|].
  destruct (valid_submission_stored
              (sample_body (JStr (js "  Handel   detaliczny ")) JUndefined)
              sample_env empty_disk eq_refl eq_refl eq_refl)
    as (i & p & t & m & c & w & line & o & Ei & _ & _ & _ & _ & _
        & Ho & Hrun & Hlf & Hparse & Hfc & Hrc).
  exists line, o. split; [exact Hrun|]. split; [exact Hlf|].
  split; [exact Hparse|]. split; [exact Hfc|]. split; [exact Hrc|].
  assert (Hi : i = js "  Handel   detaliczny ") by (by injection Ei).
  rewrite Ho, Hi. reflexivity.
Defined.

(** ** The handler: failures, and what reaches the file *)

Section HandlerMore.
Context {Num : Type} `{JsNumber Num}.

Lemma ToString_throws (v : JsVal Num) e : ToString v = Throw e -> e = TypeError.
Proof.
  revert e. pattern v. apply JsVal_nested_ind; clear v; try done.
  - by intros [|].
  - intros elems IH. induction IH as [|x l Hx _ IHl]; [done|].
    intros e. rewrite ToString_array_cons.
    assert (Hp : forall e', array_piece x = Throw e' -> e' = TypeError).
    { intros e'. destruct x; try done; apply Hx. }
    destruct l as [|y l'].
    + apply Hp.
    + destruct (array_piece x) as [p|e1] eqn:Ep.
      * rewrite bind_Normal.
        destruct (ToString (JArr (y :: l'))) as [r|e2] eqn:Er; [done|].
        rewrite bind_Throw. intros [= <-]. by apply IHl.
      * rewrite bind_Throw. intros [= <-]. by apply Hp.
  - intros props e. simpl. destruct (own_property _ props); [|done].
    by intros [= <-].
Qed.

Lemma safe_throws (v : JsVal Num) max :
  coercible v = false -> safe v max = Throw TypeError.
Proof.
  intros Hv. unfold safe.
  destruct (ToString (nullish v (JStr []))) as [s|e] eqn:Es.
  - assert (coercible (nullish v (JStr [])) = true)
      by (apply ToString_returns; eauto).
    rewrite nullish_coercible in *. congruence.
  - rewrite bind_Throw. by rewrite (ToString_throws _ _ Es).
Qed.

Lemma safe_cases (v : JsVal Num) max :
  (coercible v = true /\ exists r, safe v max = Normal r)
  \/ (coercible v = false /\ safe v max = Throw TypeError).
Proof.
  destruct (coercible v) eqn:Hv.
  - left. split; [done|]. by apply safe_total.
  - right. split; [done|]. by apply safe_throws.
Qed.

Lemma build_lead_throws (b : JsVal Num) env :
  forallb (fun k => coercible (get b k)) text_fields = false ->
  build_lead b env = Throw TypeError.
Proof.
  unfold text_fields, build_lead. cbn [forallb]. intros Hc.
  destruct (safe_cases (get b "industry") 80) as [[C1 [r1 ->]] | [_ ->]]; [|done].
  destruct (safe_cases (get b "problem") 120) as [[C2 [r2 ->]] | [_ ->]]; [|done].
  destruct (safe_cases (get b "tools") 200) as [[C3 [r3 ->]] | [_ ->]]; [|done].
  destruct (safe_cases (get b "message") 2000) as [[C4 [r4 ->]] | [_ ->]]; [|done].
  destruct (safe_cases (get b "contact") 120) as [[C5 [r5 ->]] | [_ ->]]; [|done].
  destruct (safe_cases (get b "website") 200) as [[C6 [r6 ->]] | [_ ->]]; [|done].
  rewrite C1, C2, C3, C4, C5, C6 in Hc. done.
Qed.

Lemma text_fields_body (body : JsVal Num) :
  forallb (fun k => coercible (get (body_or_empty body) k)) text_fields
  = forallb (fun k => coercible (get body k)) text_fields.
Proof. unfold text_fields. cbn [forallb]. by rewrite !get_body_or_empty. Qed.

(** X4: when the required fields are there but one of the six text
    fields cannot be converted to a string, the handler throws a
    TypeError before it touches the file system: no answer of its own,
    no directory, no line. *)
Theorem lead_handler_throws (body : JsVal Num) (env : Env) (fsys : FileSystem) :
  missing_required body = false ->
  forallb (fun k => coercible (get body k)) text_fields = false ->
  lead_handler body env fsys = (fsys, Uncaught TypeError).
Proof.
  intros Hm Hc. unfold lead_handler.
  rewrite missing_required_body, Hm, build_lead_throws; [done|].
  by rewrite text_fields_body.
Qed.

(** X5: for a valid submission the store can fail in two ways.  If the
    directory is missing and cannot be made, the exception of
    [mkdirSync] leaves the handler and nothing has changed.  If the
    append fails, the answer is 500 with the fixed message; the
    directory is there by then, and the text of the file is as it
    was. *)
Theorem lead_handler_store_failure (body : JsVal Num) (env : Env)
    (fsys : FileSystem) :
  valid_submission body = true ->
  (data_dir_exists fsys = false -> mkdir_ok env = false ->
   lead_handler body env fsys = (fsys, Uncaught FsError))
  /\ ((data_dir_exists fsys || mkdir_ok env) = true -> append_ok env = false ->
      lead_handler body env fsys =
        ({| data_dir_exists := true; leads_jsonl := leads_jsonl fsys |},
         Responded 500 (BodyError "Błąd serwera. Spróbuj później."))).
Proof.
  intros [Hreq Htext]%andb_prop.
  assert (Hm : missing_required (body_or_empty body) = false).
  { by rewrite missing_required_body, missing_required_forallb, Hreq. }
  rewrite <- text_fields_body in Htext.
  destruct (build_lead_returns _ env Htext) as [lead Hlead].
  unfold lead_handler, ensure_dir. rewrite Hm, Hlead. split.
  - by intros -> ->.
  - intros Hd ->. destruct (data_dir_exists fsys) eqn:Hx.
    + destruct fsys as [d f]. cbn in *. by subst d.
    + cbn [orb] in Hd. by rewrite Hd.
Qed.

Lemma is_stored_iff o : is_stored o = true <-> o = Responded 200 BodyOk.
Proof.
  split; [|by intros ->].
  destruct o as [status [|err]| |]; try done.
  cbn [is_stored]. by intros ->%Nat.eqb_eq.
Qed.

Lemma is_stored_cases o : o = Responded 200 BodyOk \/ o <> Responded 200 BodyOk.
Proof.
  destruct (is_stored o) eqn:Ho.
  - left. by apply is_stored_iff.
  - right. intros Heq. apply is_stored_iff in Heq. congruence.
Qed.

Lemma lead_handler_shape (body : JsVal Num) env fsys :
  (snd (lead_handler body env fsys) <> Responded 200 BodyOk
   /\ leads_jsonl (fst (lead_handler body env fsys)) = leads_jsonl fsys)
  \/ (snd (lead_handler body env fsys) = Responded 200 BodyOk
      /\ exists lead,
           leads_jsonl (fst (lead_handler body env fsys))
           = leads_jsonl fsys ++ lead_line lead).
Proof.
  destruct (lead_handler body env fsys) as [fs' o] eqn:Hrun.
  destruct (is_stored_cases o) as [->|Hne].
  - right. split; [done|].
    apply lead_handler_200 in Hrun as (lead & _ & Hfile). eauto.
  - left. split; [done|]. cbn [fst].
    unfold lead_handler, ensure_dir in Hrun.
    destruct (missing_required _); [by injection Hrun as <- _|].
    destruct (build_lead _ _); [|by injection Hrun as <- _].
    destruct (data_dir_exists fsys) eqn:Hd.
    + destruct (append_ok env); injection Hrun as <- <-; done.
    + destruct (mkdir_ok env); [|by injection Hrun as <- _].
      destruct (append_ok env); injection Hrun as <- <-; done.
Qed.

Lemma lead_line_nonempty lead : lead_line lead <> [].
Proof. unfold lead_line, JSON_stringify. done. Qed.

(** X6: whatever the request, the handler only ever adds to the end of
    the file: the old text is kept, what is added is one line of a lead
    when the answer is 200 with [{ok: true}] and nothing otherwise, and
    a directory that was there stays. *)
Theorem lead_handler_append_only (body : JsVal Num) (env : Env) (fsys : FileSystem) :
  exists added,
    leads_jsonl (fst (lead_handler body env fsys)) = leads_jsonl fsys ++ added
    /\ (snd (lead_handler body env fsys) = Responded 200 BodyOk ->
        exists lead, added = lead_line lead)
    /\ (snd (lead_handler body env fsys) <> Responded 200 BodyOk -> added = [])
    /\ (data_dir_exists fsys = true ->
        data_dir_exists (fst (lead_handler body env fsys)) = true).
Proof.
  destruct (lead_handler_shape body env fsys) as [[Hne Hf] | [Hok [lead Hf]]].
  - exists []. rewrite app_nil_r. split; [exact Hf|].
    split; [done|]. split; [done|].
    intros Hd. unfold lead_handler, ensure_dir. rewrite Hd.
    destruct (missing_required _); [done|].
    destruct (build_lead _ _); [|done]. by destruct (append_ok env).
  - exists (lead_line lead). split; [exact Hf|].
    split; [intros _; eauto|]. split; [done|].
    intros Hd. unfold lead_handler, ensure_dir. rewrite Hd.
    destruct (missing_required _); [done|].
    destruct (build_lead _ _); [|done]. by destruct (append_ok env).
Qed.

(** X7: a body that is not an object (no body at all, [null], an
    array, a string, a number, a boolean) has none of the required
    fields and is answered 400. *)
Theorem non_object_body_rejected (body : JsVal Num) (env : Env) (fsys : FileSystem) :
  (forall props, body <> JObj props) ->
  lead_handler body env fsys = (fsys, Responded 400 (BodyError MSG_REQUIRED)).
Proof.
  intros Hno. apply lead_handler_400. unfold missing_required.
  destruct body; try reflexivity. by destruct (Hno props).
Qed.

(** X8: a value wrapped in a one-element array is sanitized as the
    value itself, so a text field sent as [["x"]] is stored as ["x"]. *)
Theorem safe_singleton_array (v : JsVal Num) (max : nat) :
  safe (JArr [v]) max = safe v max.
Proof. unfold safe. by destruct v. Qed.

End HandlerMore.

(** ** The file over a run *)

Local Close Scope Z_scope.
Local Open Scope N_scope.

Lemma lines_from_line cur line rest :
  no_line_feed line = true ->
  lines_from cur (line ++ Chars.LF :: rest) = (rev cur ++ line) :: lines_from [] rest.
Proof.
  revert cur. induction line as [|c line IH]; intros cur Hl.
  - change ([] ++ Chars.LF :: rest) with (Chars.LF :: rest).
    cbn [lines_from]. change (Chars.LF =? Chars.LF) with true.
    cbv iota. by rewrite app_nil_r.
  - rewrite no_line_feed_cons in Hl. apply andb_prop in Hl as [Hc Hl].
    change ((c :: line) ++ Chars.LF :: rest) with (c :: (line ++ Chars.LF :: rest)).
    cbn [lines_from]. apply negb_true_iff in Hc. rewrite Hc.
    rewrite (IH (c :: cur) Hl). cbn [rev]. by rewrite <- app_assoc.
Qed.

Lemma file_lines_leads leads :
  file_lines (concat (map lead_line leads))
  = map (fun l => JSON_stringify (lead_object l)) leads.
Proof.
  unfold file_lines. induction leads as [|l leads IH]; [done|].
  cbn [map concat]. unfold lead_line at 1. rewrite <- app_assoc.
  change ([Chars.LF] ++ concat (map lead_line leads))
    with (Chars.LF :: concat (map lead_line leads)).
  rewrite lines_from_line by apply JSON_stringify_no_line_feed.
  by rewrite IH.
Qed.

Lemma lead_object_inj l1 l2 : lead_object l1 = lead_object l2 -> l1 = l2.
Proof.
  destruct l1, l2. unfold lead_object. cbn. intros Heq.
  injection Heq as -> -> -> -> -> -> -> -> -> ->. reflexivity.
Qed.

(** X9: the line of a record determines the record: two leads with
    the same line are the same lead, and the line read back gives the
    object that was written. *)
Theorem lead_line_inj (l1 l2 : Lead) :
  (lead_line l1 = lead_line l2 -> l1 = l2)
  /\ JSON_parse (JSON_stringify (lead_object l1)) = Some (lead_object l1).
Proof.
  split; [|apply JSON_parse_stringify].
  unfold lead_line. intros Heq%app_inv_tail.
  apply lead_object_inj.
  pose proof (JSON_parse_stringify (lead_object l1)) as H1.
  pose proof (JSON_parse_stringify (lead_object l2)) as H2.
  rewrite Heq in H1. congruence.
Qed.

Local Close Scope N_scope.
Local Open Scope Z_scope.

Section Runs.
Context {Num : Type} `{JsNumber Num}.
Variable lead_route : Request Num -> bool.

Lemma routes_file req env st :
  (is_stored (snd (routes lead_route req env st)) = false
   /\ leads_jsonl (files (fst (routes lead_route req env st)))
      = leads_jsonl (files st))
  \/ (is_stored (snd (routes lead_route req env st)) = true
      /\ exists lead,
           leads_jsonl (files (fst (routes lead_route req env st)))
           = leads_jsonl (files st) ++ lead_line lead).
Proof.
  unfold routes. destruct (lead_route req); [|by left].
  destruct (lead_handler_shape (req_body req) env (files st))
    as [[Hne Hf] | [Hok Hf]];
    destruct (lead_handler _ _ _) as [fs' o]; cbn [fst snd files] in *.
  - left. split; [|exact Hf].
    destruct (is_stored o) eqn:Ho; [|done]. by apply is_stored_iff in Ho.
  - right. split; [by rewrite Hok | exact Hf].
Qed.

Lemma app_file req env st :
  (is_stored (snd (app lead_route req env st)) = false
   /\ leads_jsonl (files (fst (app lead_route req env st)))
      = leads_jsonl (files st))
  \/ (is_stored (snd (app lead_route req env st)) = true
      /\ exists lead,
           leads_jsonl (files (fst (app lead_route req env st)))
           = leads_jsonl (files st) ++ lead_line lead).
Proof.
  unfold app, rate_limiter.
  destruct (startsWith _ _); cbn [negb]; [|apply routes_file].
  destruct (_ <? 3000); [by left|].
  apply (routes_file req env
           {| lastHitByIp := <[client_ip req:=limiter_now env]> (lastHitByIp st);
              files := files st |}).
Qed.

Lemma serve_cons req env reqs st :
  serve lead_route ((req, env) :: reqs) st =
  (fst (serve lead_route reqs (fst (app lead_route req env st))),
   snd (app lead_route req env st)
   :: snd (serve lead_route reqs (fst (app lead_route req env st)))).
Proof.
  change (serve lead_route ((req, env) :: reqs) st)
    with (let '(st1, o) := app lead_route req env st in
          let '(st2, os) := serve lead_route reqs st1 in (st2, o :: os)).
  destruct (app lead_route req env st) as [st1 o]. cbn [fst snd].
  by destruct (serve lead_route reqs st1).
Qed.

Lemma serve_accounting_lemma (reqs : list (Request Num * Env)) (st : Server) :
  exists leads,
    leads_jsonl (files (fst (serve lead_route reqs st)))
    = leads_jsonl (files st) ++ concat (map lead_line leads)
    /\ length leads = count_stored (snd (serve lead_route reqs st)).
Proof.
  revert st. induction reqs as [|[req env] reqs IH]; intros st.
  - exists []. cbn. by rewrite app_nil_r.
  - rewrite serve_cons. cbn [fst snd].
    destruct (IH (fst (app lead_route req env st))) as (leads & Hf & Hn).
    unfold count_stored in *. cbn [List.filter length].
    destruct (app_file req env st) as [[Ho Hs] | [Ho [lead Hs]]]; rewrite Ho.
    + exists leads. rewrite Hf, Hs. split; done.
    + exists (lead :: leads). rewrite Hf, Hs. cbn [map concat length].
      rewrite <- app_assoc. split; [done | by rewrite Hn].
Qed.

Lemma serve_length reqs st :
  length (snd (serve lead_route reqs st)) = length reqs.
Proof.
  revert st. induction reqs as [|[req env] reqs IH]; intros st; [done|].
  rewrite serve_cons. cbn [snd length]. by rewrite IH.
Qed.

(** X10: over any sequence of requests the file is the text it was,
    followed by the lines of the leads that were stored, one line for
    each answer 200 with [{ok: true}] and nothing for any other answer;
    every request gets one answer. *)
Theorem serve_accounting (reqs : list (Request Num * Env)) (st : Server) :
  exists leads,
    leads_jsonl (files (fst (serve lead_route reqs st)))
    = leads_jsonl (files st) ++ concat (map lead_line leads)
    /\ length leads = count_stored (snd (serve lead_route reqs st))
    /\ length (snd (serve lead_route reqs st)) = length reqs.
Proof.
  destruct (serve_accounting_lemma reqs st) as (leads & Hf & Hn).
  exists leads. split; [exact Hf|]. split; [exact Hn | apply serve_length].
Qed.

(** X11: a file that starts empty can always be read back: cut at the
    line feeds, every line parses to the object of a lead, and there
    are as many lines as there were answers 200 with [{ok: true}]. *)
Theorem stored_file_reads_back (reqs : list (Request Num * Env)) (st : Server) :
  leads_jsonl (files st) = [] ->
  exists leads,
    map JSON_parse (file_lines (leads_jsonl (files (fst (serve lead_route reqs st)))))
    = map (fun l => Some (lead_object l)) leads
    /\ length leads = count_stored (snd (serve lead_route reqs st)).
Proof.
  intros Hempty.
  destruct (serve_accounting_lemma reqs st) as (leads & Hf & Hn).
  exists leads. split; [|exact Hn].
  rewrite Hf, Hempty, app_nil_l, file_lines_leads, map_map.
  apply map_ext. intros l. apply JSON_parse_stringify.
Qed.

End Runs.

(** ** The client identifier *)

Local Close Scope Z_scope.
Local Open Scope N_scope.



Local Close Scope N_scope.
Local Open Scope Z_scope.

Section ClientIp.
Context {Num : Type}.

Lemma client_ip_cases (req : Request Num) :
  (exists h, x_forwarded_for req = Some h
             /\ trim (before_comma h) <> []
             /\ client_ip req = trim (before_comma h))
  \/ ((forall h, x_forwarded_for req = Some h -> trim (before_comma h) = [])
      /\ ((exists a, remoteAddress req = Some a /\ a <> [] /\ client_ip req = a)
          \/ ((remoteAddress req = None \/ remoteAddress req = Some [])
              /\ client_ip req = js "unknown"))).
Proof.
  unfold client_ip.
  destruct (x_forwarded_for req) as [h|]; cbn [fmap option_fmap option_map].
  - destruct (trim (before_comma h)) as [|c t] eqn:Ht.
    + right. split; [by intros ? [= <-]|].
      cbn [or_string]. destruct (remoteAddress req) as [[|a0 a]|]; cbn.
      * right. split; [by right | done].
      * left. exists (a0 :: a). done.
      * right. split; [by left | done].
    + left. exists h. rewrite Ht. done.
  - right. split; [done|].
    cbn [or_string]. destruct (remoteAddress req) as [[|a0 a]|]; cbn.
    + right. split; [by right | done].
    + left. exists (a0 :: a). done.
    + right. split; [by left | done].
Qed.


(** X13: when the forwarded-for header has a first entry that is not
    blank, it alone decides the identifier: the socket address plays no
    part, so requests from different sockets with the same header share
    one identifier, and a request whose header names an identifier that
    is not in the map is let through (with a clock of at least 3000
    ms), whatever the same socket did before. *)
Theorem forwarded_header_decides (req1 req2 : Request Num) (h : JsString)
    (now : Z) (st : Server) :
  x_forwarded_for req1 = Some h ->
  x_forwarded_for req2 = Some h ->
  trim (before_comma h) <> [] ->
  client_ip req1 = client_ip req2
  /\ (lastHitByIp st !! trim (before_comma h) = None -> 3000 <= now ->
      limiter_rejects req1 now st = false).
Proof.
  intros H1 H2 Hne.
  assert (Hid : forall req : Request Num,
             x_forwarded_for req = Some h -> client_ip req = trim (before_comma h)).
  { intros req Hreq.
    destruct (client_ip_cases req) as [(h' & Hh' & _ & ->) | [Hblank _]].
    - congruence.
    - exfalso. apply Hne. exact (Hblank h Hreq). }
  split; [by rewrite !Hid|].
  intros Hnone Hnow. unfold limiter_rejects.
  rewrite last_hit_lookup, (Hid req1 H1), Hnone.
  destruct (startsWith _ _); [|done]. cbn [andb default].
  destruct (Z.ltb_spec (now - 0) 3000); [lia | done].
Qed.

End ClientIp.

(** ** The map of the limiter over a run *)

Section LimiterRuns.
Context {Num : Type} `{JsNumber Num}.
Variable lead_route : Request Num -> bool.

Lemma app_entry req env st ip :
  lastHitByIp (fst (app lead_route req env st)) !! ip = lastHitByIp st !! ip
  \/ (ip = client_ip req
      /\ startsWith (js "/api/") (req_path req) = true
      /\ lastHitByIp (fst (app lead_route req env st)) !! ip = Some (limiter_now env)
      /\ default 0 (lastHitByIp st !! ip) + 3000 <= limiter_now env).
Proof.
  rewrite app_map, map_after_limiter_cases. unfold limiter_rejects.
  rewrite last_hit_lookup.
  destruct (startsWith _ _); [|by left]. cbn [andb].
  destruct (Z.ltb_spec (limiter_now env - default 0 (lastHitByIp st !! client_ip req)) 3000)
    as [Hlt|Hge]; [by left|].
  destruct (decide (ip = client_ip req)) as [->|Hne].
  - right. rewrite lookup_insert_eq.
    split; [done|]. split; [done|]. split; [done | lia].
  - left. by apply lookup_insert_ne.
Qed.

(** X14: an entry of the map is never removed and never moves back:
    over any sequence of requests a recorded identifier stays recorded,
    with a timestamp that is the old one or a later one. *)
Theorem serve_keeps_entries (reqs : list (Request Num * Env)) (st : Server)
    (ip : JsString) (t : Z) :
  0 <= t ->
  lastHitByIp st !! ip = Some t ->
  exists t', lastHitByIp (fst (serve lead_route reqs st)) !! ip = Some t'
             /\ t <= t'.
Proof.
  revert st t. induction reqs as [|[req env] reqs IH]; intros st t Ht Hst.
  - exists t. split; [exact Hst | lia].
  - rewrite serve_cons. cbn [fst].
    destruct (app_entry req env st ip) as [Hsame | (_ & _ & Hnew & Hge)].
    + rewrite <- Hsame in Hst.
      destruct (IH _ t Ht Hst) as (t' & Hl & Hle). eauto.
    + rewrite Hst in Hge. cbn in Hge.
      destruct (IH _ (limiter_now env) ltac:(lia) Hnew) as (t' & Hl & Hle).
      exists t'. split; [exact Hl | lia].
Qed.

Lemma serve_entries_from reqs st ip t :
  (forall ip0 t0, lastHitByIp st !! ip0 = Some t0 -> 3000 <= t0) ->
  lastHitByIp (fst (serve lead_route reqs st)) !! ip = Some t ->
  3000 <= t
  /\ (lastHitByIp st !! ip = Some t
      \/ exists req env,
           In (req, env) reqs /\ client_ip req = ip /\ limiter_now env = t
           /\ startsWith (js "/api/") (req_path req) = true).
Proof.
  revert st. induction reqs as [|[req env] reqs IH]; intros st Hinv Hfin.
  - split; [by eapply Hinv | by left].
  - rewrite serve_cons in Hfin. cbn [fst] in Hfin.
    assert (Hinv' : forall ip0 t0,
               lastHitByIp (fst (app lead_route req env st)) !! ip0 = Some t0 ->
               3000 <= t0).
    { intros ip0 t0 Hl.
      destruct (app_entry req env st ip0) as [Hsame | (_ & _ & Hnew & Hge)].
      - rewrite Hsame in Hl. by eapply Hinv.
      - rewrite Hnew in Hl. injection Hl as <-.
        destruct (lastHitByIp st !! ip0) as [t1|] eqn:E; cbn in Hge; [|lia].
        specialize (Hinv _ _ E). lia. }
    destruct (IH _ Hinv' Hfin) as [Hge [Hold | (r & e & Hin & Hip & Hnow & Hp)]].
    + split; [exact Hge|].
      destruct (app_entry req env st ip) as [Hsame | (Hip & Hp & Hnew & _)].
      * left. by rewrite <- Hsame.
      * right. exists req, env. rewrite Hnew in Hold. injection Hold as <-.
        split; [by left | done].
    + split; [exact Hge|]. right. exists r, e. split; [by right | done].
Qed.

(** X15: in every state a server reaches from its start, each
    timestamp in the map is the clock reading of a request under
    [/api/] made by that very identifier, and it is at least 3000: the
    fallback [|| 0] of the limiter is only ever taken for an absent
    entry. *)
Theorem recorded_times_are_request_times (reqs : list (Request Num * Env))
    (ip : JsString) (t : Z) :
  lastHitByIp (fst (serve lead_route reqs initial_server)) !! ip = Some t ->
  3000 <= t
  /\ exists req env,
       In (req, env) reqs /\ client_ip req = ip /\ limiter_now env = t
       /\ startsWith (js "/api/") (req_path req) = true.
Proof.
  intros Hfin.
  destruct (serve_entries_from reqs initial_server ip t) as [Hge [Hold | Hreq]];
    [ intros ip0 t0 Hl; cbn in Hl; by rewrite lookup_empty in Hl
    | exact Hfin | | by split].
  cbn in Hold. by rewrite lookup_empty in Hold.
Qed.

(** X16: the limiter records a request before the handler looks at it,
    so a submission that is answered 400 still starts the window: the
    same client sending a second request within 3000 ms - complete
    this time or not - is answered 429, and the file is as it was
    before both. *)
Theorem rejected_submission_starts_window (req1 req2 : Request Num)
    (env1 env2 : Env) (st : Server) :
  startsWith (js "/api/") (req_path req1) = true ->
  startsWith (js "/api/") (req_path req2) = true ->
  lead_route req1 = true ->
  missing_required (req_body req1) = true ->
  limiter_rejects req1 (limiter_now env1) st = false ->
  client_ip req2 = client_ip req1 ->
  limiter_now env2 - limiter_now env1 < 3000 ->
  let st1 := fst (app lead_route req1 env1 st) in
  snd (app lead_route req1 env1 st) = Responded 400 (BodyError MSG_REQUIRED)
  /\ app lead_route req2 env2 st1 = (st1, Responded 429 (BodyError MSG_TOO_FAST))
  /\ files st1 = files st.
Proof.
  intros Hp1 Hp2 Hroute Hmiss Hrej Hip Hlt st1.
  destruct (second_request_of_client lead_route req1 env1 req2 env2 st
              Hp1 Hp2 Hip Hrej) as [H429 _].
  assert (Hrun : app lead_route req1 env1 st
                 = (passed_state (client_ip req1) (limiter_now env1) st,
                    Responded 400 (BodyError MSG_REQUIRED))).
  { unfold app. rewrite (rate_limiter_api _ _ _ _ Hp1).
    unfold limiter_rejects in Hrej. rewrite Hp1, last_hit_lookup in Hrej.
    cbn [andb] in Hrej. rewrite Hrej. unfold routes. rewrite Hroute.
    by rewrite (lead_handler_400 _ _ _ Hmiss). }
  split; [by rewrite Hrun|]. split; [by apply H429|].
  subst st1. by rewrite Hrun.
Qed.

(** X17: answers 429 change nothing, so retrying does not push the
    window: when a client has a recorded timestamp, any number of its
    requests under [/api/] made less than 3000 ms after it are all
    answered 429 and leave the state - map and file - exactly as it
    was. *)
Theorem throttled_retries_change_nothing (reqs : list (Request Num * Env))
    (st : Server) (ip : JsString) (t0 : Z) :
  lastHitByIp st !! ip = Some t0 ->
  Forall (fun re => startsWith (js "/api/") (req_path (fst re)) = true
                    /\ client_ip (fst re) = ip
                    /\ limiter_now (snd re) - t0 < 3000) reqs ->
  serve lead_route reqs st
  = (st, map (fun _ => Responded 429 (BodyError MSG_TOO_FAST)) reqs).
Proof.
  intros Hst Hall. induction Hall as [|[req env] reqs (Hp & Hip & Hlt) _ IH];
    [done|].
  cbn [fst snd] in *.
  assert (Hrun : app lead_route req env st
                 = (st, Responded 429 (BodyError MSG_TOO_FAST))).
  { unfold app. rewrite (rate_limiter_api _ _ _ _ Hp), Hip, Hst.
    change (default 0 (Some t0)) with t0.
    destruct (Z.ltb_spec (limiter_now env - t0) 3000); [done | lia]. }
  rewrite serve_cons, Hrun. cbn [fst snd]. by rewrite IH.
Qed.

End LimiterRuns.

(** ** Identifiers and the clock *)

Local Close Scope Z_scope.
Local Open Scope N_scope.

Lemma hex_units_head_digit d c s :
  hex_units d = c :: s -> is_hex_digit c = true.
Proof.
  intros Hd. pose proof (hex_units_digits d) as Hall. rewrite Hd in Hall.
  cbn [forallb] in Hall. by apply andb_prop in Hall as [? _].
Qed.

Lemma toString16_inj z1 z2 : toString16 z1 = toString16 z2 -> z1 = z2.
Proof.
  intros Heq.
  destruct z1 as [|p1|p1], z2 as [|p2|p2].
  - done.
  - rewrite <- (of_hex_toString16 (Z.pos p2)), <- Heq by lia. done.
  - cbn [toString16] in Heq. discriminate Heq.
  - rewrite <- (of_hex_toString16 (Z.pos p1)), Heq by lia. done.
  - rewrite <- (of_hex_toString16 (Z.pos p1)), Heq by lia.
    by rewrite of_hex_toString16 by lia.
  - cbn [toString16] in Heq.
    destruct (hex_units (Pos.to_hex_uint p1)) as [|c s] eqn:E; [discriminate|].
    apply hex_units_head_digit in E. injection Heq as -> _. done.
  - cbn [toString16] in Heq. discriminate Heq.
  - cbn [toString16] in Heq.
    destruct (hex_units (Pos.to_hex_uint p2)) as [|c s] eqn:E; [discriminate|].
    apply hex_units_head_digit in E. injection Heq as <- _. done.
  - cbn [toString16] in Heq. injection Heq as Heq.
    assert (Hpos : toString16 (Z.pos p1) = toString16 (Z.pos p2)) by exact Heq.
    assert (Z.pos p1 = Z.pos p2) as [= ->]; [|done].
    rewrite <- (of_hex_toString16 (Z.pos p1)), Hpos by lia.
    by rewrite of_hex_toString16 by lia.
Qed.

(** X18: with the same random part, identifiers made at different
    clock readings differ; and whatever the random part, an identifier
    is longer than its prefix. *)
Theorem generateId_differs_in_time (r : JsString) (t1 t2 : Z) :
  (generateId r t1 = generateId r t2 -> t1 = t2)
  /\ (5 < length (generateId r t1))%nat.
Proof.
  split.
  - unfold generateId. intros Heq%app_inv_head%app_inv_head.
    by apply toString16_inj.
  - unfold generateId. rewrite !length_app.
    pose proof (toString16_nonempty t1).
    destruct (toString16 t1); [done|]. cbn [length]. 
    change (length (js "lead_")) with 5%nat. lia.
Qed.

(** ** From the form to the file *)

Local Close Scope N_scope.
Local Open Scope Z_scope.

Lemma string_or_empty_id (v : option JsString) : string_or_empty v = default [] v.
Proof. by destruct v as [[|c s]|]. Qed.

Section WireFacts.
Context {Num : Type} `{JsNumber Num}.

Lemma parsed_form_body f :
  parsed_body (Num:=Num) (JSON_stringify (form_data f)) = Some (form_body f).
Proof. unfold parsed_body. by rewrite JSON_parse_stringify. Qed.

Lemma form_body_fields f :
  get (form_body (Num:=Num) f) "industry" = JStr (form_industry f)
  /\ get (form_body (Num:=Num) f) "problem" = JStr (form_problem f)
  /\ get (form_body (Num:=Num) f) "tools" = JStr (form_tools f)
  /\ get (form_body (Num:=Num) f) "message" = JStr (form_message f)
  /\ get (form_body (Num:=Num) f) "contact" = JStr (form_contact f)
  /\ get (form_body (Num:=Num) f) "website" = JStr (default [] (form_website f))
  /\ get (form_body (Num:=Num) f) "wantsMvp" = JBool (default false (form_wantsMvp f))
  /\ get (form_body (Num:=Num) f) "wantsAutomation"
     = JBool (default false (form_wantsAutomation f)).
Proof.
  unfold form_body, form_data. rewrite !string_or_empty_id.
  repeat split; vm_compute; reflexivity.
Qed.

Lemma form_build_lead f env :
  build_lead (form_body (Num:=Num) f) env = Normal (form_lead f env).
Proof.
  destruct (form_body_fields f) as (Hi & Hp & Ht & Hm & Hc & Hw & Hv & Ha).
  unfold build_lead.
  rewrite Hi, Hp, Ht, Hm, Hc, Hw, Hv, Ha, !safe_string, !normalize_words.
  reflexivity.
Qed.

Lemma form_missing_required f :
  missing_required (form_body (Num:=Num) f) = form_incomplete f.
Proof.
  destruct (form_body_fields f) as (Hi & Hp & _ & Hm & Hc & _).
  unfold missing_required. by rewrite Hi, Hp, Hm, Hc.
Qed.

Lemma form_incomplete_iff f :
  form_incomplete f = true
  <-> form_industry f = [] \/ form_problem f = []
      \/ form_message f = [] \/ form_contact f = [].
Proof.
  unfold form_incomplete.
  destruct (form_industry f), (form_problem f), (form_message f),
    (form_contact f); cbn; split; intros Hx; try done; try tauto;
    by destruct Hx as [?|[?|[?|?]]].
Qed.

Lemma form_handler_outcome (f : LeadForm) (env : Env) (fsys : FileSystem) :
  exists fs' o,
    lead_handler (form_body (Num:=Num) f) env fsys = (fs', o)
    /\ o <> Uncaught TypeError
    /\ (o = Responded 400 (BodyError MSG_REQUIRED)
        <-> form_industry f = [] \/ form_problem f = []
            \/ form_message f = [] \/ form_contact f = [])
    /\ (o = Responded 400 (BodyError MSG_REQUIRED) -> fs' = fsys)
    /\ (form_incomplete f = false -> store_accepts env fsys = true ->
        o = Responded 200 BodyOk
        /\ leads_jsonl fs' = leads_jsonl fsys ++ lead_line (form_lead f env)).
Proof.
  destruct (lead_handler (form_body (Num:=Num) f) env fsys) as [fs' o] eqn:Hrun.
  exists fs', o. split; [done|].
  unfold lead_handler in Hrun.
  assert (Hb : body_or_empty (form_body (Num:=Num) f) = form_body f) by done.
  rewrite Hb, form_missing_required, form_build_lead in Hrun.
  pose proof (form_incomplete_iff f) as Hiff.
  destruct (form_incomplete f) eqn:Hinc.
  - injection Hrun as <- <-. split; [done|]. split; [tauto|].
    split; [done|]. done.
  - assert (Hno : ~ (form_industry f = [] \/ form_problem f = []
                     \/ form_message f = [] \/ form_contact f = [])).
    { intros Hx. apply Hiff in Hx. done. }
    unfold ensure_dir in Hrun. unfold store_accepts.
    destruct (data_dir_exists fsys) eqn:Hd; cbn [orb andb].
    + destruct (append_ok env); injection Hrun as <- <-.
      * split; [done|]. split; [split; [done | tauto]|].
        split; [done|]. intros _ _. by rewrite Hd.
      * split; [done|]. split; [split; [done | tauto]|].
        split; [done|]. done.
    + destruct (mkdir_ok env); cbn [andb].
      * destruct (append_ok env); injection Hrun as <- <-.
        -- split; [done|]. split; [split; [done | tauto]|].
           split; [done|]. done.
        -- split; [done|]. split; [split; [done | tauto]|].
           split; [done|]. done.
      * injection Hrun as <- <-.
        split; [done|]. split; [split; [done | tauto]|].
        split; [done|]. done.
Qed.

(** X19: the page and the server together, on the whole way of a
    submission: [JSON.stringify] and [fetch] on the page, the body
    parser with its limit of 200 kB, the limiter, the route and the
    handler.  A form whose text takes more than 204800 bytes is
    refused by the parser, and nothing changes.  Otherwise the text is
    parsed back to the object the page built.  If the client is
    within its window the answer is 429 and nothing changes.  If not,
    the time of the client is recorded and the handler runs: it never
    throws a TypeError; it answers 400 exactly when one of industry,
    problem, message, contact is the empty string - a field of spaces
    passes - and then the file is as it was; otherwise, when the store
    takes the write, the answer is 200 and the line added is that of
    the record whose text fields are the words of the form values
    joined by single spaces and cut, and whose flags are the states of
    the check boxes. *)
Theorem form_submission_outcome (f : LeadForm) (xff remote : option JsString)
    (env : Env) (st : Server) :
  let wire := JSON_stringify (form_data f) in
  let req := form_request xff remote (form_body (Num:=Num) f) in
  ((JSON_LIMIT < utf8_length wire)%N ->
   submit_form (Num:=Num) f xff remote env st = (st, TooLarge))
  /\ ((utf8_length wire <= JSON_LIMIT)%N ->
      (limiter_rejects req (limiter_now env) st = true ->
       submit_form (Num:=Num) f xff remote env st
       = (st, Served (Responded 429 (BodyError MSG_TOO_FAST))))
      /\ (limiter_rejects req (limiter_now env) st = false ->
          exists fs' o,
            submit_form (Num:=Num) f xff remote env st
            = ({| lastHitByIp :=
                    <[client_ip req := limiter_now env]> (lastHitByIp st);
                  files := fs' |}, Served o)
            /\ o <> Uncaught TypeError
            /\ (o = Responded 400 (BodyError MSG_REQUIRED)
                <-> form_industry f = [] \/ form_problem f = []
                    \/ form_message f = [] \/ form_contact f = [])
            /\ (o = Responded 400 (BodyError MSG_REQUIRED) -> fs' = files st)
            /\ (form_incomplete f = false -> store_accepts env (files st) = true ->
                o = Responded 200 BodyOk
                /\ leads_jsonl fs'
                   = leads_jsonl (files st) ++ lead_line (form_lead f env)))).
Proof.
  cbv zeta. unfold submit_form. split.
  - intros Hbig. apply N.ltb_lt in Hbig. by rewrite Hbig.
  - intros Hfit. apply N.ltb_ge in Hfit. rewrite Hfit, parsed_form_body.
    set (req := form_request xff remote (form_body (Num:=Num) f)).
    assert (Hpath : startsWith (js "/api/") (req_path req) = true) by reflexivity.
    assert (Hroute : post_api_lead req = true) by reflexivity.
    unfold limiter_rejects. rewrite Hpath, last_hit_lookup. cbn [andb].
    unfold app. rewrite (rate_limiter_api _ _ _ _ Hpath). split.
    + by intros ->.
    + intros ->. unfold routes. rewrite Hroute.
      change (files (passed_state (client_ip req) (limiter_now env) st))
        with (files st).
      change (req_body req) with (form_body (Num:=Num) f).
      destruct (form_handler_outcome f env (files st))
        as (fs' & o & Hrun & Hty & H400 & Hsame & Hok).
      rewrite Hrun. exists fs', o. split; [reflexivity|].
      split; [exact Hty|]. split; [exact H400|]. split; [exact Hsame|].
      exact Hok.
Qed.

(** X25: the limiter looks at the path as it is written, the route
    does not: a POST whose path is [/api/lead] in another case of the
    letters - it then does not start with [/api/] - goes to the
    handler without passing the limiter.  The map is neither read nor
    written, so such requests are served however fast they follow one
    another. *)
Theorem other_case_is_not_limited (req : Request Num) (env : Env) (st : Server) :
  post_api_lead req = true ->
  startsWith (js "/api/") (req_path req) = false ->
  app post_api_lead req env st
  = ({| lastHitByIp := lastHitByIp st;
        files := fst (lead_handler (req_body req) env (files st)) |},
     snd (lead_handler (req_body req) env (files st)))
  /\ limiter_rejects req (limiter_now env) st = false.
Proof.
  intros Hroute Hpath. split.
  - unfold app. rewrite (rate_limiter_bypass _ _ _ _ Hpath).
    unfold routes. rewrite Hroute. by destruct (lead_handler _ _ _).
  - unfold limiter_rejects. by rewrite Hpath.
Qed.

End WireFacts.

(** ** The simulator *)

Local Close Scope N_scope.
Local Open Scope Z_scope.

Lemma trim_start_blank s : forallb is_ws s = true -> trim_start s = [].
Proof.
  induction s as [|c s IH]; [done|]. cbn [forallb trim_start].
  intros [Hc Hs]%andb_prop. rewrite Hc. by apply IH.
Qed.

Lemma trim_start_app_ws ws t :
  forallb is_ws ws = true -> trim_start (ws ++ t) = trim_start t.
Proof.
  induction ws as [|c ws IH]; [done|]. cbn [forallb].
  intros [Hc Hs]%andb_prop. change ((c :: ws) ++ t) with (c :: (ws ++ t)).
  cbn [trim_start]. rewrite Hc. by apply IH.
Qed.

Lemma digits_value_stop acc s : starts_with_digit s = false -> digits_value acc s = acc.
Proof. destruct s as [|c s]; [done|]. cbn. by intros ->. Qed.

Lemma digits_value_acc d acc rest :
  starts_with_digit rest = false ->
  digits_value (N.pos acc) (dec_units d ++ rest) = N.pos (Pos.of_uint_acc d acc).
Proof.
  intros Hrest. revert acc.
  induction d; intros acc; cbn [dec_units Pos.of_uint_acc];
    [by apply digits_value_stop|..];
    rewrite <- app_comm_cons; cbn [digits_value];
    change (is_digit _) with true; cbv iota;
    rewrite <- IHd; f_equal; cbn; lia.
Qed.

Lemma digits_value_dec_units d rest :
  starts_with_digit rest = false ->
  digits_value 0%N (dec_units d ++ rest) = Pos.of_uint d.
Proof.
  intros Hrest.
  induction d; cbn [dec_units Pos.of_uint];
    [by apply digits_value_stop|..];
    rewrite <- app_comm_cons; cbn [digits_value];
    change (is_digit _) with true; cbv iota;
    try exact IHd;
    rewrite <- (digits_value_acc _ _ _ Hrest); f_equal.
Qed.

Lemma js_string_of_uint d :
  js (DecimalString.NilEmpty.string_of_uint d) = dec_units d.
Proof. induction d; [done|..]; cbn; f_equal; exact IHd. Qed.

Lemma decimal_units_cases z :
  decimal_units z =
  match z with
  | Z0 => [48%N]
  | Zpos p => dec_units (Pos.to_uint p)
  | Zneg p => 45%N :: dec_units (Pos.to_uint p)
  end.
Proof.
  destruct z as [|p|p]; [done| |].
  - unfold decimal_units. cbn [Z.to_int DecimalString.NilZero.string_of_int].
    pose proof (DecimalPos.Unsigned.to_uint_nonnil p) as Hn.
    unfold DecimalString.NilZero.string_of_uint.
    destruct (Pos.to_uint p) eqn:E; [done|..]; by rewrite <- js_string_of_uint.
  - unfold decimal_units. cbn [Z.to_int DecimalString.NilZero.string_of_int].
    pose proof (DecimalPos.Unsigned.to_uint_nonnil p) as Hn.
    unfold DecimalString.NilZero.string_of_uint.
    destruct (Pos.to_uint p) eqn:E; [done|..];
      change (js (String "-" ?s)) with (45%N :: js s);
      by rewrite <- js_string_of_uint.
Qed.

Lemma dec_units_head d :
  d <> Decimal.Nil ->
  exists c s, dec_units d = c :: s /\ is_digit c = true /\ is_ws c = false
              /\ (c =? 45)%N = false /\ (c =? 43)%N = false.
Proof. destruct d; [done|..]; intros _; eexists _, _; by repeat split. Qed.

Lemma parseInt10_numeral p rest :
  starts_with_digit rest = false ->
  parseInt10 (dec_units (Pos.to_uint p) ++ rest) = Some (Zpos p)
  /\ parseInt10 (45%N :: dec_units (Pos.to_uint p) ++ rest) = Some (Zneg p).
Proof.
  intros Hrest.
  pose proof (digits_value_dec_units (Pos.to_uint p) rest Hrest) as Hv.
  rewrite DecimalPos.Unsigned.of_to in Hv.
  destruct (dec_units_head (Pos.to_uint p) (DecimalPos.Unsigned.to_uint_nonnil p))
    as (c & s & Hd & Hdig & Hws & H45 & H43).
  rewrite Hd in *. change ((c :: s) ++ rest) with (c :: (s ++ rest)) in *.
  unfold parseInt10. split.
  - cbn [trim_start]. rewrite Hws, H45, H43, Hdig, Hv. done.
  - change (trim_start (45%N :: c :: s ++ rest)) with (45%N :: c :: s ++ rest).
    cbv beta iota. rewrite N.eqb_refl. cbv beta iota. rewrite Hdig, Hv. done.
Qed.

Lemma parseInt10_decimal ws z rest :
  forallb is_ws ws = true -> starts_with_digit rest = false ->
  parseInt10 (ws ++ decimal_units z ++ rest) = Some z.
Proof.
  intros Hws Hrest.
  assert (Hskip : forall t, parseInt10 (ws ++ t) = parseInt10 t).
  { intros t. unfold parseInt10. rewrite trim_start_app_ws; done. }
  rewrite Hskip, decimal_units_cases.
  destruct z as [|p|p].
  - unfold parseInt10. change ([48%N] ++ rest) with (48%N :: rest).
    change (trim_start (48%N :: rest)) with (48%N :: rest).
    cbv beta iota.
    replace (N.eqb 48 45) with false by reflexivity.
    replace (N.eqb 48 43) with false by reflexivity.
    cbv beta iota.
    replace (is_digit 48) with true by reflexivity.
    cbn [digits_value]. replace (is_digit 48) with true by reflexivity.
    by rewrite digits_value_stop.
  - by apply parseInt10_numeral.
  - change ((45%N :: dec_units (Pos.to_uint p)) ++ rest)
      with (45%N :: dec_units (Pos.to_uint p) ++ rest).
    by apply parseInt10_numeral.
Qed.

Lemma small_is_finite z : Z.abs z < 2 ^ 53 -> Number_isFinite z = true.
Proof.
  intros Hz. unfold Number_isFinite. apply Z.ltb_lt.
  eapply Z.lt_trans; [exact Hz|]. apply Z.ltb_lt. vm_compute. reflexivity.
Qed.

(** An integer below [2^53] in magnitude is a double. *)
Lemma round_double_small z : Z.abs z < 2 ^ 53 -> round_double z = z.
Proof.
  intros Hz. unfold round_double.
  destruct (Z.leb_spec (Z.log2 (Z.abs z) - 52) 0) as [_|He]; [done|].
  exfalso. destruct (Z.eq_dec (Z.abs z) 0) as [E0|Hne].
  - rewrite E0 in He. cbn in He. lia.
  - assert (Hlog : Z.log2 (Z.abs z) < 53)
      by (apply Z.log2_lt_pow2; [lia | exact Hz]).
    lia.
Qed.

Lemma Number_toString_small z :
  Z.abs z < 2 ^ 53 -> Number_toString z = decimal_units z.
Proof.
  intros Hz. unfold Number_toString.
  pose proof (small_is_finite z Hz) as Hfin. unfold Number_isFinite in Hfin.
  apply Z.ltb_lt in Hfin.
  destruct (Z.leb_spec INFINITY_FROM (Z.abs z)) as [Hinf|_]; [lia|].
  rewrite (round_double_small z Hz).
  destruct (Z.leb_spec (Z.abs z) (2 ^ 53)) as [_|Hbig]; [done | lia].
Qed.

Lemma all_from_spec n z P :
  all_from n z P = true -> forall k, z <= k < z + Z.of_nat n -> P k = true.
Proof.
  revert z. induction n as [|n IH]; intros z Hall k Hk; [lia|].
  cbn [all_from] in Hall. apply andb_prop in Hall as [Hz Hrest].
  destruct (Z.eq_dec k z) as [->|Hne]; [done|].
  apply (IH (z + 1) Hrest). lia.
Qed.

Lemma cost_check_table :
  all_from 200 1 (fun h => all_from 291 10 (cost_check h)) = true.
Proof. vm_compute. reflexivity. Qed.

Lemma cost_check_all h r :
  1 <= h <= 200 -> 10 <= r <= 300 -> cost_check h r = true.
Proof.
  intros Hh Hr.
  pose proof (all_from_spec _ _ _ cost_check_table h ltac:(lia)) as Hrow.
  cbv beta in Hrow. apply (all_from_spec _ _ _ Hrow r). lia.
Qed.

Section SimulatorFacts.
Context {Num : Type} `{JsNumber Num}.
Import SimulatorModule.

Lemma sanitize_cases (v : JsVal Num) lo hi d r :
  sanitize v lo hi d = Normal r ->
  r = d \/ r = Z.max lo (Z.min hi r).
Proof.
  unfold sanitize. destruct (ToString v) as [s|e]; [|done]. rewrite !bind_Normal.
  destruct (parseInt10 s) as [num|]; [|intros [= <-]; by left].
  destruct (Number_isFinite num); intros [= <-]; [right; lia | by left].
Qed.

Lemma sanitize_range (v : JsVal Num) lo hi d r :
  lo <= d <= hi -> sanitize v lo hi d = Normal r -> lo <= r <= hi.
Proof. intros Hd Hs. destruct (sanitize_cases _ _ _ _ _ Hs); lia. Qed.

Lemma sanitize_returns (v : JsVal Num) lo hi d :
  coercible v = true -> exists r, sanitize v lo hi d = Normal r.
Proof.
  intros Hv. apply ToString_returns in Hv as [s Hs].
  unfold sanitize. rewrite Hs, !bind_Normal.
  destruct (parseInt10 s) as [num|]; [|eauto].
  destruct (Number_isFinite num); eauto.
Qed.

Lemma sanitize_throws (v : JsVal Num) lo hi d :
  coercible v = false -> sanitize v lo hi d = Throw TypeError.
Proof.
  intros Hv. unfold sanitize. destruct (ToString v) as [s|e] eqn:Es.
  - assert (coercible v = true) by (apply ToString_returns; eauto). congruence.
  - rewrite bind_Throw. by rewrite (ToString_throws _ _ Es).
Qed.

Lemma sanitize_blank (v : JsVal Num) lo hi d :
  blank_input v = true -> sanitize v lo hi d = Normal d.
Proof.
  unfold sanitize. destruct v as [| |[|]|x|s|l|props]; try done.
  intros Hs. cbn [ToString blank_input] in *. rewrite !bind_Normal.
  unfold parseInt10. by rewrite (trim_start_blank _ Hs).
Qed.

Lemma validateInputs_inv (v : JsVal Num) r :
  validateInputs v = Normal r ->
  sanitize (get v "teamSize") 1 1000 5 = Normal (teamSize r)
  /\ sanitize (get v "decisions") 1 500 20 = Normal (decisions r)
  /\ sanitize (get v "manualHours") 1 200 40 = Normal (manualHours r)
  /\ sanitize (get v "hourlyRate") 10 300 50 = Normal (hourlyRate r).
Proof.
  intros Hr.
  assert (Hp : forall k, property v k = Normal (get v k)).
  { intros k. unfold validateInputs in Hr.
    destruct v; try done; cbn [property] in Hr; by rewrite bind_Throw in Hr. }
  unfold validateInputs in Hr. rewrite !Hp, !bind_Normal in Hr.
  destruct (sanitize (get v "teamSize") 1 1000 5) as [t|];
    [|by rewrite bind_Throw in Hr].
  rewrite !bind_Normal in Hr.
  destruct (sanitize (get v "decisions") 1 500 20) as [dd|];
    [|by rewrite bind_Throw in Hr].
  rewrite !bind_Normal in Hr.
  destruct (sanitize (get v "manualHours") 1 200 40) as [m|];
    [|by rewrite bind_Throw in Hr].
  rewrite !bind_Normal in Hr.
  destruct (sanitize (get v "hourlyRate") 10 300 50) as [h|];
    [|by rewrite bind_Throw in Hr].
  rewrite !bind_Normal in Hr. by injection Hr as <-.
Qed.

Lemma validateInputs_ranges_of (v : JsVal Num) r :
  validateInputs v = Normal r ->
  1 <= teamSize r <= 1000 /\ 1 <= decisions r <= 500
  /\ 1 <= manualHours r <= 200 /\ 10 <= hourlyRate r <= 300.
Proof.
  intros (H1 & H2 & H3 & H4)%validateInputs_inv.
  split; [exact (sanitize_range _ 1 1000 5 _ ltac:(lia) H1)|].
  split; [exact (sanitize_range _ 1 500 20 _ ltac:(lia) H2)|].
  split; [exact (sanitize_range _ 1 200 40 _ ltac:(lia) H3)|].
  exact (sanitize_range _ 10 300 50 _ ltac:(lia) H4).
Qed.

(** X20: whatever object it is given, [validateInputs] hands on values
    inside the ranges of the four sliders: a team of 1 to 1000, 1 to
    500 decisions, 1 to 200 hours and a rate of 10 to 300.  Each is
    the default of its field or a number that the bounds leave as it
    is. *)
Theorem validateInputs_ranges (newInputs : JsVal Num) (r : Inputs) :
  validateInputs newInputs = Normal r ->
  1 <= teamSize r <= 1000 /\ 1 <= decisions r <= 500
  /\ 1 <= manualHours r <= 200 /\ 10 <= hourlyRate r <= 300.
Proof. apply validateInputs_ranges_of. Qed.

(** X21: [validateInputs] returns exactly when its argument is neither
    [undefined] nor [null] and each of the four properties converts to
    a string; otherwise it throws a TypeError.  A property that is
    absent or holds no number does not make it throw. *)
Theorem validateInputs_returns_iff (newInputs : JsVal Num) :
  ((exists r, validateInputs newInputs = Normal r)
   <-> (newInputs <> JUndefined /\ newInputs <> JNull
        /\ forallb (fun k => coercible (get newInputs k))
             ["teamSize"; "decisions"; "manualHours"; "hourlyRate"]%string = true))
  /\ (forall e, validateInputs newInputs = Throw e -> e = TypeError).
Proof.
  assert (Hthrow : forall e, validateInputs newInputs = Throw e -> e = TypeError).
  { intros e. unfold validateInputs.
    assert (Hs : forall v lo hi d e', sanitize v lo hi d = Throw e' -> e' = TypeError).
    { intros v lo hi d e'. destruct (coercible v) eqn:Hv.
      - destruct (sanitize_returns v lo hi d Hv) as [r ->]. done.
      - rewrite (sanitize_throws v lo hi d Hv). by intros [= <-]. }
    destruct newInputs; try (by intros [= <-]); cbn [property]; rewrite !bind_Normal;
    repeat match goal with
    | |- context [sanitize ?v ?lo ?hi ?d] =>
        let E := fresh "E" in
        destruct (sanitize v lo hi d) as [?|?e] eqn:E;
        [rewrite !bind_Normal | rewrite bind_Throw; intros [= <-]; by eapply Hs]
    end; done. }
  split; [|exact Hthrow]. cbn [forallb]. split.
  - intros [r Hr]. split; [by intros ->|]. split; [by intros ->|].
    apply validateInputs_inv in Hr as (H1 & H2 & H3 & H4).
    assert (Hc : forall v lo hi d x, sanitize v lo hi d = Normal x -> coercible v = true).
    { intros v lo hi d x Hx. destruct (coercible v) eqn:Hv; [done|].
      by rewrite (sanitize_throws v lo hi d Hv) in Hx. }
    rewrite (Hc _ _ _ _ _ H1), (Hc _ _ _ _ _ H2), (Hc _ _ _ _ _ H3),
      (Hc _ _ _ _ _ H4). done.
  - intros (Hu & Hn & Hall).
    apply andb_prop in Hall as [C1 Hall]. apply andb_prop in Hall as [C2 Hall].
    apply andb_prop in Hall as [C3 Hall]. apply andb_prop in Hall as [C4 _].
    assert (Hp : forall k, property newInputs k = Normal (get newInputs k)).
    { intros k. by destruct newInputs. }
    unfold validateInputs. rewrite !Hp, !bind_Normal.
    destruct (sanitize_returns _ 1 1000 5 C1) as [t ->]. rewrite !bind_Normal.
    destruct (sanitize_returns _ 1 500 20 C2) as [dd ->]. rewrite !bind_Normal.
    destruct (sanitize_returns _ 1 200 40 C3) as [m ->]. rewrite !bind_Normal.
    destruct (sanitize_returns _ 10 300 50 C4) as [h ->]. rewrite !bind_Normal.
    eauto.
Qed.

(** X22: inputs that hold no number take the defaults: when each of
    the four properties is absent, [null], a boolean or a string of
    white space, the validated inputs are 5, 20, 40 and 50. *)
Theorem blank_inputs_take_defaults (newInputs : JsVal Num) :
  newInputs <> JUndefined -> newInputs <> JNull ->
  forallb (fun k => blank_input (get newInputs k))
    ["teamSize"; "decisions"; "manualHours"; "hourlyRate"]%string = true ->
  validateInputs newInputs
  = Normal {| teamSize := 5; decisions := 20; manualHours := 40; hourlyRate := 50 |}.
Proof.
  intros Hu Hn Hall. cbn [forallb] in Hall.
  apply andb_prop in Hall as [C1 Hall]. apply andb_prop in Hall as [C2 Hall].
  apply andb_prop in Hall as [C3 Hall]. apply andb_prop in Hall as [C4 _].
  assert (Hp : forall k, property newInputs k = Normal (get newInputs k)).
  { intros k. by destruct newInputs. }
  unfold validateInputs. rewrite !Hp, !bind_Normal.
  rewrite (sanitize_blank _ 1 1000 5 C1), !bind_Normal.
  rewrite (sanitize_blank _ 1 500 20 C2), !bind_Normal.
  rewrite (sanitize_blank _ 1 200 40 C3), !bind_Normal.
  rewrite (sanitize_blank _ 10 300 50 C4), bind_Normal.
  done.
Qed.

(** X23: the four results of [calculate] are whole numbers, whatever
    the inputs: with [h] and [r] the validated hours and rate, the
    monthly hours are [4h], the monthly cost is [c = 4hr], the
    optimized cost is three fifths of [c] rounded to the nearest
    integer - the doubles [1 - 0.4] and its product with [c] never
    push [Math.round] to the other side - and the savings are the
    rest, two fifths of [c] to within half a unit. *)
Theorem calculate_results (newInputs : JsVal Num) (res : Results) :
  calculate newInputs = Normal res ->
  exists v,
    validateInputs newInputs = Normal v
    /\ let c := 4 * manualHours v * hourlyRate v in
       let o := (3 * c + 2) / 5 in
       monthlyHours res = number (4 * manualHours v)
       /\ monthlyCost res = number c
       /\ optimizedCost res = number o
       /\ savings res = number (c - o)
       /\ 40 <= c <= 240000
       /\ 2 * c - 2 <= 5 * (c - o) <= 2 * c + 2.
Proof.
  unfold calculate. destruct (validateInputs newInputs) as [v|e] eqn:Hv; [|done].
  rewrite !bind_Normal. intros [= <-]. exists v. split; [done|].
  destruct (validateInputs_ranges_of _ _ Hv) as (_ & _ & Hm & Hr).
  pose proof (cost_check_all _ _ Hm Hr) as Hck.
  unfold cost_check in Hck.
  apply andb_prop in Hck as [Hck H4]. apply andb_prop in Hck as [Hck H3].
  apply andb_prop in Hck as [H1 H2].
  apply FloatAxioms.Leibniz.eqb_spec in H1, H2, H3, H4.
  unfold cost_of, optimized_of in *.
  cbv zeta. cbn [monthlyHours monthlyCost optimizedCost savings].
  split; [exact H1|]. split; [exact H2|]. split; [exact H3|].
  split; [exact H4|]. split; [nia|].
  pose proof (Z.div_mod (3 * (4 * manualHours v * hourlyRate v) + 2) 5 ltac:(lia)).
  pose proof (Z.mod_pos_bound (3 * (4 * manualHours v * hourlyRate v) + 2) 5 ltac:(lia)).
  lia.
Qed.

End SimulatorFacts.

(** X24: [sanitize] reads the integer a text starts with as the
    double nearest to it.  For every integer [z] within the range of
    the doubles and bounds that are doubles, a string that holds the
    decimal numeral of [z] after any white space and before anything
    that is not a digit - a unit, a fraction - gives the double nearest
    to [z], brought between the bounds; a fraction is cut off, not
    rounded.  Below [2^53] in magnitude that double is [z] itself, and
    the number [z] is read back as [z] brought between the bounds. *)
Theorem sanitize_reads_integer (z lo hi d : Z) (ws rest : JsString) :
  Number_isFinite z = true ->
  is_double lo = true -> is_double hi = true ->
  forallb is_ws ws = true ->
  starts_with_digit rest = false ->
  SimulatorModule.sanitize (Num:=Z) (JStr (ws ++ decimal_units z ++ rest)) lo hi d
  = Normal (Z.max lo (Z.min hi (round_double z)))
  /\ (Z.abs z < 2 ^ 53 ->
      round_double z = z
      /\ SimulatorModule.sanitize (JNum z) lo hi d = Normal (Z.max lo (Z.min hi z))).
Proof.
  intros Hfin _ _ Hws Hrest. unfold SimulatorModule.sanitize. cbn [ToString].
  rewrite !bind_Normal. split.
  - by rewrite (parseInt10_decimal ws z rest Hws Hrest), Hfin.
  - intros Hz. split; [by apply round_double_small|].
    change (num_to_string z) with (Number_toString z).
    rewrite (Number_toString_small z Hz).
    pose proof (parseInt10_decimal [] z [] eq_refl eq_refl) as Hp.
    rewrite app_nil_r in Hp.
    change (parseInt10 (decimal_units z) = Some z) in Hp.
    by rewrite Hp, Hfin, (round_double_small z Hz).
Qed.

(** ** The further theorems at sample inputs *)

Local Close Scope N_scope.
Local Open Scope Z_scope.

Lemma lead_handler_throws_witness :
  let body := sample_body (JStr (js "Handel")) (JObj [(js "toString", JNull)]) in
  missing_required body = false
  /\ forallb (fun k => coercible (get body k)) text_fields = false
  /\ lead_handler body sample_env empty_disk = (empty_disk, Uncaught TypeError).
Proof.
  cbn zeta. split; [reflexivity|]. split; [reflexivity|].
  apply (lead_handler_throws
           (sample_body (JStr (js "Handel")) (JObj [(js "toString", JNull)]))
           sample_env empty_disk); reflexivity.
Defined.

Lemma lead_handler_store_failure_witness :
  let body := sample_body (JStr (js "Handel")) JUndefined in
  let env :=
    {| limiter_now := 1700000000000; random16 := js "0.8f3a2c";
       id_now := 1700000000001; iso_now := js "2023-11-14T22:13:20.001Z";
       mkdir_ok := false; append_ok := true |} in
  valid_submission body = true
  /\ lead_handler body env empty_disk = (empty_disk, Uncaught FsError).
Proof.
  cbn zeta. split; [reflexivity|].
  destruct (lead_handler_store_failure
              (sample_body (JStr (js "Handel")) JUndefined)
              {| limiter_now := 1700000000000; random16 := js "0.8f3a2c";
                 id_now := 1700000000001;
                 iso_now := js "2023-11-14T22:13:20.001Z";
                 mkdir_ok := false; append_ok := true |}
              empty_disk eq_refl) as [Hmkdir _].
  exact (Hmkdir eq_refl eq_refl).
Defined.

Lemma stored_file_reads_back_witness :
  let req := sample_request "/api/lead" (sample_body (JStr (js "Handel")) JUndefined) in
  leads_jsonl (files initial_server) = []
  /\ exists leads,
       map JSON_parse
         (file_lines (leads_jsonl (files (fst
            (serve post_api_lead [(req, sample_env)] initial_server)))))
       = map (fun l => Some (lead_object l)) leads
       /\ length leads
          = count_stored (snd (serve post_api_lead [(req, sample_env)] initial_server)).
Proof.
  cbn zeta. split; [reflexivity|].
  apply (stored_file_reads_back post_api_lead
           [(sample_request "/api/lead" (sample_body (JStr (js "Handel")) JUndefined),
             sample_env)]
           initial_server eq_refl).
Defined.

Lemma non_object_body_rejected_witness :
  (forall props, (JNull : JsVal Z) <> JObj props)
  /\ lead_handler (JNull : JsVal Z) sample_env empty_disk
     = (empty_disk, Responded 400 (BodyError MSG_REQUIRED)).
Proof.
  assert (Hno : forall props, (JNull : JsVal Z) <> JObj props)
    by (intros props; discriminate).
  split; [exact Hno|].
  exact (non_object_body_rejected (JNull : JsVal Z) sample_env empty_disk Hno).
Defined.

Lemma forwarded_header_decides_witness :
  let req1 := sample_request "/api/lead" (JObj [] : JsVal Z) in
  let req2 : Request Z :=
    {| req_method := POST; req_path := js "/api/lead";
       x_forwarded_for := Some (js "1.2.3.4");
       remoteAddress := Some (js "10.0.0.7");
       req_body := JObj [] |} in
  x_forwarded_for req1 = Some (js "1.2.3.4")
  /\ x_forwarded_for req2 = Some (js "1.2.3.4")
  /\ trim (before_comma (js "1.2.3.4")) <> []
  /\ client_ip req1 = client_ip req2.
Proof.
  cbn zeta.
  assert (Hne : trim (before_comma (js "1.2.3.4")) <> [])
    by (intros Hx; vm_compute in Hx; discriminate Hx).
  split; [reflexivity|]. split; [reflexivity|]. split; [exact Hne|].
  destruct (forwarded_header_decides
              (sample_request "/api/lead" (JObj [] : JsVal Z))
              {| req_method := POST; req_path := js "/api/lead";
                 x_forwarded_for := Some (js "1.2.3.4");
                 remoteAddress := Some (js "10.0.0.7");
                 req_body := (JObj [] : JsVal Z) |}
              (js "1.2.3.4") 1700000000000 initial_server
              eq_refl eq_refl Hne) as [Hsame _].
  exact Hsame.
Defined.

Lemma serve_keeps_entries_witness :
  let req := sample_request "/api/lead" (sample_body (JStr (js "Handel")) JUndefined) in
  let st := passed_state (js "5.6.7.8") 1699999999000 initial_server in
  0 <= 1699999999000
  /\ lastHitByIp st !! js "5.6.7.8" = Some 1699999999000
  /\ exists t',
       lastHitByIp (fst (serve post_api_lead [(req, sample_env)] st)) !! js "5.6.7.8"
       = Some t'
       /\ 1699999999000 <= t'.
Proof.
  cbn zeta.
  assert (Hl : lastHitByIp (passed_state (js "5.6.7.8") 1699999999000 initial_server)
               !! js "5.6.7.8" = Some 1699999999000)
    by apply lookup_insert_eq.
  split; [lia|]. split; [exact Hl|].
  apply (serve_keeps_entries post_api_lead
           [(sample_request "/api/lead" (sample_body (JStr (js "Handel")) JUndefined),
             sample_env)]
           (passed_state (js "5.6.7.8") 1699999999000 initial_server)
           (js "5.6.7.8") 1699999999000); [lia | exact Hl].
Defined.

Lemma recorded_times_are_request_times_witness :
  let req := sample_request "/api/lead" (sample_body (JStr (js "Handel")) JUndefined) in
  lastHitByIp (fst (serve post_api_lead [(req, sample_env)] initial_server))
    !! js "1.2.3.4" = Some 1700000000000
  /\ 3000 <= 1700000000000.
Proof.
  cbn zeta.
  assert (Hl : lastHitByIp (fst (serve post_api_lead
                 [(sample_request "/api/lead" (sample_body (JStr (js "Handel")) JUndefined),
                   sample_env)] initial_server))
               !! js "1.2.3.4" = Some 1700000000000)
    by apply lookup_insert_eq.
  split; [exact Hl|].
  destruct (recorded_times_are_request_times post_api_lead _ _ _ Hl) as [Hge _].
  exact Hge.
Defined.

Lemma rejected_submission_starts_window_witness :
  let req1 := sample_request "/api/lead" (JObj [] : JsVal Z) in
  let req2 := sample_request "/api/lead" (sample_body (JStr (js "Handel")) JUndefined) in
  let later :=
    {| limiter_now := 1700000001000; random16 := js "0.1b";
       id_now := 1700000001001; iso_now := js "2023-11-14T22:13:21.001Z";
       mkdir_ok := true; append_ok := true |} in
  missing_required (req_body req1) = true
  /\ limiter_rejects req1 (limiter_now sample_env) initial_server = false
  /\ limiter_now later - limiter_now sample_env < 3000
  /\ snd (app post_api_lead req1 sample_env initial_server)
     = Responded 400 (BodyError MSG_REQUIRED)
  /\ snd (app post_api_lead req2 later
            (fst (app post_api_lead req1 sample_env initial_server)))
     = Responded 429 (BodyError MSG_TOO_FAST).
Proof.
  cbn zeta. split; [reflexivity|]. split; [reflexivity|]. split; [reflexivity|].
  destruct (rejected_submission_starts_window post_api_lead
              (sample_request "/api/lead" (JObj [] : JsVal Z))
              (sample_request "/api/lead" (sample_body (JStr (js "Handel")) JUndefined))
              sample_env
              {| limiter_now := 1700000001000; random16 := js "0.1b";
                 id_now := 1700000001001;
                 iso_now := js "2023-11-14T22:13:21.001Z";
                 mkdir_ok := true; append_ok := true |}
              initial_server
              eq_refl eq_refl eq_refl eq_refl eq_refl eq_refl eq_refl)
    as (H400 & H429 & _).
  split; [exact H400|]. cbv zeta in H429. by rewrite H429.
Defined.

Lemma throttled_retries_change_nothing_witness :
  let req := sample_request "/api/lead" (sample_body (JStr (js "Handel")) JUndefined) in
  let later :=
    {| limiter_now := 1700000001000; random16 := js "0.1b";
       id_now := 1700000001001; iso_now := js "2023-11-14T22:13:21.001Z";
       mkdir_ok := true; append_ok := true |} in
  let st := passed_state (js "1.2.3.4") 1700000000000 initial_server in
  lastHitByIp st !! js "1.2.3.4" = Some 1700000000000
  /\ serve post_api_lead [(req, later); (req, later)] st
     = (st, [Responded 429 (BodyError MSG_TOO_FAST);
             Responded 429 (BodyError MSG_TOO_FAST)]).
Proof.
  cbn zeta.
  assert (Hl : lastHitByIp (passed_state (js "1.2.3.4") 1700000000000 initial_server)
               !! js "1.2.3.4" = Some 1700000000000)
    by apply lookup_insert_eq.
  split; [exact Hl|].
  set (req := sample_request "/api/lead" (sample_body (JStr (js "Handel")) JUndefined)).
  set (later := {| limiter_now := 1700000001000; random16 := js "0.1b";
                   id_now := 1700000001001;
                   iso_now := js "2023-11-14T22:13:21.001Z";
                   mkdir_ok := true; append_ok := true |}).
  assert (Hall : Forall (fun re : Request Z * Env =>
                    startsWith (js "/api/") (req_path (fst re)) = true
                    /\ client_ip (fst re) = js "1.2.3.4"
                    /\ limiter_now (snd re) - 1700000000000 < 3000)
                   [(req, later); (req, later)])
    by (repeat constructor).
  exact (throttled_retries_change_nothing post_api_lead
           [(req, later); (req, later)] _ (js "1.2.3.4") 1700000000000 Hl Hall).
Defined.

Lemma validateInputs_ranges_witness :
  let input : JsVal Z :=
    JObj [ (js "teamSize", JNum 2000);
           (js "manualHours", JStr (js " 12.5h"));
           (js "hourlyRate", JStr (js "-3")) ] in
  SimulatorModule.validateInputs input
  = Normal {| SimulatorModule.teamSize := 1000; SimulatorModule.decisions := 20;
              SimulatorModule.manualHours := 12; SimulatorModule.hourlyRate := 10 |}
  /\ 1 <= 1000 <= 1000 /\ 1 <= 20 <= 500 /\ 1 <= 12 <= 200 /\ 10 <= 10 <= 300.
Proof.
  cbn zeta.
  assert (Hv : SimulatorModule.validateInputs
                 (JObj [ (js "teamSize", JNum 2000);
                         (js "manualHours", JStr (js " 12.5h"));
                         (js "hourlyRate", JStr (js "-3")) ] : JsVal Z)
               = Normal {| SimulatorModule.teamSize := 1000;
                           SimulatorModule.decisions := 20;
                           SimulatorModule.manualHours := 12;
                           SimulatorModule.hourlyRate := 10 |})
    by (vm_compute; reflexivity).
  split; [exact Hv|].
  exact (validateInputs_ranges _ _ Hv).
Defined.

Lemma blank_inputs_take_defaults_witness :
  let input : JsVal Z :=
    JObj [ (js "teamSize", JStr (js "  ")); (js "decisions", JBool true) ] in
  input <> JUndefined /\ input <> JNull
  /\ SimulatorModule.validateInputs input
     = Normal {| SimulatorModule.teamSize := 5; SimulatorModule.decisions := 20;
                 SimulatorModule.manualHours := 40; SimulatorModule.hourlyRate := 50 |}.
Proof.
  cbn zeta. split; [discriminate|]. split; [discriminate|].
  apply (blank_inputs_take_defaults
           (JObj [ (js "teamSize", JStr (js "  ")); (js "decisions", JBool true) ]
            : JsVal Z)); [discriminate | discriminate | reflexivity].
Defined.

Lemma calculate_results_witness :
  let input : JsVal Z :=
    JObj [ (js "manualHours", JNum 10); (js "hourlyRate", JNum 101) ] in
  let res :=
    {| SimulatorModule.monthlyHours := number 40;
       SimulatorModule.monthlyCost := number 4040;
       SimulatorModule.optimizedCost := number 2424;
       SimulatorModule.savings := number 1616 |} in
  SimulatorModule.calculate input = Normal res
  /\ exists v, SimulatorModule.validateInputs input = Normal v
       /\ SimulatorModule.optimizedCost res
          = number ((3 * (4 * SimulatorModule.manualHours v
                          * SimulatorModule.hourlyRate v) + 2) / 5).
Proof.
  cbn zeta.
  assert (Hc : SimulatorModule.calculate
                 (JObj [ (js "manualHours", JNum 10); (js "hourlyRate", JNum 101) ]
                  : JsVal Z)
               = Normal {| SimulatorModule.monthlyHours := number 40;
                           SimulatorModule.monthlyCost := number 4040;
                           SimulatorModule.optimizedCost := number 2424;
                           SimulatorModule.savings := number 1616 |})
    by (vm_compute; reflexivity).
  split; [exact Hc|].
  destruct (calculate_results _ _ Hc) as (v & Hv & _ & _ & Ho & _).
  exists v. split; [exact Hv | exact Ho].
Defined.

Lemma sanitize_reads_integer_witness :
  Number_isFinite 9007199254740993 = true
  /\ is_double 0 = true /\ is_double (10 ^ 20) = true
  /\ forallb is_ws (js " ") = true
  /\ starts_with_digit (js ".9") = false
  /\ SimulatorModule.sanitize (Num:=Z)
       (JStr (js " " ++ decimal_units 9007199254740993 ++ js ".9")) 0 (10 ^ 20) 5
     = Normal 9007199254740992.
Proof.
  assert (Hfin : Number_isFinite 9007199254740993 = true) by (vm_compute; reflexivity).
  assert (Hlo : is_double 0 = true) by (vm_compute; reflexivity).
  assert (Hhi : is_double (10 ^ 20) = true) by (vm_compute; reflexivity).
  split; [exact Hfin|]. split; [exact Hlo|]. split; [exact Hhi|].
  split; [reflexivity|]. split; [reflexivity|].
  destruct (sanitize_reads_integer 9007199254740993 0 (10 ^ 20) 5 (js " ") (js ".9")
              Hfin Hlo Hhi eq_refl eq_refl) as [Hs _].
  exact Hs.
Defined.

Lemma other_case_is_not_limited_witness :
  let req : Request Z :=
    {| req_method := POST; req_path := js "/API/lead";
       x_forwarded_for := Some (js "1.2.3.4");
       remoteAddress := Some (js "::1");
       req_body := sample_body (JStr (js "Handel")) JUndefined |} in
  let st := passed_state (js "1.2.3.4") 1700000000000 initial_server in
  post_api_lead req = true
  /\ startsWith (js "/api/") (req_path req) = false
  /\ snd (app post_api_lead req sample_env st) = Responded 200 BodyOk
  /\ snd (app post_api_lead
            (sample_request "/api/lead" (sample_body (JStr (js "Handel")) JUndefined))
            sample_env st)
     = Responded 429 (BodyError MSG_TOO_FAST).
Proof.
  cbn zeta. split; [reflexivity|]. split; [reflexivity|].
  destruct (other_case_is_not_limited
              {| req_method := POST; req_path := js "/API/lead";
                 x_forwarded_for := Some (js "1.2.3.4");
                 remoteAddress := Some (js "::1");
                 req_body := sample_body (JStr (js "Handel")) JUndefined |}
              sample_env
              (passed_state (js "1.2.3.4") 1700000000000 initial_server)
              eq_refl eq_refl) as [Hrun _].
  split; [by rewrite Hrun | reflexivity].
Defined.

(** ** Numbers at sample inputs *)

(** [round_double] is the conversion of the machine: on the integers
    around [2^53], [2^57] and [2^62] it gives what the primitive
    conversion of a 63-bit integer to a double gives. *)
Example round_double_is_the_machine_rounding :
  all_from 2048 (2 ^ 53 - 8)
    (fun z => float_integer (PrimFloat.of_uint63 (Uint63.of_Z z)) =? round_double z)
  && all_from 2048 (2 ^ 57 + 1)
       (fun z => float_integer (PrimFloat.of_uint63 (Uint63.of_Z (7 * z)))
                 =? round_double (7 * z))
  && all_from 2048 (2 ^ 62 - 1024)
       (fun z => float_integer (PrimFloat.of_uint63 (Uint63.of_Z z)) =? round_double z)
  = true.
Proof. vm_compute. reflexivity. Qed.

Example numbers_as_strings :
  num_to_string (2 ^ 53) = js "9007199254740992"
  /\ num_to_string (2 ^ 53 + 1) = js "9007199254740992"
  /\ num_to_string (2 ^ 64) = js "18446744073709552000"
  /\ num_to_string (- 2 ^ 63) = js "-9223372036854776000"
  /\ num_to_string (10 ^ 20) = js "100000000000000000000"
  /\ num_to_string (10 ^ 21) = js "1e+21"
  /\ num_to_string (10 ^ 23) = js "1e+23"
  /\ num_to_string (2 ^ 70) = js "1.1805916207174113e+21"
  /\ num_to_string (2 ^ 1024) = js "Infinity".
Proof. repeat split; vm_compute; reflexivity. Qed.

(** A number of 21 digits or more is printed with an exponent, and
    [parseInt] reads the digits before the point. *)
Example sanitize_reads_the_text_of_a_number :
  SimulatorModule.sanitize (JNum (10 ^ 21)) 0 10000 5 = Normal 1
  /\ SimulatorModule.sanitize (JNum (2 ^ 64)) 0 (2 ^ 70) 5
     = Normal 18446744073709551616
  /\ SimulatorModule.sanitize (Num:=Z) (JStr (js "9007199254740993")) 0 (10 ^ 20) 5
     = Normal 9007199254740992
  /\ SimulatorModule.sanitize (JNum (2 ^ 1024)) 0 10000 5 = Normal 5.
Proof. repeat split; vm_compute; reflexivity. Qed.
